(** * Signal inbound monitor: reaction notifications and access policy

    A shallow embedding of [src/signal/monitor.ts]: the reaction-target
    resolution, the reaction-notification decision, the per-frame event
    handler [handleEvent] with its reaction path and its conversational
    path (pairing, allow-lists, command authorisation, dispatch), the
    delivery of replies and the wait for the daemon.

    Conventions of the embedding.
    - A JavaScript string is a [string] whose characters are its code
      units; the model is exact for strings whose code units are below 256.
    - [null] and [undefined] are both [None]: the source only ever tests
      them through [??], [?.] and truthiness, which do not tell them apart.
    - A JavaScript number that the handler reads (time stamps, sizes) is an
      integer [Z].
    - An [async] function is a computation in the monad [M], one run of
      it at a time.  Every call that leaves the module is recorded, in
      order, in the list of [Call]s the computation returns, the way the
      test suite's mocks record them.
    - The stream loop does not wait for a handler before it starts the
      next one.  A run of [handleEvent] is therefore described on its own:
      what other handlers do while this one waits for a call is part of
      what that call does to the world, and the properties of a run hold
      for all collaborators and all worlds.  Only [onEvents] fixes an
      order, that of frames whose handlers do not overlap. *)

From Stdlib Require Import String Ascii List Bool ZArith Lia DecimalString.
Import ListNotations.
Local Open Scope list_scope.
Local Open Scope string_scope.

(** ** JavaScript primitives *)

Module Js.

(** Truthiness of a string: only the empty string is falsy. *)
Definition truthy (s : string) : bool := negb (s =? "").

(** Truthiness of an optional string ([undefined], [null] and [""] are
    falsy). *)
Definition truthyOpt (o : option string) : bool :=
  match o with Some s => truthy s | None => false end.

(** [a ?? b] *)
Definition nullish {A : Type} (a : option A) (b : A) : A :=
  match a with Some x => x | None => b end.

(** [a ?? b] where [b] may itself be absent. *)
Definition nullishOpt {A : Type} (a b : option A) : option A :=
  match a with Some x => Some x | None => b end.

(** [a || b] on optional strings. *)
Definition orOpt (a b : option string) : option string :=
  if truthyOpt a then a else b.

(** [a || b] where [b] is a string. *)
Definition orStr (a : option string) (b : string) : string :=
  match a with Some s => if truthy s then s else b | None => b end.

(** White space removed by [String.prototype.trim], among the code units
    below 256: TAB, LF, VT, FF, CR, SPACE and NBSP. *)
Definition isSpace (c : ascii) : bool :=
  let n := nat_of_ascii c in
  ((9 <=? n) && (n <=? 13) || (n =? 32) || (n =? 160))%nat.

Fixpoint trimStart (s : string) : string :=
  match s with
  | EmptyString => EmptyString
  | String c rest => if isSpace c then trimStart rest else s
  end.

Fixpoint rev (s : string) : string :=
  match s with
  | EmptyString => EmptyString
  | String c rest => rev rest ++ String c EmptyString
  end.

Definition trimEnd (s : string) : string := rev (trimStart (rev s)).

Definition trim (s : string) : string := trimEnd (trimStart s).

(** [String(n)] for an integer [n] below [10^21] in absolute value, which
    JavaScript prints in full; beyond that it prints an exponent, which
    this function does not. *)
Definition numberToString (n : Z) : string :=
  NilZero.string_of_int (Z.to_int n).

(** [xs.filter(Boolean).join(sep)] on an array of strings. *)
Definition joinTruthy (sep : string) (xs : list string) : string :=
  String.concat sep (filter truthy xs).

(** [s.replace(/\n/g, "\\n")] *)
Fixpoint escapeNewlines (s : string) : string :=
  match s with
  | EmptyString => EmptyString
  | String c rest =>
      if (nat_of_ascii c =? 10)%nat
      then String "\" (String "n" (escapeNewlines rest))
      else String c (escapeNewlines rest)
  end.

(** The double-quote character, as a string. *)
Definition dquote : string := String (ascii_of_nat 34) EmptyString.

(** [(bytes / (1024 * 1024)).toFixed(0)]: the nearest integer, a tie going
    away from zero, the sign kept in front. *)
Definition toFixed0Mb (bytes : Z) : string :=
  let mb := 1048576%Z in
  if (bytes <? 0)%Z
  then "-" ++ numberToString ((2 * (- bytes) + mb) / (2 * mb))
  else numberToString ((2 * bytes + mb) / (2 * mb)).

(** An [unknown] value, as far as its truthiness goes. *)
Inductive Unknown : Type :=
| UBool (b : bool)
| UNumber (n : Z)
| UString (s : string)
| UObject.

Definition truthyUnknown (v : option Unknown) : bool :=
  match v with
  | None => false
  | Some (UBool b) => b
  | Some (UNumber n) => negb (n =? 0)%Z
  | Some (UString s) => truthy s
  | Some UObject => true
  end.

End Js.

(** ** Data model (the type declarations of [monitor.ts]) *)

Record GroupInfo : Type := {
  groupId : option string;
  groupName : option string
}.

Record SignalReactionMessage : Type := {
  emoji : option string;
  targetAuthor : option string;
  targetAuthorUuid : option string;
  targetSentTimestamp : option Z;
  isRemove : option bool;
  reactionGroupInfo : option GroupInfo
}.

Record SignalAttachment : Type := {
  attachmentId : option string;
  contentType : option string;
  filename : option string;
  size : option Z
}.

Record SignalQuote : Type := { quoteText : option string }.

Record SignalDataMessage : Type := {
  dataTimestamp : option Z;
  message : option string;
  attachments : option (list SignalAttachment);
  groupInfo : option GroupInfo;
  quote : option SignalQuote
}.

Record SignalEditMessage : Type := {
  editDataMessage : option SignalDataMessage
}.

Record SignalEnvelope : Type := {
  sourceNumber : option string;
  sourceUuid : option string;
  sourceName : option string;
  timestamp : option Z;
  dataMessage : option SignalDataMessage;
  editMessage : option SignalEditMessage;
  syncMessage : option Js.Unknown;
  reactionMessage : option SignalReactionMessage
}.

Record SignalException : Type := { exceptionMessage : option string }.

Record SignalReceivePayload : Type := {
  payloadAccount : option string;
  envelope : option SignalEnvelope;
  exception : option SignalException
}.

Record SseEvent : Type := {
  eventName : option string;
  eventData : option string
}.

Inductive TargetKind : Type := KindPhone | KindUuid.

Record SignalReactionTarget : Type := {
  kind : TargetKind;
  id : string;
  display : string
}.

(** Modelled from the spec: [SignalReactionNotificationMode] is declared in
    [../config/types.js]; the spec gives it as the enumeration
    off, own, allowlist, all. *)
Inductive SignalReactionNotificationMode : Type :=
| ModeOff | ModeOwn | ModeAllowlist | ModeAll.

(** Modelled from the spec: the direct-message and group policies are
    declared in [../config/types.js]; the spec gives the policies
    open, pairing, disabled, allowlist, and the handler compares the group
    policy with disabled and allowlist only. *)
Inductive DmPolicy : Type := DmOpen | DmPairing | DmDisabled | DmAllowlist.
Inductive GroupPolicy : Type := GroupOpen | GroupDisabled | GroupAllowlist.

(** Modelled from the spec: the sender identity is declared in
    [./identity.js]; the spec gives it as the tagged union
    [{kind: phone, e164} | {kind: uuid, id}], and the handler reads
    [sender.kind] and [sender.e164]. *)
Inductive SignalSender : Type :=
| SenderPhone (e164 : string)
| SenderUuid (uuid : string).

Inductive PeerKind : Type := PeerGroup | PeerDm.

Record AgentRoute : Type := {
  sessionKey : string;
  mainSessionKey : string;
  routeAccountId : string;
  agentId : string
}.

(** The context handed to the reply pipeline ([ctxPayload]). *)
Record MsgContext : Type := {
  Body : string;
  From : string;
  To : string;
  SessionKey : string;
  AccountId : string;
  ChatType : string;
  GroupSubject : option string;
  SenderName : string;
  SenderId : string;
  MessageSid : option string;
  Timestamp : option Z;
  MediaPath : option string;
  MediaType : option string;
  MediaUrl : option string;
  CommandAuthorized : bool;
  OriginatingTo : string
}.

Record SavedMedia : Type := {
  savedPath : string;
  savedContentType : option string
}.

(** ** Replies and their delivery ([deliverReplies]) *)

(** The fields of a reply that [deliverReplies] reads ([ReplyPayload] is
    declared in [../auto-reply/types.js]). *)
Record ReplyPayload : Type := {
  replyText : option string;
  mediaUrl : option string;
  mediaUrls : option (list string)
}.

(** What [deliverReplies] does to the outside: a message sent (with the
    [mediaUrl] option when there is one) or a line given to [runtime.log]. *)
Inductive DeliveryCall : Type :=
| DSendMessage (target text : string) (media : option string)
| DRuntimeLog (msg : string).

Definition isDelivery (c : DeliveryCall) : bool :=
  match c with DSendMessage _ _ _ => true | DRuntimeLog _ => false end.

(** What the reply dispatcher ([createReplyDispatcher], outside this
    module) does with the two callbacks the handler gives it: a call made
    by [deliver], that is by [deliverReplies], or a failure reported to
    [onError] with the kind of the reply that failed. *)
Inductive DispatcherCall : Type :=
| Delivered (call : DeliveryCall)
| Failed (err kind : string).

(** ** Calls that leave the module

    [CSendMessage] is the call of [sendMessageSignal] that [handleEvent]
    makes itself, for the pairing reply.  The calls that [deliverReplies]
    makes for the dispatcher, [sendMessageSignal] with or without a media
    URL and [runtime.log], are the [CDeliver] calls. *)

Inductive Call : Type :=
| CRuntimeError (msg : string)
| CLogVerbose (msg : string)
| CReadAllowFromStore (provider : string)
| CUpsertPairingRequest (provider senderId : string) (name : option string)
| CSendMessage (to text : string)
| CEnqueueSystemEvent (text sessionKey contextKey : string)
| CUpdateLastRoute (storePath sessionKey provider to accountId : string)
| CRpcGetAttachment (attachment : string) (account groupId recipient : option string)
| CSaveMediaBuffer (data : string) (contentType : option string) (maxBytes : Z)
| CDispatch (ctx : MsgContext) (disableBlockStreaming : option bool)
| CDeliver (delivery : DeliveryCall).

Definition isEnqueue (c : Call) : bool :=
  match c with CEnqueueSystemEvent _ _ _ => true | _ => false end.
Definition isSend (c : Call) : bool :=
  match c with CSendMessage _ _ => true | _ => false end.
Definition isUpsert (c : Call) : bool :=
  match c with CUpsertPairingRequest _ _ _ => true | _ => false end.
Definition isUpdateLastRoute (c : Call) : bool :=
  match c with CUpdateLastRoute _ _ _ _ _ => true | _ => false end.
Definition isDispatch (c : Call) : bool :=
  match c with CDispatch _ _ => true | _ => false end.
Definition isStoreRead (c : Call) : bool :=
  match c with CReadAllowFromStore _ => true | _ => false end.
Definition isLog (c : Call) : bool :=
  match c with CRuntimeError _ | CLogVerbose _ => true | _ => false end.
Definition isMedia (c : Call) : bool :=
  match c with
  | CRpcGetAttachment _ _ _ _ | CSaveMediaBuffer _ _ _ => true
  | _ => false
  end.

(** A call made by [deliverReplies] for the dispatcher. *)
Definition isDeliver (c : Call) : bool :=
  match c with CDeliver _ => true | _ => false end.
(** A reply message sent by [deliverReplies]. *)
Definition isReplySend (c : Call) : bool :=
  match c with CDeliver (DSendMessage _ _ _) => true | _ => false end.
(** Any call of [sendMessageSignal], the pairing reply or a reply of the
    pipeline: what the [sendMock] of the test suite counts. *)
Definition isOutbound (c : Call) : bool := isSend c || isReplySend c.

(** How often the calls selected by [p] occur ([toHaveBeenCalledTimes]). *)
Definition calledTimes (p : Call -> bool) (cs : list Call) : nat :=
  length (filter p cs).

(** ** Results and the handler monad *)

(** The outcome of a call that may throw (or of a promise that may
    reject); the error is kept as its rendering [String(err)]. *)
Inductive Except (A : Type) : Type :=
| Returns (a : A)
| Throws (err : string).
Arguments Returns {A} a.
Arguments Throws {A} err.

(** ** Delivering replies ([deliverReplies]) *)

Section Delivery.

Context {W : Type}.

(** [chunkText] of [../auto-reply/chunk.js] and [sendMessageSignal] of
    [./send.js], the latter with the [mediaUrl] of its options. *)
Variable chunkText : string -> Z -> list string.
Variable sendMessageSignal :
  string -> string -> option string -> W -> Except unit * W.

Definition Delivering (A : Type) : Type := W -> Except A * W * list DeliveryCall.

Definition sendTo (target text : string) (media : option string)
  : Delivering unit :=
  fun w =>
    match sendMessageSignal target text media w with
    | (r, w1) => (r, w1, [DSendMessage target text media])
    end.

Definition andThen (m : Delivering unit) (k : Delivering unit)
  : Delivering unit :=
  fun w =>
    match m w with
    | (Returns _, w1, cs1) =>
        match k w1 with (r, w2, cs2) => (r, w2, (cs1 ++ cs2)%list) end
    | (Throws err, w1, cs1) => (Throws err, w1, cs1)
    end.

Definition done : Delivering unit := fun w => (Returns tt, w, []).

(** [for (const chunk of chunkText(text, textLimit)) await send(chunk)] *)
Fixpoint sendChunks (target : string) (chunks : list string) : Delivering unit :=
  match chunks with
  | [] => done
  | chunk :: rest => andThen (sendTo target chunk None) (sendChunks target rest)
  end.

(** The loop over [mediaList], [first] being its flag. *)
Fixpoint sendMedia (target text : string) (first : bool) (urls : list string)
  : Delivering unit :=
  match urls with
  | [] => done
  | url :: rest =>
      let caption := if first then text else "" in
      andThen (sendTo target caption (Some url))
              (sendMedia target text false rest)
  end.

(** [payload.mediaUrls ?? (payload.mediaUrl ? [payload.mediaUrl] : [])] *)
Definition mediaListOf (payload : ReplyPayload) : list string :=
  match mediaUrls payload with
  | Some urls => urls
  | None => if Js.truthyOpt (mediaUrl payload)
            then [Js.nullish (mediaUrl payload) ""]
            else []
  end.

(** One turn of the loop over [replies]. *)
Definition deliverReply (target : string) (textLimit : Z)
  (payload : ReplyPayload) : Delivering unit :=
  let mediaList := mediaListOf payload in
  let text := Js.nullish (replyText payload) "" in
  if negb (Js.truthy text) && (length mediaList =? 0)%nat then done
  else
    andThen
      (if (length mediaList =? 0)%nat
       then sendChunks target (chunkText text textLimit)
       else sendMedia target text true mediaList)
      (fun w => (Returns tt, w, [DRuntimeLog ("delivered reply to " ++ target)])).

Fixpoint deliverReplies (replies : list ReplyPayload) (target : string)
  (textLimit : Z) : Delivering unit :=
  match replies with
  | [] => done
  | payload :: rest =>
      andThen (deliverReply target textLimit payload)
              (deliverReplies rest target textLimit)
  end.

(** What a reply asks for: nothing when it has neither text nor media, its
    chunks when it has no media, else one message per media URL with the
    text as the caption of the first; then the log line. *)
Definition deliveryPlan (target : string) (textLimit : Z)
  (payload : ReplyPayload) : list DeliveryCall :=
  let text := Js.nullish (replyText payload) "" in
  match mediaListOf payload with
  | [] =>
      if Js.truthy text
      then (map (fun chunk => DSendMessage target chunk None)
                (chunkText text textLimit)
            ++ [DRuntimeLog ("delivered reply to " ++ target)])%list
      else []
  | url :: rest =>
      (DSendMessage target text (Some url)
       :: map (fun u => DSendMessage target "" (Some u)) rest
       ++ [DRuntimeLog ("delivered reply to " ++ target)])%list
  end.

End Delivery.

(** ** Settings resolved when the monitor starts
    ([monitorSignalProvider], before the handler is built) *)

Inductive AllowEntry : Type :=
| EntryString (s : string)
| EntryNumber (n : Z).

Definition entryToString (entry : AllowEntry) : string :=
  match entry with
  | EntryString s => s
  | EntryNumber n => Js.numberToString n
  end.

Definition normalizeAllowList (raw : option (list AllowEntry)) : list string :=
  filter Js.truthy
    (map (fun entry => Js.trim (entryToString entry)) (Js.nullish raw [])).

Record MonitorSignalOpts : Type := {
  optAccount : option string;
  optAccountId : option string;
  optBaseUrl : option string;
  optIgnoreAttachments : option bool;
  optAllowFrom : option (list AllowEntry);
  optGroupAllowFrom : option (list AllowEntry);
  optMediaMaxMb : option Z
}.

Record SignalAccountConfig : Type := {
  cfgAccount : option string;
  cfgDmPolicy : option DmPolicy;
  cfgAllowFrom : option (list AllowEntry);
  cfgGroupAllowFrom : option (list AllowEntry);
  cfgGroupPolicy : option GroupPolicy;
  cfgReactionNotifications : option SignalReactionNotificationMode;
  cfgReactionAllowlist : option (list AllowEntry);
  cfgMediaMaxMb : option Z;
  cfgIgnoreAttachments : option bool;
  cfgBlockStreaming : option bool
}.

Record AccountInfo : Type := {
  infoAccountId : string;
  infoBaseUrl : string;
  infoConfig : SignalAccountConfig
}.

Record Settings : Type := {
  accountId : string;
  baseUrl : string;
  account : option string;
  dmPolicy : DmPolicy;
  allowFrom : list string;
  groupAllowFrom : list string;
  groupPolicy : GroupPolicy;
  reactionMode : SignalReactionNotificationMode;
  reactionAllowlist : list string;
  mediaMaxBytes : Z;
  ignoreAttachments : bool;
  blockStreaming : option bool
}.

Definition resolveSettings (opts : MonitorSignalOpts) (accountInfo : AccountInfo)
  : Settings :=
  let config := infoConfig accountInfo in
  {| accountId := infoAccountId accountInfo;
     baseUrl := Js.orStr (option_map Js.trim (optBaseUrl opts))
                         (infoBaseUrl accountInfo);
     account := Js.orOpt (option_map Js.trim (optAccount opts))
                         (option_map Js.trim (cfgAccount config));
     dmPolicy := Js.nullish (cfgDmPolicy config) DmPairing;
     allowFrom :=
       normalizeAllowList (Js.nullishOpt (optAllowFrom opts) (cfgAllowFrom config));
     groupAllowFrom :=
       normalizeAllowList
         (Some (Js.nullish
            (Js.nullishOpt (optGroupAllowFrom opts) (cfgGroupAllowFrom config))
            (match cfgAllowFrom config with
             | Some l => if (0 <? length l)%nat then l else []
             | None => []
             end)));
     groupPolicy := Js.nullish (cfgGroupPolicy config) GroupOpen;
     reactionMode := Js.nullish (cfgReactionNotifications config) ModeOwn;
     reactionAllowlist := normalizeAllowList (cfgReactionAllowlist config);
     mediaMaxBytes :=
       (Js.nullish (Js.nullishOpt (optMediaMaxMb opts) (cfgMediaMaxMb config)) 8
        * 1024 * 1024)%Z;
     ignoreAttachments :=
       Js.nullish
         (Js.nullishOpt (optIgnoreAttachments opts) (cfgIgnoreAttachments config))
         false;
     blockStreaming := cfgBlockStreaming config |}.

(** ** Collaborators

    Everything [monitor.ts] imports from the rest of the repository.  The
    pure helpers are functions; the stores, the transport and the reply
    pipeline act on a [World] and may throw.

    The reply pipeline is [dispatchReplyFromConfig] together with the
    dispatcher that [createReplyDispatcher] builds: it is given the
    context, [disableBlockStreaming], the response prefix and the [deliver]
    callback of the handler, and answers with what the dispatcher did
    through [deliver] and [onError], in order. *)

Record Collaborators : Type := {
  World : Type;
  (* ../utils.js *)
  normalizeE164 : string -> string;
  (* ./identity.js; resolveSignalSender is given the sender fields of the
     envelope, sourceNumber and sourceUuid *)
  resolveSignalSender : option string -> option string -> option SignalSender;
  isSignalSenderAllowed : SignalSender -> list string -> bool;
  formatSignalSenderDisplay : SignalSender -> string;
  formatSignalSenderId : SignalSender -> string;
  formatSignalPairingIdLine : SignalSender -> string;
  resolveSignalPeerId : SignalSender -> string;
  resolveSignalRecipient : SignalSender -> string;
  (* JSON.parse, typed as the handler casts its result *)
  JSON_parse : string -> Except (option SignalReceivePayload);
  (* ../routing/resolve-route.js, ../config/sessions.js *)
  resolveAgentRoute : string -> string -> PeerKind -> string -> AgentRoute;
  resolveStorePath : string -> string;
  (* ../pairing/pairing-messages.js, ../auto-reply/envelope.js,
     ../media/constants.js, ../globals.js *)
  buildPairingReply : string -> string -> string -> string;
  formatAgentEnvelope : string -> string -> option Z -> string -> string;
  mediaKindFromMime : option string -> option string;
  danger : string -> string;
  shouldLogVerbose : World -> bool;
  (* ../pairing/pairing-store.js *)
  readProviderAllowFromStore : string -> World -> Except (list string) * World;
  upsertProviderPairingRequest :
    string -> string -> option string -> World -> Except (string * bool) * World;
  (* ./send.js, ../infra/system-events.js, ../config/sessions.js;
     sendMessageSignal is given the target, the text and the mediaUrl of
     its options, the other options (baseUrl, account, maxBytes, accountId)
     being the settings of the monitor in every call *)
  sendMessageSignal :
    string -> string -> option string -> World -> Except unit * World;
  enqueueSystemEvent : string -> string -> string -> World -> Except unit * World;
  updateLastRoute :
    string -> string -> string -> string -> string -> World -> Except unit * World;
  (* ./client.js, ../media/store.js *)
  signalRpcGetAttachment :
    string -> option string -> option string -> option string ->
    World -> Except (option string) * World;
  saveMediaBuffer :
    string -> option string -> Z -> World -> Except SavedMedia * World;
  (* ../auto-reply/chunk.js: chunkText, and resolveTextChunkLimit given the
     provider and the account id; ../agents/identity.js:
     resolveEffectiveMessagesConfig(cfg, agentId).responsePrefix *)
  chunkText : string -> Z -> list string;
  resolveTextChunkLimit : string -> string -> Z;
  resolveResponsePrefix : string -> option string;
  (* ../auto-reply/reply/dispatch-from-config.js, with the dispatcher built
     by createReplyDispatcher of ../auto-reply/reply/reply-dispatcher.js *)
  dispatchReplyFromConfig :
    MsgContext -> option bool -> option string ->
    (ReplyPayload -> World -> Except unit * World * list DeliveryCall) ->
    World -> Except bool * World * list DispatcherCall
}.

Section Monitor.

Context (E : Collaborators).

(** *** The handler monad: world passing, thrown errors, recorded calls *)

Definition M (A : Type) : Type := World E -> Except A * World E * list Call.

Definition ret {A : Type} (a : A) : M A := fun w => (Returns a, w, []).

Definition throw {A : Type} (err : string) : M A := fun w => (Throws err, w, []).

Definition bind {A B : Type} (m : M A) (f : A -> M B) : M B :=
  fun w =>
    match m w with
    | (Returns a, w1, cs1) =>
        match f a w1 with (r, w2, cs2) => (r, w2, (cs1 ++ cs2)%list) end
    | (Throws err, w1, cs1) => (Throws err, w1, cs1)
    end.

(** [try { m } catch (err) { handler err }] *)
Definition tryCatch {A : Type} (m : M A) (handler : string -> M A) : M A :=
  fun w =>
    match m w with
    | (Returns a, w1, cs1) => (Returns a, w1, cs1)
    | (Throws err, w1, cs1) =>
        match handler err w1 with (r, w2, cs2) => (r, w2, (cs1 ++ cs2)%list) end
    end.

(** A call that leaves the module: recorded, then answered by the world. *)
Definition external {A : Type} (c : Call) (f : World E -> Except A * World E)
  : M A :=
  fun w => match f w with (r, w1) => (r, w1, [c]) end.

(** A log line: recorded, the world is untouched. *)
Definition emit (c : Call) : M unit := fun w => (Returns tt, w, [c]).

Definition inspect {A : Type} (f : World E -> A) : M A :=
  fun w => (Returns (f w), w, []).

Notation "x <- c1 ;; c2" := (bind c1 (fun x => c2))
  (at level 61, c1 at next level, right associativity).
Notation "c1 ;; c2" := (bind c1 (fun _ => c2))
  (at level 61, right associativity).

Definition runtimeError (msg : string) : M unit := emit (CRuntimeError msg).
Definition logVerbose (msg : string) : M unit := emit (CLogVerbose msg).

(** *** Reaction targets and the notification decision *)

Definition resolveSignalReactionTargets (reaction : SignalReactionMessage)
  : list SignalReactionTarget :=
  let fromUuid :=
    match option_map Js.trim (targetAuthorUuid reaction) with
    | Some uuid =>
        if Js.truthy uuid
        then [ {| kind := KindUuid; id := uuid; display := "uuid:" ++ uuid |} ]
        else []
    | None => []
    end in
  let fromAuthor :=
    match option_map Js.trim (targetAuthor reaction) with
    | Some author =>
        if Js.truthy author
        then let normalized := normalizeE164 E author in
             [ {| kind := KindPhone; id := normalized; display := normalized |} ]
        else []
    | None => []
    end in
  (fromUuid ++ fromAuthor)%list.

(** The predicate handed to [targets.some] in mode own. *)
Definition targetMatchesAccount (accountId normalizedAccount : string)
  (target : SignalReactionTarget) : bool :=
  match kind target with
  | KindUuid => (accountId =? id target) || (accountId =? "uuid:" ++ id target)
  | KindPhone => normalizedAccount =? id target
  end.

Definition shouldEmitSignalReactionNotification
  (mode : option SignalReactionNotificationMode)
  (account : option string)
  (targets : option (list SignalReactionTarget))
  (sender : option SignalSender)
  (allowlist : option (list string)) : bool :=
  let effectiveMode := Js.nullish mode ModeOwn in
  match effectiveMode with
  | ModeOff => false
  | ModeOwn =>
      match option_map Js.trim account, targets with
      | Some accountId, Some targets =>
          if negb (Js.truthy accountId) || (length targets =? 0)%nat
          then false
          else
            let normalizedAccount := normalizeE164 E accountId in
            existsb (targetMatchesAccount accountId normalizedAccount) targets
      | _, _ => false
      end
  | ModeAllowlist =>
      match sender, allowlist with
      | Some sender, Some allowlist =>
          if (length allowlist =? 0)%nat
          then false
          else isSignalSenderAllowed E sender allowlist
      | _, _ => false
      end
  | ModeAll => true
  end.

Definition buildSignalReactionSystemEventText
  (emojiLabel actorLabel messageId : string)
  (targetLabel groupLabel : option string) : string :=
  let base :=
    "Signal reaction added: " ++ emojiLabel ++ " by " ++ actorLabel
      ++ " msg " ++ messageId in
  let withTarget :=
    match targetLabel with
    | Some t => if Js.truthy t then base ++ " from " ++ t else base
    | None => base
    end in
  match groupLabel with
  | Some g => if Js.truthy g then withTarget ++ " in " ++ g else withTarget
  | None => withTarget
  end.

(** *** Attachments ([fetchAttachment]) *)

Section Handler.

Context (cfg : Settings).

Definition fetchAttachment (account : option string)
  (attachment : SignalAttachment) (sender groupId : option string)
  (maxBytes : Z) : M (option SavedMedia) :=
  match attachmentId attachment with
  | None => ret None
  | Some attId =>
      if negb (Js.truthy attId) then ret None
      else if match size attachment with
              | Some sz => negb (sz =? 0)%Z && (maxBytes <? sz)%Z
              | None => false
              end
      then throw ("Error: Signal attachment " ++ attId ++ " exceeds "
                    ++ Js.toFixed0Mb maxBytes ++ "MB limit")
      else
        let rpcAccount := if Js.truthyOpt account then account else None in
        let rpcPeer :=
          if Js.truthyOpt groupId then Some (groupId, None)
          else if Js.truthyOpt sender then Some (None, sender)
          else None in
        match rpcPeer with
        | None => ret None
        | Some (rpcGroupId, rpcRecipient) =>
            result <- external
              (CRpcGetAttachment attId rpcAccount rpcGroupId rpcRecipient)
              (signalRpcGetAttachment E attId rpcAccount rpcGroupId rpcRecipient) ;;
            if negb (Js.truthyOpt result) then ret None
            else
              let data := Js.nullish result "" in
              saved <- external
                (CSaveMediaBuffer data (contentType attachment) maxBytes)
                (saveMediaBuffer E data (contentType attachment) maxBytes) ;;
              ret (Some {| savedPath := savedPath saved;
                           savedContentType := savedContentType saved |})
        end
  end.

(** *** The reaction path of [handleEvent]
    (the body of [if (envelope.reactionMessage && !dataMessage)]) *)

(** [const shouldNotify], as the handler computes it. *)
Definition shouldNotifyFor (sender : SignalSender)
  (reaction : SignalReactionMessage) : bool :=
  shouldEmitSignalReactionNotification
    (Some (reactionMode cfg)) (account cfg)
    (Some (resolveSignalReactionTargets reaction)) (Some sender)
    (Some (reactionAllowlist cfg)).

Definition handleReaction (envelope : SignalEnvelope) (sender : SignalSender)
  (reaction : SignalReactionMessage) : M unit :=
  if Js.nullish (isRemove reaction) false then ret tt
  else
    let emojiLabel := Js.orStr (option_map Js.trim (emoji reaction)) "emoji" in
    let senderDisplay := formatSignalSenderDisplay E sender in
    let senderName := Js.nullish (sourceName envelope) senderDisplay in
    logVerbose ("signal reaction: " ++ emojiLabel ++ " from " ++ senderName) ;;
    let targets := resolveSignalReactionTargets reaction in
    let shouldNotify := shouldNotifyFor sender reaction in
    if negb shouldNotify then ret tt
    else
      let groupId :=
        match reactionGroupInfo reaction with
        | Some g => groupId g
        | None => None
        end in
      let groupName :=
        match reactionGroupInfo reaction with
        | Some g => groupName g
        | None => None
        end in
      let isGroup := Js.truthyOpt groupId in
      let senderPeerId := resolveSignalPeerId E sender in
      let route :=
        resolveAgentRoute E "signal" (accountId cfg)
          (if isGroup then PeerGroup else PeerDm)
          (if isGroup then Js.nullish groupId "unknown" else senderPeerId) in
      let groupLabel :=
        if isGroup
        then Some (Js.nullish groupName "Signal Group" ++ " id:"
                     ++ Js.nullish groupId "undefined")
        else None in
      let messageId :=
        match targetSentTimestamp reaction with
        | Some ts => if (ts =? 0)%Z then "unknown" else Js.numberToString ts
        | None => "unknown"
        end in
      let text :=
        buildSignalReactionSystemEventText emojiLabel senderName messageId
          (option_map display (hd_error targets)) groupLabel in
      let senderId := formatSignalSenderId E sender in
      let contextKey :=
        Js.joinTruthy ":"
          [ "signal"; "reaction"; "added"; messageId; senderId; emojiLabel;
            Js.nullish groupId "" ] in
      external (CEnqueueSystemEvent text (sessionKey route) contextKey)
               (enqueueSystemEvent E text (sessionKey route) contextKey).

(** *** The conversational path of [handleEvent] *)

Definition effectiveDmAllow (storeAllowFrom : list string) : list string :=
  (allowFrom cfg ++ storeAllowFrom)%list.

Definition effectiveGroupAllow (storeAllowFrom : list string) : list string :=
  (groupAllowFrom cfg ++ storeAllowFrom)%list.

Definition dmAllowed (sender : SignalSender) (storeAllowFrom : list string)
  : bool :=
  match dmPolicy cfg with
  | DmOpen => true
  | _ => isSignalSenderAllowed E sender (effectiveDmAllow storeAllowFrom)
  end.

Definition commandAuthorized (isGroup : bool) (sender : SignalSender)
  (storeAllowFrom : list string) : bool :=
  if isGroup
  then if (0 <? length (effectiveGroupAllow storeAllowFrom))%nat
       then isSignalSenderAllowed E sender (effectiveGroupAllow storeAllowFrom)
       else true
  else dmAllowed sender storeAllowFrom.

Definition dmPolicyName (p : DmPolicy) : string :=
  match p with
  | DmOpen => "open"
  | DmPairing => "pairing"
  | DmDisabled => "disabled"
  | DmAllowlist => "allowlist"
  end.

Definition dataGroupId (dataMessage : SignalDataMessage) : option string :=
  match groupInfo dataMessage with Some g => groupId g | None => None end.

Definition dataGroupName (dataMessage : SignalDataMessage) : option string :=
  match groupInfo dataMessage with Some g => groupName g | None => None end.

(** The [try]/[catch] around [fetchAttachment] for the first attachment:
    the pair [(mediaPath, mediaType)]. *)
Definition fetchFirstAttachment (sender : SignalSender)
  (dataMessage : SignalDataMessage) : M (option string * option string) :=
  let senderRecipient := resolveSignalRecipient E sender in
  let groupId := dataGroupId dataMessage in
  let firstAttachment :=
    match attachments dataMessage with
    | Some (a :: _) => Some a
    | _ => None
    end in
  match firstAttachment with
  | Some att =>
      if Js.truthyOpt (attachmentId att) && negb (ignoreAttachments cfg)
      then
        tryCatch
          (fetched <- fetchAttachment (account cfg) att (Some senderRecipient)
                        groupId (mediaMaxBytes cfg) ;;
           ret (match fetched with
                | Some f =>
                    (Some (savedPath f),
                     Js.nullishOpt (savedContentType f) (contentType att))
                | None => (None, None)
                end))
          (fun err =>
             runtimeError (danger E ("attachment fetch failed: " ++ err)) ;;
             ret (None, None))
      else ret (None, None)
  | None => ret (None, None)
  end.

(** [messageText || placeholder || dataMessage.quote?.text?.trim() || ""] *)
Definition resolveBodyText (dataMessage : SignalDataMessage)
  (mediaType : option string) : string :=
  let messageText := Js.trim (Js.nullish (message dataMessage) "") in
  let kind := mediaKindFromMime E mediaType in
  let placeholder :=
    if Js.truthyOpt kind then "<media:" ++ Js.nullish kind "" ++ ">"
    else match attachments dataMessage with
         | Some (_ :: _) => "<media:attachment>"
         | _ => ""
         end in
  if Js.truthy messageText then messageText
  else if Js.truthy placeholder then placeholder
  else Js.orStr
         (match quote dataMessage with
          | Some q => option_map Js.trim (quoteText q)
          | None => None
          end) "".

(** The [deliver] callback of the dispatcher: [deliverReplies] for the one
    reply, to the conversation the message came from. *)
Definition deliver (ctxPayload : MsgContext) (payload : ReplyPayload)
  : World E -> Except unit * World E * list DeliveryCall :=
  deliverReplies (chunkText E) (sendMessageSignal E) [payload] (To ctxPayload)
    (resolveTextChunkLimit E "signal" (accountId cfg)).

(** The [onError] callback of the dispatcher: what it gives to
    [runtime.error]. *)
Definition onError (err kind : string) : Call :=
  CRuntimeError (danger E ("signal " ++ kind ++ " reply failed: " ++ err)).

(** What a step of the dispatcher is in the trace of the handler. *)
Definition dispatcherCall (c : DispatcherCall) : Call :=
  match c with
  | Delivered call => CDeliver call
  | Failed err kind => onError err kind
  end.

(** [createReplyDispatcher] and [await dispatchReplyFromConfig]: the call is
    recorded, then what the dispatcher does through [deliver] and [onError]
    while the pipeline runs. *)
Definition dispatchReplies (ctxPayload : MsgContext) (agent : string) : M bool :=
  fun w =>
    match dispatchReplyFromConfig E ctxPayload
            (option_map negb (blockStreaming cfg))
            (resolveResponsePrefix E agent) (deliver ctxPayload) w with
    | (r, w1, steps) =>
        (r, w1,
         CDispatch ctxPayload (option_map negb (blockStreaming cfg))
         :: map dispatcherCall steps)
    end.

(** From [const messageText] to the end of the handler: the body is built
    and the message is handed to the reply pipeline. *)
Definition dispatchInbound (envelope : SignalEnvelope) (sender : SignalSender)
  (dataMessage : SignalDataMessage) (authorized : bool) : M unit :=
  let senderDisplay := formatSignalSenderDisplay E sender in
  let senderRecipient := resolveSignalRecipient E sender in
  let senderPeerId := resolveSignalPeerId E sender in
  let groupId := dataGroupId dataMessage in
  let groupName := dataGroupName dataMessage in
  let isGroup := Js.truthyOpt groupId in
  media <- fetchFirstAttachment sender dataMessage ;;
  let mediaPath : option string := fst media in
  let mediaType : option string := snd media in
  let bodyText := resolveBodyText dataMessage mediaType in
  if negb (Js.truthy bodyText) then ret tt
  else
    let fromLabel :=
      if isGroup
      then Js.nullish groupName "Signal Group" ++ " id:"
             ++ Js.nullish groupId "undefined"
      else Js.nullish (sourceName envelope) senderDisplay ++ " id:"
             ++ senderDisplay in
    let body :=
      formatAgentEnvelope E "Signal" fromLabel (timestamp envelope) bodyText in
    let route :=
      resolveAgentRoute E "signal" (accountId cfg)
        (if isGroup then PeerGroup else PeerDm)
        (if isGroup then Js.nullish groupId "unknown" else senderPeerId) in
    let signalTo :=
      if isGroup then "group:" ++ Js.nullish groupId "undefined"
      else "signal:" ++ senderRecipient in
    let ctxPayload :=
      {| Body := body;
         From := if isGroup then "group:" ++ Js.nullish groupId "unknown"
                 else "signal:" ++ senderRecipient;
         To := signalTo;
         SessionKey := sessionKey route;
         AccountId := routeAccountId route;
         ChatType := if isGroup then "group" else "direct";
         GroupSubject := if isGroup then groupName else None;
         SenderName := Js.nullish (sourceName envelope) senderDisplay;
         SenderId := senderDisplay;
         MessageSid :=
           match timestamp envelope with
           | Some ts => if (ts =? 0)%Z then None else Some (Js.numberToString ts)
           | None => None
           end;
         Timestamp := timestamp envelope;
         MediaPath := mediaPath;
         MediaType := mediaType;
         MediaUrl := mediaPath;
         CommandAuthorized := authorized;
         OriginatingTo := signalTo |} in
    (if negb isGroup
     then
       let storePath := resolveStorePath E (agentId route) in
       external
         (CUpdateLastRoute storePath (mainSessionKey route) "signal"
            senderRecipient (routeAccountId route))
         (updateLastRoute E storePath (mainSessionKey route) "signal"
            senderRecipient (routeAccountId route))
     else ret tt) ;;
    verbose <- inspect (shouldLogVerbose E) ;;
    (if verbose
     then
       let preview := Js.escapeNewlines (substring 0 200 body) in
       logVerbose
         ("signal inbound: from=" ++ From ctxPayload ++ " len="
            ++ Js.numberToString (Z.of_nat (String.length body))
            ++ " preview=" ++ Js.dquote ++ preview ++ Js.dquote)
     else ret tt) ;;
    queuedFinal <- dispatchReplies ctxPayload (agentId route) ;;
    ret tt.

(** From [const effectiveDmAllow] to [const commandAuthorized]: the access
    policy, given what the persisted allow-list read produced. *)
Definition applyAccessPolicy (envelope : SignalEnvelope) (sender : SignalSender)
  (dataMessage : SignalDataMessage) (storeAllowFrom : list string) : M unit :=
  let senderDisplay := formatSignalSenderDisplay E sender in
  let senderRecipient := resolveSignalRecipient E sender in
  let senderAllowId := formatSignalSenderId E sender in
  let senderIdLine := formatSignalPairingIdLine E sender in
  let isGroup := Js.truthyOpt (dataGroupId dataMessage) in
  let allowed := dmAllowed sender storeAllowFrom in
  if negb isGroup && match dmPolicy cfg with DmDisabled => true | _ => false end
  then ret tt
  else if negb isGroup && negb allowed
  then
    match dmPolicy cfg with
    | DmPairing =>
        let senderId := senderAllowId in
        upserted <- external
          (CUpsertPairingRequest "signal" senderId (sourceName envelope))
          (upsertProviderPairingRequest E "signal" senderId (sourceName envelope)) ;;
        let code := fst upserted in
        let created := snd upserted in
        if created
        then
          logVerbose ("signal pairing request sender=" ++ senderId) ;;
          tryCatch
            (external
               (CSendMessage ("signal:" ++ senderRecipient)
                  (buildPairingReply E "signal" senderIdLine code))
               (sendMessageSignal E ("signal:" ++ senderRecipient)
                  (buildPairingReply E "signal" senderIdLine code) None))
            (fun err =>
               logVerbose ("signal pairing reply failed for " ++ senderId
                             ++ ": " ++ err))
        else ret tt
    | p =>
        logVerbose ("Blocked signal sender " ++ senderDisplay ++ " (dmPolicy="
                      ++ dmPolicyName p ++ ")")
    end
  else if isGroup && match groupPolicy cfg with GroupDisabled => true | _ => false end
  then logVerbose "Blocked signal group message (groupPolicy: disabled)"
  else if isGroup && match groupPolicy cfg with GroupAllowlist => true | _ => false end
          && (length (effectiveGroupAllow storeAllowFrom) =? 0)%nat
  then logVerbose
         "Blocked signal group message (groupPolicy: allowlist, no groupAllowFrom)"
  else if isGroup && match groupPolicy cfg with GroupAllowlist => true | _ => false end
          && negb (isSignalSenderAllowed E sender (effectiveGroupAllow storeAllowFrom))
  then logVerbose ("Blocked signal group sender " ++ senderDisplay
                     ++ " (not in groupAllowFrom)")
  else
    dispatchInbound envelope sender dataMessage
      (commandAuthorized isGroup sender storeAllowFrom).

(** From [const senderDisplay] to the read of the persisted allow-list,
    whose rejection is caught and replaced by the empty list. *)
Definition handleDataMessage (envelope : SignalEnvelope) (sender : SignalSender)
  (dataMessage : SignalDataMessage) : M unit :=
  let senderRecipient := resolveSignalRecipient E sender in
  if negb (Js.truthy senderRecipient) then ret tt
  else
    storeAllowFrom <-
      tryCatch
        (external (CReadAllowFromStore "signal")
                  (readProviderAllowFromStore E "signal"))
        (fun _ => ret []) ;;
    applyAccessPolicy envelope sender dataMessage storeAllowFrom.

(** [envelope.dataMessage ?? envelope.editMessage?.dataMessage] *)
Definition resolveDataMessage (envelope : SignalEnvelope)
  : option SignalDataMessage :=
  Js.nullishOpt (dataMessage envelope)
    (match editMessage envelope with
     | Some edit => editDataMessage edit
     | None => None
     end).

(** The self-message test: [account && sender.kind === "phone"] and
    [sender.e164 === normalizeE164(account)]. *)
Definition isOwnMessage (sender : SignalSender) : bool :=
  match account cfg, sender with
  | Some acct, SenderPhone e164 =>
      Js.truthy acct && (e164 =? normalizeE164 E acct)
  | _, _ => false
  end.

(** From [const sender = resolveSignalSender(envelope)] on. *)
Definition handleEnvelope (envelope : SignalEnvelope) : M unit :=
  if Js.truthyUnknown (syncMessage envelope) then ret tt
  else
    match resolveSignalSender E (sourceNumber envelope) (sourceUuid envelope) with
    | None => ret tt
    | Some sender =>
        if isOwnMessage sender then ret tt
        else
          match reactionMessage envelope, resolveDataMessage envelope with
          | Some reaction, None => handleReaction envelope sender reaction
          | None, None => ret tt
          | _, Some dataMessage => handleDataMessage envelope sender dataMessage
          end
    end.

Definition handleEvent (event : SseEvent) : M unit :=
  match eventName event, eventData event with
  | Some name, Some data =>
      if negb (name =? "receive") || negb (Js.truthy data) then ret tt
      else
        match JSON_parse E data with
        | Throws err => runtimeError ("failed to parse event: " ++ err)
        | Returns payload =>
            let exceptionText :=
              match payload with
              | Some p =>
                  match exception p with
                  | Some ex => exceptionMessage ex
                  | None => None
                  end
              | None => None
              end in
            (if Js.truthyOpt exceptionText
             then runtimeError ("receive exception: " ++ Js.nullish exceptionText "")
             else ret tt) ;;
            match payload with
            | Some p =>
                match envelope p with
                | Some env => handleEnvelope env
                | None => ret tt
                end
            | None => ret tt
            end
        end
  | _, _ => ret tt
  end.

(** The [onEvent] callback given to the stream loop:
    [void handleEvent(event).catch(...)]. *)
Definition onEvent (event : SseEvent) : M unit :=
  tryCatch (handleEvent event)
    (fun err => runtimeError ("event handler failed: " ++ err)).

(** The stream source calling [onEvent] once per frame, in arrival order,
    for frames that arrive one after the other: the handler of a frame has
    settled when the next frame comes. *)
Fixpoint onEvents (events : list SseEvent) : M unit :=
  match events with
  | [] => ret tt
  | event :: rest => onEvent event ;; onEvents rest
  end.

(** *** Reading the result of a run *)

Definition outcomeOf {A : Type} (r : Except A * World E * list Call) : Except A :=
  fst (fst r).
Definition worldOf {A : Type} (r : Except A * World E * list Call) : World E :=
  snd (fst r).
Definition callsOf {A : Type} (r : Except A * World E * list Call) : list Call :=
  snd r.

(** The same run with the calls [cs] made before it. *)
Definition after {A : Type} (cs : list Call)
  (r : Except A * World E * list Call) : Except A * World E * list Call :=
  (outcomeOf r, worldOf r, (cs ++ callsOf r)%list).

(** Every call a computation makes satisfies [P], whatever the world. *)
Definition emits {A : Type} (P : Call -> Prop) (m : M A) : Prop :=
  forall w, Forall P (callsOf (m w)).

(** *** Frames, as the handler classifies them *)

(** The frame is a [receive] event whose data parses to [payload], which
    carries the envelope [env]. *)
Definition decodesTo (event : SseEvent) (payload : SignalReceivePayload)
  (env : SignalEnvelope) : Prop :=
  eventName event = Some "receive" /\
  (exists data, eventData event = Some data /\ Js.truthy data = true /\
                JSON_parse E data = Returns (Some payload)) /\
  envelope payload = Some env.

(** What [runtime.error] receives for the [exception] field of a frame. *)
Definition exceptionLog (payload : SignalReceivePayload) : list Call :=
  match exception payload with
  | Some ex =>
      if Js.truthyOpt (exceptionMessage ex)
      then [CRuntimeError ("receive exception: "
                             ++ Js.nullish (exceptionMessage ex) "")]
      else []
  | None => []
  end.

(** The envelope is no sync echo, its sender resolves to [sender], and it
    is not a message of the configured account itself. *)
Definition acceptedFrom (env : SignalEnvelope) (sender : SignalSender) : Prop :=
  Js.truthyUnknown (syncMessage env) = false /\
  resolveSignalSender E (sourceNumber env) (sourceUuid env) = Some sender /\
  isOwnMessage sender = false.

(** What the handler takes the persisted allow-list to be in world [w]. *)
Definition storeAllowFromIn (w : World E) : list string :=
  match fst (readProviderAllowFromStore E "signal" w) with
  | Returns l => l
  | Throws _ => []
  end.

(** A conversational frame from [sender] with a usable recipient. *)
Definition conversational (event : SseEvent) (payload : SignalReceivePayload)
  (env : SignalEnvelope) (sender : SignalSender) (dm : SignalDataMessage)
  : Prop :=
  decodesTo event payload env /\ acceptedFrom env sender /\
  resolveDataMessage env = Some dm /\
  Js.truthy (resolveSignalRecipient E sender) = true.

(** A direct message under [dmPolicy=pairing] from a sender the effective
    allow-list does not hold, for which the pairing store answers
    [(code, created)]. *)
Definition pairingDenied (event : SseEvent) (payload : SignalReceivePayload)
  (env : SignalEnvelope) (sender : SignalSender) (dm : SignalDataMessage)
  (w : World E) (code : string) (created : bool) : Prop :=
  conversational event payload env sender dm /\
  Js.truthyOpt (dataGroupId dm) = false /\
  dmPolicy cfg = DmPairing /\
  isSignalSenderAllowed E sender (effectiveDmAllow (storeAllowFromIn w)) = false /\
  fst (upsertProviderPairingRequest E "signal" (formatSignalSenderId E sender)
         (sourceName env) (snd (readProviderAllowFromStore E "signal" w)))
  = Returns (code, created).

(** The world in which the pairing reply of such a message is sent: after
    the read of the persisted allow-list and the upsert. *)
Definition afterUpsert (env : SignalEnvelope) (sender : SignalSender)
  (w : World E) : World E :=
  snd (upsertProviderPairingRequest E "signal" (formatSignalSenderId E sender)
         (sourceName env) (snd (readProviderAllowFromStore E "signal" w))).

(** The envelope without its reaction facet. *)
Definition withoutReaction (env : SignalEnvelope) : SignalEnvelope :=
  {| sourceNumber := sourceNumber env;
     sourceUuid := sourceUuid env;
     sourceName := sourceName env;
     timestamp := timestamp env;
     dataMessage := dataMessage env;
     editMessage := editMessage env;
     syncMessage := syncMessage env;
     reactionMessage := None |}.

End Handler.

End Monitor.

Arguments outcomeOf {E A} r.
Arguments worldOf {E A} r.
Arguments callsOf {E A} r.
Arguments after {E A} cs r.
Arguments emits {E A} P m.

(** ** Test doubles

    Stand-ins for the collaborators, after the mocks of
    [monitor.tool-result.test.ts]; they serve the concrete runs only, the
    properties below hold for every [Collaborators]. *)

Module Mock.

Record MockWorld : Type := {
  allowStore : Except (list string);
  pending : list string;
  sendRejects : bool;
  sent : list (string * string);
  systemEvents : list (string * string * string);
  lastRoutes : list (string * string);
  dispatched : list MsgContext
}.

Definition isDigit (c : ascii) : bool :=
  let n := nat_of_ascii c in ((48 <=? n) && (n <=? 57))%nat.

Fixpoint digitsOf (s : string) : string :=
  match s with
  | EmptyString => EmptyString
  | String c rest => if isDigit c then String c (digitsOf rest) else digitsOf rest
  end.

(** Stand-in for [normalizeE164] of [../utils.js]: the digits, after one
    plus sign. *)
Definition normalizeE164 (number : string) : string := "+" ++ digitsOf number.

(** Modelled from the spec: the identity resolver produces one identity
    from the sender fields, none when neither field is present; a present
    phone number gives a phone identity. *)
Definition resolveSignalSender (number uuid : option string)
  : option SignalSender :=
  if Js.truthyOpt (option_map Js.trim number)
  then Some (SenderPhone (normalizeE164 (Js.trim (Js.nullish number ""))))
  else if Js.truthyOpt (option_map Js.trim uuid)
  then Some (SenderUuid (Js.trim (Js.nullish uuid "")))
  else None.

(** Modelled from the spec: the canonical sender key is [uuid:<u>] or the
    phone form. *)
Definition formatSignalSenderId (sender : SignalSender) : string :=
  match sender with
  | SenderPhone e164 => e164
  | SenderUuid u => "uuid:" ++ u
  end.

Definition resolveSignalRecipient (sender : SignalSender) : string :=
  match sender with
  | SenderPhone e164 => e164
  | SenderUuid u => u
  end.

Definition formatSignalPairingIdLine (sender : SignalSender) : string :=
  match sender with
  | SenderPhone e164 => "Your Signal number: " ++ e164
  | SenderUuid u => "Your Signal sender id: uuid:" ++ u
  end.

(** Modelled from the spec: an allow-list is a set of sender identifiers;
    the test configuration uses the entry [*] for everyone. *)
Definition isSignalSenderAllowed (sender : SignalSender) (allow : list string)
  : bool :=
  existsb (fun entry => (entry =? "*") || (entry =? formatSignalSenderId sender)
                        || (match sender with
                            | SenderPhone e164 => normalizeE164 entry =? e164
                            | SenderUuid _ => false
                            end)) allow.

Definition resolveAgentRoute (provider accountId : string) (peerKind : PeerKind)
  (peerId : string) : AgentRoute :=
  {| sessionKey := "agent:main:" ++ provider ++ ":"
                     ++ (match peerKind with PeerGroup => "group" | PeerDm => "dm" end)
                     ++ ":" ++ peerId;
     mainSessionKey := "agent:main:main";
     routeAccountId := accountId;
     agentId := "main" |}.

(** Frames are looked up in a table: what is not in it does not parse. *)
Definition parse (frames : list (string * SignalReceivePayload)) (data : string)
  : Except (option SignalReceivePayload) :=
  match find (fun kv => fst kv =? data) frames with
  | Some kv => Returns (Some (snd kv))
  | None => Throws "SyntaxError: Unexpected token"
  end.

(** Modelled from the spec: the pairing store's upsert is idempotent, with
    [created=false] on repeat calls for the same pending id. *)
Definition upsertProviderPairingRequest (provider senderId : string)
  (name : option string) (w : MockWorld) : Except (string * bool) * MockWorld :=
  if existsb (String.eqb senderId) (pending w)
  then (Returns ("PAIRCODE", false), w)
  else (Returns ("PAIRCODE", true),
        {| allowStore := allowStore w; pending := senderId :: pending w;
           sendRejects := sendRejects w; sent := sent w;
           systemEvents := systemEvents w; lastRoutes := lastRoutes w;
           dispatched := dispatched w |}).

Definition sendMessageSignal (to text : string) (media : option string)
  (w : MockWorld) : Except unit * MockWorld :=
  if sendRejects w then (Throws "Error: send failed", w)
  else (Returns tt,
        {| allowStore := allowStore w; pending := pending w;
           sendRejects := sendRejects w; sent := (sent w ++ [(to, text)])%list;
           systemEvents := systemEvents w; lastRoutes := lastRoutes w;
           dispatched := dispatched w |}).

(** Modelled from the spec: the notification sink is idempotent per
    [contextKey] within a session. *)
Definition enqueueSystemEvent (text session contextKey : string) (w : MockWorld)
  : Except unit * MockWorld :=
  if existsb (fun ev => (fst (fst ev) =? session) && (snd ev =? contextKey))
       (map (fun ev => (snd (fst ev), fst (fst ev), snd ev)) (systemEvents w))
  then (Returns tt, w)
  else (Returns tt,
        {| allowStore := allowStore w; pending := pending w;
           sendRejects := sendRejects w; sent := sent w;
           systemEvents := (systemEvents w ++ [(text, session, contextKey)])%list;
           lastRoutes := lastRoutes w; dispatched := dispatched w |}).

Definition updateLastRoute (storePath session provider to accountId : string)
  (w : MockWorld) : Except unit * MockWorld :=
  (Returns tt,
   {| allowStore := allowStore w; pending := pending w;
      sendRejects := sendRejects w; sent := sent w;
      systemEvents := systemEvents w;
      lastRoutes := (lastRoutes w ++ [(session, to)])%list;
      dispatched := dispatched w |}).

(** [prefix + " " + text], as the dispatcher puts the response prefix in
    front of a reply. *)
Definition prefixed (responsePrefix : option string) (text : string) : string :=
  match responsePrefix with
  | Some p => if Js.truthy p then p ++ " " ++ text else text
  | None => text
  end.

(** A dispatcher delivering [replies] one after the other, as final
    replies; a delivery that throws is reported and the next one goes on. *)
Fixpoint deliverAll
  (deliver : ReplyPayload -> MockWorld -> Except unit * MockWorld * list DeliveryCall)
  (replies : list ReplyPayload) (w : MockWorld)
  : MockWorld * list DispatcherCall :=
  match replies with
  | [] => (w, [])
  | reply :: rest =>
      match deliver reply w with
      | (Returns _, w1, calls) =>
          match deliverAll deliver rest w1 with
          | (w2, more) => (w2, (map Delivered calls ++ more)%list)
          end
      | (Throws err, w1, calls) =>
          match deliverAll deliver rest w1 with
          | (w2, more) =>
              (w2, (map Delivered calls ++ Failed err "final" :: more)%list)
          end
      end
  end.

(** A reply pipeline answering every message with the texts [answers],
    after the [replyMock] of the test suite. *)
Definition replyWith (answers : list string) (ctx : MsgContext)
  (noBlocks : option bool) (responsePrefix : option string)
  (deliver : ReplyPayload -> MockWorld -> Except unit * MockWorld * list DeliveryCall)
  (w : MockWorld) : Except bool * MockWorld * list DispatcherCall :=
  match deliverAll deliver
          (map (fun text => {| replyText := Some (prefixed responsePrefix text);
                               mediaUrl := None; mediaUrls := None |}) answers)
          {| allowStore := allowStore w; pending := pending w;
             sendRejects := sendRejects w; sent := sent w;
             systemEvents := systemEvents w; lastRoutes := lastRoutes w;
             dispatched := (dispatched w ++ [ctx])%list |} with
  | (w1, steps) => (Returns true, w1, steps)
  end.

Definition dispatchReplyFromConfig := replyWith ["pong"].

Definition collaborators (frames : list (string * SignalReceivePayload))
  : Collaborators :=
  Build_Collaborators MockWorld
    normalizeE164
    resolveSignalSender
    isSignalSenderAllowed
    (* formatSignalSenderDisplay *) formatSignalSenderId
    formatSignalSenderId
    formatSignalPairingIdLine
    (* resolveSignalPeerId *) formatSignalSenderId
    resolveSignalRecipient
    (parse frames)
    resolveAgentRoute
    (* resolveStorePath *) (fun _ => "/tmp/clawdbot-sessions.json")
    (* buildPairingReply *)
    (fun provider idLine code => idLine ++ " Pairing code: " ++ code)
    (* formatAgentEnvelope *)
    (fun provider from ts body => "[" ++ provider ++ " " ++ from ++ "] " ++ body)
    (* mediaKindFromMime *) (fun mime => None)
    (* danger *) (fun s => s)
    (* shouldLogVerbose *) (fun _ => false)
    (* readProviderAllowFromStore *) (fun provider w => (allowStore w, w))
    upsertProviderPairingRequest
    sendMessageSignal
    enqueueSystemEvent
    updateLastRoute
    (* signalRpcGetAttachment *) (fun _ _ _ _ w => (Returns None, w))
    (* saveMediaBuffer *)
    (fun _ ct _ w =>
       (Returns {| savedPath := "/tmp/media"; savedContentType := ct |}, w))
    (* chunkText *) (fun text limit => [text])
    (* resolveTextChunkLimit *) (fun provider accountId => 4000%Z)
    (* resolveResponsePrefix *) (fun agentId => Some "PFX")
    dispatchReplyFromConfig.

Definition emptyWorld : MockWorld :=
  {| allowStore := Returns []; pending := []; sendRejects := false; sent := [];
     systemEvents := []; lastRoutes := []; dispatched := [] |}.

(** The configuration of the test suite: [dmPolicy: "open"],
    [allowFrom: ["*"]], everything else by default. *)
Definition testAccount (account : option string) (dm : option DmPolicy)
  (allow : list string) (mode : option SignalReactionNotificationMode)
  : AccountInfo :=
  {| infoAccountId := "default";
     infoBaseUrl := "http://127.0.0.1:8080";
     infoConfig :=
       {| cfgAccount := account; cfgDmPolicy := dm;
          cfgAllowFrom := Some (map EntryString allow);
          cfgGroupAllowFrom := None; cfgGroupPolicy := None;
          cfgReactionNotifications := mode; cfgReactionAllowlist := None;
          cfgMediaMaxMb := None; cfgIgnoreAttachments := None;
          cfgBlockStreaming := None |} |}.

Definition noOpts : MonitorSignalOpts :=
  {| optAccount := None; optAccountId := None;
     optBaseUrl := Some "http://127.0.0.1:8080"; optIgnoreAttachments := None;
     optAllowFrom := None; optGroupAllowFrom := None; optMediaMaxMb := None |}.

Definition settings (account : option string) (dm : option DmPolicy)
  (allow : list string) (mode : option SignalReactionNotificationMode)
  : Settings :=
  resolveSettings noOpts (testAccount account dm allow mode).

Definition textMessage (text : string) (group : option GroupInfo)
  : SignalDataMessage :=
  {| dataTimestamp := None; message := Some text; attachments := None;
     groupInfo := group; quote := None |}.

Definition reactionTo (author uuid : option string) (remove : option bool)
  : SignalReactionMessage :=
  {| emoji := Some "+1"; targetAuthor := author; targetAuthorUuid := uuid;
     targetSentTimestamp := Some 2%Z; isRemove := remove;
     reactionGroupInfo := None |}.

Definition envelopeFrom (number uuid : option string)
  (dm : option SignalDataMessage) (reaction : option SignalReactionMessage)
  : SignalEnvelope :=
  {| sourceNumber := number; sourceUuid := uuid; sourceName := Some "Ada";
     timestamp := Some 1%Z; dataMessage := dm; editMessage := None;
     syncMessage := None; reactionMessage := reaction |}.

Definition payloadOf (env : SignalEnvelope) : SignalReceivePayload :=
  {| payloadAccount := None; envelope := Some env; exception := None |}.

Definition receive (data : string) : SseEvent :=
  {| eventName := Some "receive"; eventData := Some data |}.

(** The frames of the test suite, by name. *)

Definition ada : option string := Some "+15550001111".
Definition bot : option string := Some "+15550002222".
Definition someUuid : option string :=
  Some "123e4567-e89b-12d3-a456-426614174000".
Definition friends : GroupInfo :=
  {| groupId := Some "g1"; groupName := Some "Friends" |}.

Definition ownReaction : SignalReactionMessage := reactionTo bot someUuid None.
Definition removedReaction : SignalReactionMessage :=
  reactionTo bot someUuid (Some true).

Definition ownReactionEnvelope : SignalEnvelope :=
  envelopeFrom ada None None (Some ownReaction).
Definition removedReactionEnvelope : SignalEnvelope :=
  envelopeFrom ada None None (Some removedReaction).
Definition reactionAndMessageEnvelope : SignalEnvelope :=
  envelopeFrom ada None (Some (textMessage "ping" None)) (Some ownReaction).
Definition helloEnvelope : SignalEnvelope :=
  envelopeFrom ada None (Some (textMessage "hello" None)) None.
Definition selfEnvelope : SignalEnvelope :=
  envelopeFrom bot None (Some (textMessage "echo" None)) None.
Definition groupEnvelope : SignalEnvelope :=
  envelopeFrom ada None (Some (textMessage "hello all" (Some friends))) None.
Definition uuidEnvelope : SignalEnvelope :=
  envelopeFrom None someUuid (Some (textMessage "hello" None)) None.

Definition frames : list (string * SignalReceivePayload) :=
  [ ("own-reaction", payloadOf ownReactionEnvelope);
    ("removed-reaction", payloadOf removedReactionEnvelope);
    ("reaction-and-message", payloadOf reactionAndMessageEnvelope);
    ("hello", payloadOf helloEnvelope);
    ("hello-again", payloadOf helloEnvelope);
    ("self", payloadOf selfEnvelope);
    ("group-hello", payloadOf groupEnvelope);
    ("uuid-hello", payloadOf uuidEnvelope) ].

Definition env : Collaborators := collaborators frames.

Definition ownSettings : Settings :=
  settings bot (Some DmOpen) ["*"] (Some ModeOwn).
Definition noAccountSettings : Settings :=
  settings None (Some DmOpen) ["*"] (Some ModeOwn).
Definition defaultSettings : Settings := settings None (Some DmOpen) ["*"] None.
Definition allSettings : Settings :=
  settings None (Some DmOpen) ["*"] (Some ModeAll).
Definition pairingSettings : Settings := settings None (Some DmPairing) [] None.
Definition pairingFriendSettings : Settings :=
  settings None (Some DmPairing) ["+15550001111"] None.

Definition groupSettings (policy : GroupPolicy) : Settings :=
  {| accountId := "default"; baseUrl := "http://127.0.0.1:8080";
     account := None; dmPolicy := DmPairing; allowFrom := [];
     groupAllowFrom := []; groupPolicy := policy; reactionMode := ModeOwn;
     reactionAllowlist := []; mediaMaxBytes := 8388608%Z;
     ignoreAttachments := false; blockStreaming := None |}.

Definition brokenStoreWorld : MockWorld :=
  {| allowStore := Throws "Error: ENOENT"; pending := []; sendRejects := false;
     sent := []; systemEvents := []; lastRoutes := []; dispatched := [] |}.

End Mock.

(** ** Waiting for the daemon ([waitForSignalDaemonReady]) *)

(** The fields of the answer of [signalCheck] that the wait reads. *)
Record SignalCheckResult : Type := {
  ok : bool;
  status : option Z;
  checkError : option string
}.

Inductive WaitCall : Type :=
| WSignalCheck (baseUrl : string) (timeoutMs : Z)
| WSleep (ms : Z)
| WRuntimeError (msg : string).

Definition isCheck (c : WaitCall) : bool :=
  match c with WSignalCheck _ _ => true | _ => false end.
Definition isSleep (c : WaitCall) : bool :=
  match c with WSleep _ => true | _ => false end.
Definition isWaitError (c : WaitCall) : bool :=
  match c with WRuntimeError _ => true | _ => false end.

Section Readiness.

Context {W : Type}.

(** [Date.now()], [params.abortSignal?.aborted] (constantly false when no
    signal is given), [signalCheck] of [./client.js], the timer behind
    [setTimeout], and [danger] of [../globals.js]. *)
Variable now : W -> Z.
Variable aborted : W -> bool.
Variable signalCheck : string -> Z -> W -> Except SignalCheckResult * W.
Variable sleep : Z -> W -> W.
Variable dangerText : string -> string.

(** [res.error ?? (res.status ? `HTTP ${res.status}` : "unreachable")] *)
Definition checkFailure (res : SignalCheckResult) : string :=
  Js.nullish (checkError res)
    (match status res with
     | Some code =>
         if (code =? 0)%Z then "unreachable"
         else "HTTP " ++ Js.numberToString code
     | None => "unreachable"
     end).

(** The [while] loop and what follows it.  [fuel] bounds the number of
    turns; [None] is the answer when it runs out before the loop ends. *)
Fixpoint waitLoop (baseUrl : string) (timeoutMs : Z) (fuel : nat)
  (started : Z) (lastError : option string) (w : W)
  : option (Except unit) * W * list WaitCall :=
  if (now w - started <? timeoutMs)%Z
  then
    match fuel with
    | O => (None, w, [])
    | S fuel' =>
        if aborted w then (Some (Returns tt), w, [])
        else
          match signalCheck baseUrl 1000 w with
          | (Throws err, w1) =>
              (Some (Throws err), w1, [WSignalCheck baseUrl 1000])
          | (Returns res, w1) =>
              if ok res
              then (Some (Returns tt), w1, [WSignalCheck baseUrl 1000])
              else
                match waitLoop baseUrl timeoutMs fuel' started
                        (Some (checkFailure res)) (sleep 150 w1) with
                | (r, w2, cs) =>
                    (r, w2, WSignalCheck baseUrl 1000 :: WSleep 150 :: cs)
                end
          end
    end
  else
    let reason := Js.nullish lastError "unknown error" in
    (Some (Throws ("Error: signal daemon not ready (" ++ reason ++ ")")), w,
     [WRuntimeError
        (dangerText ("daemon not ready after " ++ Js.numberToString timeoutMs
                       ++ "ms (" ++ reason ++ ")"))]).

Definition waitForSignalDaemonReady (baseUrl : string) (timeoutMs : Z)
  (fuel : nat) (w : W) : option (Except unit) * W * list WaitCall :=
  waitLoop baseUrl timeoutMs fuel (now w) None w.

End Readiness.

(** ** More test doubles, for the further properties *)

Module Fixtures.

Definition syncEnvelope : SignalEnvelope :=
  {| sourceNumber := Mock.ada; sourceUuid := None; sourceName := Some "Ada";
     timestamp := Some 1%Z;
     dataMessage := Some (Mock.textMessage "echo" None);
     editMessage := None; syncMessage := Some Js.UObject;
     reactionMessage := None |}.

Definition exceptionPayload : SignalReceivePayload :=
  {| payloadAccount := None; envelope := Some Mock.helloEnvelope;
     exception := Some {| exceptionMessage := Some "boom" |} |}.

Definition uuidOnlyReaction : SignalReactionMessage :=
  Mock.reactionTo None Mock.someUuid None.

Definition uuidOnlyReactionEnvelope : SignalEnvelope :=
  Mock.envelopeFrom Mock.ada None None (Some uuidOnlyReaction).

Definition bigAttachment : SignalAttachment :=
  {| attachmentId := Some "att1"; contentType := Some "image/png";
     filename := None; size := Some 99999999%Z |}.

Definition smallAttachment : SignalAttachment :=
  {| attachmentId := Some "att2"; contentType := Some "image/png";
     filename := None; size := Some 10%Z |}.

Definition attachmentMessage : SignalDataMessage :=
  {| dataTimestamp := None; message := Some "look"; 
     attachments := Some [bigAttachment];
     groupInfo := Some Mock.friends; quote := None |}.

Definition attachmentEnvelope : SignalEnvelope :=
  Mock.envelopeFrom Mock.ada None (Some attachmentMessage) None.

Definition emptyMessage : SignalDataMessage :=
  {| dataTimestamp := None; message := Some "   "; attachments := None;
     groupInfo := None; quote := None |}.

Definition emptyEnvelope : SignalEnvelope :=
  Mock.envelopeFrom Mock.ada None (Some emptyMessage) None.

Definition frames : list (string * SignalReceivePayload) :=
  [ ("sync", Mock.payloadOf syncEnvelope);
    ("with-exception", exceptionPayload);
    ("uuid-only-reaction", Mock.payloadOf uuidOnlyReactionEnvelope);
    ("own-reaction", Mock.payloadOf Mock.ownReactionEnvelope);
    ("hello", Mock.payloadOf Mock.helloEnvelope);
    ("group-hello", Mock.payloadOf Mock.groupEnvelope);
    ("attachment", Mock.payloadOf attachmentEnvelope);
    ("empty", Mock.payloadOf emptyEnvelope) ].

Definition env : Collaborators := Mock.collaborators frames.

(** The same collaborators with a pairing store that cannot be written. *)
Definition brokenPairing : Collaborators :=
  {| World := Mock.MockWorld;
     normalizeE164 := normalizeE164 env;
     resolveSignalSender := resolveSignalSender env;
     isSignalSenderAllowed := isSignalSenderAllowed env;
     formatSignalSenderDisplay := formatSignalSenderDisplay env;
     formatSignalSenderId := formatSignalSenderId env;
     formatSignalPairingIdLine := formatSignalPairingIdLine env;
     resolveSignalPeerId := resolveSignalPeerId env;
     resolveSignalRecipient := resolveSignalRecipient env;
     JSON_parse := JSON_parse env;
     resolveAgentRoute := resolveAgentRoute env;
     resolveStorePath := resolveStorePath env;
     buildPairingReply := buildPairingReply env;
     formatAgentEnvelope := formatAgentEnvelope env;
     mediaKindFromMime := mediaKindFromMime env;
     danger := danger env;
     shouldLogVerbose := fun _ => false;
     readProviderAllowFromStore := fun provider w => (Mock.allowStore w, w);
     upsertProviderPairingRequest :=
       fun _ _ _ w => (Throws "Error: EACCES", w);
     sendMessageSignal := Mock.sendMessageSignal;
     enqueueSystemEvent := Mock.enqueueSystemEvent;
     updateLastRoute := Mock.updateLastRoute;
     signalRpcGetAttachment := fun _ _ _ _ w => (Returns (Some "aGVsbG8="), w);
     saveMediaBuffer := fun _ ct _ w =>
       (Returns {| savedPath := "/tmp/media"; savedContentType := ct |}, w);
     chunkText := chunkText env;
     resolveTextChunkLimit := resolveTextChunkLimit env;
     resolveResponsePrefix := resolveResponsePrefix env;
     dispatchReplyFromConfig := Mock.dispatchReplyFromConfig |}.

(** The same collaborators with the reply pipeline of the test "sends tool
    summaries with responsePrefix": a tool summary, then the final reply. *)
Definition withToolSummary : Collaborators :=
  {| World := Mock.MockWorld;
     normalizeE164 := normalizeE164 env;
     resolveSignalSender := resolveSignalSender env;
     isSignalSenderAllowed := isSignalSenderAllowed env;
     formatSignalSenderDisplay := formatSignalSenderDisplay env;
     formatSignalSenderId := formatSignalSenderId env;
     formatSignalPairingIdLine := formatSignalPairingIdLine env;
     resolveSignalPeerId := resolveSignalPeerId env;
     resolveSignalRecipient := resolveSignalRecipient env;
     JSON_parse := JSON_parse env;
     resolveAgentRoute := resolveAgentRoute env;
     resolveStorePath := resolveStorePath env;
     buildPairingReply := buildPairingReply env;
     formatAgentEnvelope := formatAgentEnvelope env;
     mediaKindFromMime := mediaKindFromMime env;
     danger := danger env;
     shouldLogVerbose := fun _ => false;
     readProviderAllowFromStore := fun provider w => (Mock.allowStore w, w);
     upsertProviderPairingRequest := Mock.upsertProviderPairingRequest;
     sendMessageSignal := Mock.sendMessageSignal;
     enqueueSystemEvent := Mock.enqueueSystemEvent;
     updateLastRoute := Mock.updateLastRoute;
     signalRpcGetAttachment := fun _ _ _ _ w => (Returns None, w);
     saveMediaBuffer := fun _ ct _ w =>
       (Returns {| savedPath := "/tmp/media"; savedContentType := ct |}, w);
     chunkText := chunkText env;
     resolveTextChunkLimit := resolveTextChunkLimit env;
     resolveResponsePrefix := resolveResponsePrefix env;
     dispatchReplyFromConfig := Mock.replyWith ["tool update"; "final reply"] |}.

(** A world in which every send is refused. *)
Definition refusingWorld : Mock.MockWorld :=
  {| Mock.allowStore := Returns []; Mock.pending := [];
     Mock.sendRejects := true; Mock.sent := []; Mock.systemEvents := [];
     Mock.lastRoutes := []; Mock.dispatched := [] |}.

Definition settingsOf (acct : option string) (dm : DmPolicy)
  (allow : list string) (group : GroupPolicy) (groupAllow : list string)
  (mode : SignalReactionNotificationMode) (reactionAllow : list string)
  (ignore : bool) : Settings :=
  {| accountId := "default"; baseUrl := "http://127.0.0.1:8080";
     account := acct; dmPolicy := dm; allowFrom := allow;
     groupAllowFrom := groupAllow; groupPolicy := group; reactionMode := mode;
     reactionAllowlist := reactionAllow; mediaMaxBytes := 8388608%Z;
     ignoreAttachments := ignore; blockStreaming := None |}.

Definition openSettings : Settings :=
  settingsOf None DmOpen [] GroupOpen [] ModeOwn [] false.
Definition modeSettings (mode : SignalReactionNotificationMode)
  (reactionAllow : list string) : Settings :=
  settingsOf None DmOpen [] GroupOpen [] mode reactionAllow false.
Definition uuidAccountSettings : Settings :=
  settingsOf (Some "uuid:123e4567-e89b-12d3-a456-426614174000") DmOpen []
    GroupOpen [] ModeOwn [] false.
Definition dmSettings (dm : DmPolicy) (allow : list string) : Settings :=
  settingsOf None dm allow GroupOpen [] ModeOwn [] false.
Definition groupPolicySettings (group : GroupPolicy) (groupAllow : list string)
  : Settings :=
  settingsOf None DmPairing [] group groupAllow ModeOwn [] false.
Definition ignoringSettings : Settings :=
  settingsOf None DmOpen [] GroupOpen [] ModeOwn [] true.

(** A clock for the readiness wait: the world is the time in milliseconds,
    a probe takes 5 ms and answers ok from [readyFrom] on, a sleep lets
    its duration pass. *)
Definition probe (readyFrom : Z) (baseUrl : string) (timeoutMs : Z) (w : Z)
  : Except SignalCheckResult * Z :=
  (Returns {| ok := (readyFrom <=? w)%Z; status := Some 503%Z;
              checkError := None |}, (w + 5)%Z).

Definition pass (ms : Z) (w : Z) : Z := (w + ms)%Z.

Definition neverAborted (w : Z) : bool := false.

(** A transport for the deliveries: the world is the list of what was
    sent, a message with the media URL [bad] is refused; texts are cut in
    chunks of [limit] characters. *)
Definition transport (target text : string) (media : option string)
  (w : list (string * option string))
  : Except unit * list (string * option string) :=
  match media with
  | Some "bad" => (Throws "Error: upload failed", w)
  | _ => (Returns tt, (w ++ [(text, media)])%list)
  end.

Fixpoint chunksOf (fuel : nat) (text : string) (limit : nat) : list string :=
  match fuel with
  | O => []
  | S fuel' =>
      if (String.length text <=? limit)%nat then [text]
      else substring 0 limit text
           :: chunksOf fuel' (substring limit (String.length text - limit) text)
                limit
  end.

Definition chunker (text : string) (limit : Z) : list string :=
  chunksOf (String.length text) text (Z.to_nat limit).

(** A context with nothing in it, to compare runs up to the context. *)
Definition noContext : MsgContext :=
  {| Body := ""; From := ""; To := ""; SessionKey := ""; AccountId := "";
     ChatType := ""; GroupSubject := None; SenderName := ""; SenderId := "";
     MessageSid := None; Timestamp := None; MediaPath := None;
     MediaType := None; MediaUrl := None; CommandAuthorized := false;
     OriginatingTo := "" |}.

Definition replyOf (text : option string) (url : option string)
  (urls : option (list string)) : ReplyPayload :=
  {| replyText := text; mediaUrl := url; mediaUrls := urls |}.

End Fixtures.

Arguments ret {E A} a.
Arguments throw {E A} err.
Arguments bind {E A B} m f.
Arguments tryCatch {E A} m handler.
Arguments external {E A} c f.
Arguments emit {E} c.
Arguments inspect {E A} f.

(** * Properties *)

(** ** Counting calls *)

Lemma calledTimes_app (p : Call -> bool) (cs1 cs2 : list Call) :
  calledTimes p (cs1 ++ cs2) = calledTimes p cs1 + calledTimes p cs2.
Proof.
  unfold calledTimes. rewrite filter_app, length_app. reflexivity.
Qed.

Lemma calledTimes_cons (p : Call -> bool) (c : Call) (cs : list Call) :
  calledTimes p (c :: cs) = (if p c then 1 else 0) + calledTimes p cs.
Proof. unfold calledTimes. simpl. destruct (p c); reflexivity. Qed.

Lemma calledTimes_none (p : Call -> bool) (cs : list Call) :
  Forall (fun c => p c = false) cs -> calledTimes p cs = 0.
Proof.
  unfold calledTimes. induction 1 as [| c cs Hc _ IH]; simpl.
  - reflexivity.
  - rewrite Hc. exact IH.
Qed.

Lemma calledTimes_logs (p : Call -> bool) (cs : list Call) :
  (forall c, isLog c = true -> p c = false) ->
  Forall (fun c => isLog c = true) cs -> calledTimes p cs = 0.
Proof.
  intros Hp Hcs. apply calledTimes_none.
  eapply Forall_impl; [| exact Hcs]. exact Hp.
Qed.

Section Properties.

Context (E : Collaborators) (cfg : Settings).

(** ** What a computation can call *)

Lemma emits_ret {A : Type} (P : Call -> Prop) (a : A) : emits P (@ret E A a).
Proof. intros w. constructor. Qed.

Lemma emits_throw {A : Type} (P : Call -> Prop) (err : string) :
  emits P (@throw E A err).
Proof. intros w. constructor. Qed.

Lemma emits_emit (P : Call -> Prop) (c : Call) : P c -> emits P (@emit E c).
Proof. intros H w. repeat constructor. exact H. Qed.

Lemma emits_inspect {A : Type} (P : Call -> Prop) (f : World E -> A) :
  emits P (inspect f).
Proof. intros w. constructor. Qed.

Lemma emits_external {A : Type} (P : Call -> Prop) (c : Call)
  (f : World E -> Except A * World E) : P c -> emits P (external c f).
Proof.
  intros H w. unfold external, callsOf. destruct (f w). simpl.
  repeat constructor. exact H.
Qed.

Lemma emits_bind {A B : Type} (P : Call -> Prop) (m : M E A) (f : A -> M E B) :
  emits P m -> (forall a, emits P (f a)) -> emits P (bind m f).
Proof.
  intros Hm Hf w. unfold bind, callsOf. specialize (Hm w). unfold callsOf in Hm.
  destruct (m w) as [[[a | err] w1] cs1]; simpl in *.
  - specialize (Hf a w1). unfold callsOf in Hf.
    destruct (f a w1) as [[r w2] cs2]. simpl in *.
    apply Forall_app. split; assumption.
  - exact Hm.
Qed.

Lemma emits_tryCatch {A : Type} (P : Call -> Prop) (m : M E A)
  (handler : string -> M E A) :
  emits P m -> (forall err, emits P (handler err)) -> emits P (tryCatch m handler).
Proof.
  intros Hm Hh w. unfold tryCatch, callsOf. specialize (Hm w).
  unfold callsOf in Hm.
  destruct (m w) as [[[a | err] w1] cs1]; simpl in *.
  - exact Hm.
  - specialize (Hh err w1). unfold callsOf in Hh.
    destruct (handler err w1) as [[r w2] cs2]. simpl in *.
    apply Forall_app. split; assumption.
Qed.

Lemma emits_after {A : Type} (P : Call -> Prop) (cs : list Call)
  (r : Except A * World E * list Call) :
  Forall P cs -> Forall P (callsOf r) -> Forall P (callsOf (after cs r)).
Proof.
  intros H1 H2. unfold after, callsOf. simpl. apply Forall_app. split; assumption.
Qed.

Ltac emits_step :=
  first
    [ apply emits_ret
    | apply emits_throw
    | apply emits_inspect
    | apply emits_bind; [| intros ?]
    | apply emits_tryCatch; [| intros ?]
    | apply emits_emit
    | apply emits_external
    | match goal with
      | |- emits _ (if ?b then _ else _) => destruct b
      | |- emits _ (match ?x with _ => _ end) => destruct x
      end ].

(** ** Decoding a frame *)

Lemma exceptionLog_logs (payload : SignalReceivePayload) :
  Forall (fun c => isLog c = true) (exceptionLog payload).
Proof.
  unfold exceptionLog. destruct (exception payload) as [ex |]; [| constructor].
  destruct (Js.truthyOpt (exceptionMessage ex)); repeat constructor.
Qed.

Lemma handleEvent_decoded (event : SseEvent) (payload : SignalReceivePayload)
  (env : SignalEnvelope) (w : World E) :
  decodesTo E event payload env ->
  handleEvent E cfg event w
  = after (exceptionLog payload) (handleEnvelope E cfg env w).
Proof.
  intros (Hname & (data & Hdata & Htruthy & Hparse) & Henv).
  unfold handleEvent. rewrite Hname, Hdata, Htruthy, Hparse, Henv. simpl.
  unfold exceptionLog, after, outcomeOf, worldOf, callsOf, bind.
  destruct (exception payload) as [ex |]; simpl.
  - destruct (Js.truthyOpt (exceptionMessage ex)); simpl;
      destruct (handleEnvelope E cfg env w) as [[[u | err] w1] cs]; reflexivity.
  - destruct (handleEnvelope E cfg env w) as [[[u | err] w1] cs]; reflexivity.
Qed.

Lemma handleEnvelope_accepted (env : SignalEnvelope) (sender : SignalSender)
  (w : World E) :
  acceptedFrom E cfg env sender ->
  handleEnvelope E cfg env w
  = match reactionMessage env, resolveDataMessage env with
    | Some reaction, None => handleReaction E cfg env sender reaction w
    | None, None => (Returns tt, w, [])
    | _, Some dm => handleDataMessage E cfg env sender dm w
    end.
Proof.
  intros (Hsync & Hsender & Hown). unfold handleEnvelope.
  rewrite Hsync, Hsender, Hown.
  destruct (reactionMessage env), (resolveDataMessage env); reflexivity.
Qed.

(** ** C8: a frame that does not parse *)

(** C8. When the data of a [receive] frame does not parse, the handler logs
    the failure through [runtime.error] and returns normally: nothing is
    thrown, the world is untouched, no other call is made; and the frames
    that follow are handled exactly as if the bad frame had not been there,
    the logged line apart. *)
Theorem C8_parse_failure_discards_frame
  (event : SseEvent) (data err : string) (w : World E) :
  eventName event = Some "receive" ->
  eventData event = Some data ->
  Js.truthy data = true ->
  JSON_parse E data = Throws err ->
  handleEvent E cfg event w
  = (Returns tt, w, [CRuntimeError ("failed to parse event: " ++ err)])
  /\ onEvent E cfg event w
     = (Returns tt, w, [CRuntimeError ("failed to parse event: " ++ err)])
  /\ forall rest,
       onEvents E cfg (event :: rest) w
       = after [CRuntimeError ("failed to parse event: " ++ err)]
               (onEvents E cfg rest w).
Proof.
  intros Hname Hdata Htruthy Hparse.
  assert (Hrun : handleEvent E cfg event w
                 = (Returns tt, w,
                    [CRuntimeError ("failed to parse event: " ++ err)])).
  { unfold handleEvent. rewrite Hname, Hdata, Htruthy, Hparse. reflexivity. }
  assert (Hon : onEvent E cfg event w
                = (Returns tt, w,
                   [CRuntimeError ("failed to parse event: " ++ err)])).
  { unfold onEvent, tryCatch. rewrite Hrun. reflexivity. }
  repeat split; try assumption.
  intros rest. simpl. unfold bind at 1. rewrite Hon.
  unfold after, outcomeOf, worldOf, callsOf.
  destruct (onEvents E cfg rest w) as [[r w1] cs]. reflexivity.
Qed.

(** ** C5: messages of the configured account itself *)

(** C5. When the sender of an envelope resolves to a phone identity whose
    E.164 form is the normalised configured account, the handler returns
    at once: the world is untouched and the only call it can have made is
    the [runtime.error] line for the frame's [exception] field; there is no
    allow-list read, no pairing upsert, no outbound message, no
    notification, no last-route update and no dispatch. *)
Theorem C5_own_account_messages_are_dropped
  (event : SseEvent) (payload : SignalReceivePayload) (env : SignalEnvelope)
  (e164 acct : string) (w : World E) :
  decodesTo E event payload env ->
  resolveSignalSender E (sourceNumber env) (sourceUuid env)
  = Some (SenderPhone e164) ->
  account cfg = Some acct ->
  Js.truthy acct = true ->
  e164 = normalizeE164 E acct ->
  handleEvent E cfg event w = (Returns tt, w, exceptionLog payload)
  /\ calledTimes isStoreRead (callsOf (handleEvent E cfg event w)) = 0
  /\ calledTimes isUpsert (callsOf (handleEvent E cfg event w)) = 0
  /\ calledTimes isSend (callsOf (handleEvent E cfg event w)) = 0
  /\ calledTimes isEnqueue (callsOf (handleEvent E cfg event w)) = 0
  /\ calledTimes isUpdateLastRoute (callsOf (handleEvent E cfg event w)) = 0
  /\ calledTimes isDispatch (callsOf (handleEvent E cfg event w)) = 0.
Proof.
  intros Hdec Hsender Hacct Htruthy He164.
  assert (Henv : handleEnvelope E cfg env w = (Returns tt, w, [])).
  { unfold handleEnvelope.
    destruct (Js.truthyUnknown (syncMessage env)); [reflexivity |].
    rewrite Hsender. unfold isOwnMessage. rewrite Hacct, Htruthy, He164.
    rewrite String.eqb_refl. reflexivity. }
  assert (Hrun : handleEvent E cfg event w = (Returns tt, w, exceptionLog payload)).
  { rewrite (handleEvent_decoded _ _ _ _ Hdec), Henv.
    unfold after, outcomeOf, worldOf, callsOf. simpl.
    rewrite app_nil_r. reflexivity. }
  split; [exact Hrun |]. rewrite Hrun. unfold callsOf. simpl.
  repeat split; apply calledTimes_logs;
    try apply exceptionLog_logs; intros [] Hc; try discriminate Hc; reflexivity.
Qed.

(** ** C4: reaction removals *)

(** C4. A reaction-only envelope whose reaction is marked as a removal
    enqueues no notification, whatever the settings (so in every reaction
    mode): the handler returns with the world untouched, having made no
    call but the [runtime.error] line for the frame's [exception] field. *)
Theorem C4_removed_reaction_never_notifies
  (event : SseEvent) (payload : SignalReceivePayload) (env : SignalEnvelope)
  (reaction : SignalReactionMessage) (w : World E) :
  decodesTo E event payload env ->
  reactionMessage env = Some reaction ->
  resolveDataMessage env = None ->
  isRemove reaction = Some true ->
  handleEvent E cfg event w = (Returns tt, w, exceptionLog payload)
  /\ calledTimes isEnqueue (callsOf (handleEvent E cfg event w)) = 0.
Proof.
  intros Hdec Hreaction Hdata Hremove.
  assert (Henv : handleEnvelope E cfg env w = (Returns tt, w, [])).
  { unfold handleEnvelope.
    destruct (Js.truthyUnknown (syncMessage env)); [reflexivity |].
    destruct (resolveSignalSender E (sourceNumber env) (sourceUuid env))
      as [sender |]; [| reflexivity].
    destruct (isOwnMessage E cfg sender); [reflexivity |].
    rewrite Hreaction, Hdata. unfold handleReaction. rewrite Hremove.
    reflexivity. }
  assert (Hrun : handleEvent E cfg event w = (Returns tt, w, exceptionLog payload)).
  { rewrite (handleEvent_decoded _ _ _ _ Hdec), Henv.
    unfold after, outcomeOf, worldOf, callsOf. simpl.
    rewrite app_nil_r. reflexivity. }
  split; [exact Hrun |]. rewrite Hrun. unfold callsOf. simpl.
  apply calledTimes_logs; [| apply exceptionLog_logs].
  intros [] Hc; try discriminate Hc; reflexivity.
Qed.

(** ** The reaction path *)

Lemma handleReaction_silent (env : SignalEnvelope) (sender : SignalSender)
  (reaction : SignalReactionMessage) (w : World E) :
  shouldNotifyFor E cfg sender reaction = false ->
  calledTimes isEnqueue (callsOf (handleReaction E cfg env sender reaction w)) = 0.
Proof.
  intros Hno. unfold handleReaction.
  destruct (Js.nullish (isRemove reaction) false); [reflexivity |].
  unfold bind, logVerbose, emit. simpl. rewrite Hno. reflexivity.
Qed.

Lemma handleReaction_notifies (env : SignalEnvelope) (sender : SignalSender)
  (reaction : SignalReactionMessage) (w : World E) :
  Js.nullish (isRemove reaction) false = false ->
  shouldNotifyFor E cfg sender reaction = true ->
  calledTimes isEnqueue (callsOf (handleReaction E cfg env sender reaction w)) = 1.
Proof.
  intros Hkeep Hyes. unfold handleReaction.
  rewrite Hkeep. unfold bind, logVerbose, emit, external. simpl. rewrite Hyes.
  simpl.
  match goal with
  | |- context [enqueueSystemEvent E ?t ?k ?c w] =>
      destruct (enqueueSystemEvent E t k c w) as [r w1]
  end.
  reflexivity.
Qed.

Lemma own_mode_decision (acct : string) (targets : list SignalReactionTarget)
  (sender : option SignalSender) (allowlist : option (list string)) :
  Js.truthy (Js.trim acct) = true ->
  targets <> [] ->
  shouldEmitSignalReactionNotification E (Some ModeOwn) (Some acct) (Some targets)
    sender allowlist
  = existsb (targetMatchesAccount (Js.trim acct) (normalizeE164 E (Js.trim acct)))
      targets.
Proof.
  intros Hacct Htargets. unfold shouldEmitSignalReactionNotification. simpl.
  rewrite Hacct. destruct targets as [| t ts]; [contradiction |]. reflexivity.
Qed.

Lemma targetMatchesAccount_spec (accountId normalized : string)
  (target : SignalReactionTarget) :
  targetMatchesAccount accountId normalized target = true <->
  match kind target with
  | KindPhone => normalized = id target
  | KindUuid => accountId = id target \/ accountId = "uuid:" ++ id target
  end.
Proof.
  unfold targetMatchesAccount. destruct (kind target).
  - apply String.eqb_eq.
  - rewrite orb_true_iff, !String.eqb_eq. reflexivity.
Qed.

(** ** C1: mode own looks at every target candidate *)

(** C1. Take a reaction event that reaches the decision in mode own: the
    configured account is a non-blank string, the reaction carries a
    [targetAuthorUuid] and a [targetAuthor], and the normalised E.164 form
    of the target author is that of the account.  Then the targets are the
    UUID candidate followed by the phone candidate, the decision is to
    notify, and the handler enqueues exactly one notification.  In general
    the decision in mode own holds exactly when some candidate of the list,
    at any position, matches under the rule of its kind: normalised-phone
    equality for a phone candidate, equality with the account or with the
    account after [uuid:] for a UUID candidate. *)
Theorem C1_own_mode_checks_every_candidate
  (event : SseEvent) (payload : SignalReceivePayload) (env : SignalEnvelope)
  (sender : SignalSender) (reaction : SignalReactionMessage)
  (acct author uuid : string) (w : World E) :
  decodesTo E event payload env ->
  acceptedFrom E cfg env sender ->
  reactionMessage env = Some reaction ->
  resolveDataMessage env = None ->
  Js.nullish (isRemove reaction) false = false ->
  reactionMode cfg = ModeOwn ->
  account cfg = Some acct ->
  Js.truthy (Js.trim acct) = true ->
  targetAuthorUuid reaction = Some uuid ->
  Js.truthy (Js.trim uuid) = true ->
  targetAuthor reaction = Some author ->
  Js.truthy (Js.trim author) = true ->
  normalizeE164 E (Js.trim author) = normalizeE164 E (Js.trim acct) ->
  resolveSignalReactionTargets E reaction
  = [ {| kind := KindUuid; id := Js.trim uuid;
         display := "uuid:" ++ Js.trim uuid |};
      {| kind := KindPhone; id := normalizeE164 E (Js.trim author);
         display := normalizeE164 E (Js.trim author) |} ]
  /\ shouldNotifyFor E cfg sender reaction = true
  /\ calledTimes isEnqueue (callsOf (handleEvent E cfg event w)) = 1
  /\ forall (targets : list SignalReactionTarget) (from : option SignalSender)
        (allowlist : option (list string)),
       targets <> [] ->
       (shouldEmitSignalReactionNotification E (Some ModeOwn) (Some acct)
          (Some targets) from allowlist = true
        <-> exists target, In target targets /\
              match kind target with
              | KindPhone => normalizeE164 E (Js.trim acct) = id target
              | KindUuid => Js.trim acct = id target
                            \/ Js.trim acct = "uuid:" ++ id target
              end).
Proof.
  intros Hdec Hacc Hreaction Hdata Hkeep Hmode Hacct Htruthy Huuid Huuid'
         Hauthor Hauthor' Hsame.
  assert (Htargets : resolveSignalReactionTargets E reaction
            = [ {| kind := KindUuid; id := Js.trim uuid;
                   display := "uuid:" ++ Js.trim uuid |};
                {| kind := KindPhone; id := normalizeE164 E (Js.trim author);
                   display := normalizeE164 E (Js.trim author) |} ]).
  { unfold resolveSignalReactionTargets. rewrite Huuid, Hauthor. simpl.
    rewrite Huuid', Hauthor'. reflexivity. }
  assert (Hyes : shouldNotifyFor E cfg sender reaction = true).
  { unfold shouldNotifyFor. rewrite Hmode, Hacct, Htargets.
    rewrite own_mode_decision by (assumption || discriminate).
    simpl. unfold targetMatchesAccount at 2. simpl.
    rewrite Hsame, String.eqb_refl. rewrite !orb_true_r. reflexivity. }
  split; [exact Htargets |]. split; [exact Hyes |]. split.
  - rewrite (handleEvent_decoded _ _ _ _ Hdec).
    rewrite (handleEnvelope_accepted _ _ _ Hacc), Hreaction, Hdata.
    unfold after, callsOf at 1. simpl. rewrite calledTimes_app.
    rewrite (calledTimes_logs isEnqueue (exceptionLog payload));
      [| intros [] Hc; try discriminate Hc; reflexivity
       | apply exceptionLog_logs ].
    simpl. apply handleReaction_notifies; assumption.
  - intros targets from allowlist Hne.
    rewrite own_mode_decision by assumption.
    rewrite existsb_exists. split.
    + intros (target & Hin & Hmatch). exists target. split; [exact Hin |].
      apply targetMatchesAccount_spec. exact Hmatch.
    + intros (target & Hin & Hmatch). exists target. split; [exact Hin |].
      apply targetMatchesAccount_spec. exact Hmatch.
Qed.

(** ** C9: mode own without something to compare *)

(** C9. In mode own (set, or by default when no mode is given) the decision
    is not to notify whenever the configured account is absent or blank
    after trimming, or the targets are absent or empty; accordingly the
    reaction path of the handler, run in mode own with such an account or
    on a reaction that yields no target candidate, enqueues nothing. *)
Theorem C9_own_mode_fails_closed :
  (forall (mode : option SignalReactionNotificationMode) (acct : option string)
          (targets : option (list SignalReactionTarget))
          (sender : option SignalSender) (allowlist : option (list string)),
      Js.nullish mode ModeOwn = ModeOwn ->
      (acct = None \/ (exists a, acct = Some a /\ Js.trim a = "")
       \/ targets = None \/ targets = Some []) ->
      shouldEmitSignalReactionNotification E mode acct targets sender allowlist
      = false)
  /\ (forall (env : SignalEnvelope) (from : SignalSender)
             (reaction : SignalReactionMessage) (w : World E),
         reactionMode cfg = ModeOwn ->
         (account cfg = None
          \/ (exists a, account cfg = Some a /\ Js.trim a = "")
          \/ resolveSignalReactionTargets E reaction = []) ->
         calledTimes isEnqueue
           (callsOf (handleReaction E cfg env from reaction w)) = 0).
Proof.
  assert (Hdecide : forall mode acct targets sender allowlist,
             Js.nullish mode ModeOwn = ModeOwn ->
             (acct = None \/ (exists a, acct = Some a /\ Js.trim a = "")
              \/ targets = None \/ targets = Some []) ->
             shouldEmitSignalReactionNotification E mode acct targets sender
               allowlist = false).
  { intros mode acct targets sender allowlist Hmode Hmissing.
    unfold shouldEmitSignalReactionNotification. rewrite Hmode.
    destruct Hmissing as [-> | [(a & -> & Hblank) | [-> | ->]]]; simpl.
    - reflexivity.
    - rewrite Hblank. destruct targets; reflexivity.
    - destruct (option_map Js.trim acct); reflexivity.
    - destruct (option_map Js.trim acct) as [a |]; [| reflexivity].
      rewrite orb_true_r. reflexivity. }
  split; [exact Hdecide |].
  intros env from reaction w Hown Hmissing.
  apply handleReaction_silent. unfold shouldNotifyFor. rewrite Hown.
  apply Hdecide; [reflexivity |].
  destruct Hmissing as [H | [H | H]]; auto.
  right. right. right. rewrite H. reflexivity.
Qed.

(** ** The conversational path *)

Lemma after_after {A : Type} (cs1 cs2 : list Call)
  (r : Except A * World E * list Call) :
  after cs1 (after cs2 r) = after (cs1 ++ cs2) r.
Proof.
  unfold after, outcomeOf, worldOf, callsOf. simpl. rewrite app_assoc.
  reflexivity.
Qed.

Lemma callsOf_after {A : Type} (cs : list Call)
  (r : Except A * World E * list Call) :
  callsOf (after cs r) = (cs ++ callsOf r)%list.
Proof. reflexivity. Qed.

Lemma handleDataMessage_reads (env : SignalEnvelope) (sender : SignalSender)
  (dm : SignalDataMessage) (w : World E) :
  Js.truthy (resolveSignalRecipient E sender) = true ->
  handleDataMessage E cfg env sender dm w
  = after [CReadAllowFromStore "signal"]
      (applyAccessPolicy E cfg env sender dm (storeAllowFromIn E w)
         (snd (readProviderAllowFromStore E "signal" w))).
Proof.
  intros Hrecipient. unfold handleDataMessage, storeAllowFromIn.
  rewrite Hrecipient. simpl.
  unfold bind, tryCatch, external, ret, after, outcomeOf, worldOf, callsOf.
  destruct (readProviderAllowFromStore E "signal" w) as [[l | err] w1]; simpl.
  - destruct (applyAccessPolicy E cfg env sender dm l w1) as [[r w2] cs].
    reflexivity.
  - destruct (applyAccessPolicy E cfg env sender dm [] w1) as [[r w2] cs].
    reflexivity.
Qed.

Lemma handleEvent_conversational (event : SseEvent)
  (payload : SignalReceivePayload) (env : SignalEnvelope)
  (sender : SignalSender) (dm : SignalDataMessage) (w : World E) :
  conversational E cfg event payload env sender dm ->
  handleEvent E cfg event w
  = after (exceptionLog payload ++ [CReadAllowFromStore "signal"])
      (applyAccessPolicy E cfg env sender dm (storeAllowFromIn E w)
         (snd (readProviderAllowFromStore E "signal" w))).
Proof.
  intros (Hdec & Hacc & Hdata & Hrecipient).
  rewrite (handleEvent_decoded _ _ _ _ Hdec).
  rewrite (handleEnvelope_accepted _ _ _ Hacc), Hdata.
  rewrite <- after_after. f_equal.
  destruct (reactionMessage env); apply handleDataMessage_reads; assumption.
Qed.

Lemma fetchAttachment_emits (P : Call -> Prop) (acct : option string)
  (att : SignalAttachment) (from groupId : option string) (maxBytes : Z) :
  (forall c, isMedia c = true -> P c) ->
  emits P (fetchAttachment E acct att from groupId maxBytes).
Proof.
  intros HP. unfold fetchAttachment.
  repeat emits_step; apply HP; reflexivity.
Qed.

Lemma fetchFirstAttachment_emits (P : Call -> Prop) (sender : SignalSender)
  (dm : SignalDataMessage) :
  (forall c, isMedia c = true -> P c) ->
  (forall c, isLog c = true -> P c) ->
  emits P (fetchFirstAttachment E cfg sender dm).
Proof.
  intros Hmedia Hlog. unfold fetchFirstAttachment, runtimeError.
  repeat first [ apply fetchAttachment_emits; [exact Hmedia] | emits_step ];
    apply Hlog; reflexivity.
Qed.

Lemma fetchFirstAttachment_returns (sender : SignalSender)
  (dm : SignalDataMessage) (w : World E) :
  exists media, outcomeOf (fetchFirstAttachment E cfg sender dm w) = Returns media.
Proof.
  unfold fetchFirstAttachment.
  destruct (attachments dm) as [[| att rest] |];
    try (eexists; reflexivity).
  destruct (Js.truthyOpt (attachmentId att) && negb (ignoreAttachments cfg));
    [| eexists; reflexivity].
  unfold tryCatch, outcomeOf.
  match goal with
  | |- context [match ?m w with _ => _ end] =>
      destruct (m w) as [[[media | err] w1] cs1]
  end.
  - eexists; reflexivity.
  - unfold bind, runtimeError, emit, ret. simpl. eexists; reflexivity.
Qed.

Lemma dispatcherCalls_emit (P : Call -> Prop) (steps : list DispatcherCall) :
  (forall c, isLog c = true -> P c) ->
  (forall c, isDeliver c = true -> P c) ->
  Forall P (map (dispatcherCall E) steps).
Proof.
  intros Hlog Hdeliver. induction steps as [| [call | err kind] rest IH]; simpl.
  - constructor.
  - constructor; [apply Hdeliver; reflexivity | exact IH].
  - constructor; [apply Hlog; reflexivity | exact IH].
Qed.

Lemma dispatchReplies_emits (P : Call -> Prop) (ctx : MsgContext)
  (agent : string) :
  (forall c, isLog c = true -> P c) ->
  (forall c, isDeliver c = true -> P c) ->
  (forall o, P (CDispatch ctx o)) ->
  emits P (dispatchReplies E cfg ctx agent).
Proof.
  intros Hlog Hdeliver Hdispatch w. unfold dispatchReplies, callsOf.
  destruct (dispatchReplyFromConfig E ctx (option_map negb (blockStreaming cfg))
              (resolveResponsePrefix E agent) (deliver E cfg ctx) w)
    as [[r w1] steps].
  simpl. constructor; [apply Hdispatch |].
  apply dispatcherCalls_emit; assumption.
Qed.

Lemma dispatchInbound_emits (P : Call -> Prop) (env : SignalEnvelope)
  (sender : SignalSender) (dm : SignalDataMessage) (flag : bool) :
  (forall c, isMedia c = true -> P c) ->
  (forall c, isLog c = true -> P c) ->
  (forall c, isUpdateLastRoute c = true -> P c) ->
  (forall ctx o, CommandAuthorized ctx = flag -> P (CDispatch ctx o)) ->
  (forall c, isDeliver c = true -> P c) ->
  emits P (dispatchInbound E cfg env sender dm flag).
Proof.
  intros Hmedia Hlog Hroute Hdispatch Hdeliver.
  unfold dispatchInbound, logVerbose.
  cbv zeta.
  repeat first
    [ apply fetchFirstAttachment_emits; [exact Hmedia | exact Hlog]
    | apply dispatchReplies_emits;
      [ exact Hlog | exact Hdeliver | intros o; apply Hdispatch; reflexivity ]
    | emits_step ];
    first [ apply Hroute; reflexivity
          | apply Hlog; reflexivity ].
Qed.

Lemma applyAccessPolicy_emits (P : Call -> Prop) (env : SignalEnvelope)
  (sender : SignalSender) (dm : SignalDataMessage) (store : list string) :
  (forall c, isEnqueue c = false -> P c) ->
  emits P (applyAccessPolicy E cfg env sender dm store).
Proof.
  intros HP. unfold applyAccessPolicy, logVerbose. cbv zeta.
  repeat first
    [ apply dispatchInbound_emits;
      [ intros [] Hc; try discriminate Hc; apply HP; reflexivity
      | intros [] Hc; try discriminate Hc; apply HP; reflexivity
      | intros [] Hc; try discriminate Hc; apply HP; reflexivity
      | intros ctx o _; apply HP; reflexivity
      | intros [] Hc; try discriminate Hc; apply HP; reflexivity ]
    | emits_step ];
    apply HP; reflexivity.
Qed.

Lemma handleDataMessage_emits (P : Call -> Prop) (env : SignalEnvelope)
  (sender : SignalSender) (dm : SignalDataMessage) :
  (forall c, isEnqueue c = false -> P c) ->
  emits P (handleDataMessage E cfg env sender dm).
Proof.
  intros HP. unfold handleDataMessage.
  destruct (negb (Js.truthy (resolveSignalRecipient E sender)));
    [apply emits_ret |].
  apply emits_bind.
  - apply emits_tryCatch; [apply emits_external; apply HP; reflexivity |].
    intros err. apply emits_ret.
  - intros store. apply applyAccessPolicy_emits. exact HP.
Qed.

(** ** C2: a frame with a reaction and a conversational message *)

(** C2. When an envelope carries a reaction together with a data message,
    the data message being its own or the one of its edit message, the
    handler enqueues no notification for the frame, and it does exactly
    what it does for the same envelope without the reaction: only the
    conversational path runs. *)
Theorem C2_reaction_beside_data_message_is_dropped
  (event : SseEvent) (payload : SignalReceivePayload) (env : SignalEnvelope)
  (reaction : SignalReactionMessage) (dm : SignalDataMessage) (w : World E) :
  decodesTo E event payload env ->
  reactionMessage env = Some reaction ->
  (dataMessage env = Some dm
   \/ exists edit, editMessage env = Some edit /\ editDataMessage edit = Some dm) ->
  calledTimes isEnqueue (callsOf (handleEvent E cfg event w)) = 0
  /\ handleEnvelope E cfg env w = handleEnvelope E cfg (withoutReaction env) w.
Proof.
  intros Hdec Hreaction Hdata.
  assert (Hsome : exists dm', resolveDataMessage env = Some dm').
  { unfold resolveDataMessage.
    destruct Hdata as [Hown | (edit & Hedit & Hvia)].
    - rewrite Hown. eexists; reflexivity.
    - destruct (dataMessage env) as [dm0 |]; [eexists; reflexivity |].
      rewrite Hedit. simpl. rewrite Hvia. eexists; reflexivity. }
  destruct Hsome as (dm' & Hdm').
  assert (Hsame : handleEnvelope E cfg env w
                  = handleEnvelope E cfg (withoutReaction env) w).
  { unfold handleEnvelope. simpl.
    change (resolveDataMessage (withoutReaction env))
      with (resolveDataMessage env).
    rewrite Hreaction, Hdm'. reflexivity. }
  split; [| exact Hsame].
  rewrite (handleEvent_decoded _ _ _ _ Hdec), callsOf_after, calledTimes_app.
  rewrite (calledTimes_logs isEnqueue (exceptionLog payload));
    [| intros [] Hc; try discriminate Hc; reflexivity
     | apply exceptionLog_logs ].
  simpl. apply calledTimes_none. unfold handleEnvelope.
  destruct (Js.truthyUnknown (syncMessage env)); [constructor |].
  destruct (resolveSignalSender E (sourceNumber env) (sourceUuid env))
    as [sender |]; [| constructor].
  destruct (isOwnMessage E cfg sender); [constructor |].
  rewrite Hreaction, Hdm'.
  apply (handleDataMessage_emits (fun c => isEnqueue c = false)).
  intros c Hc. exact Hc.
Qed.

(** ** C3: one pairing reply per pending request *)

Lemma filter_logs (p : Call -> bool) (cs : list Call) :
  (forall c, isLog c = true -> p c = false) ->
  Forall (fun c => isLog c = true) cs -> filter p cs = [].
Proof.
  intros Hp. induction 1 as [| c cs Hc _ IH]; simpl.
  - reflexivity.
  - rewrite (Hp c Hc). exact IH.
Qed.

Lemma applyAccessPolicy_pairing (env : SignalEnvelope) (sender : SignalSender)
  (dm : SignalDataMessage) (store : list string) (w : World E)
  (code : string) (created : bool) :
  Js.truthyOpt (dataGroupId dm) = false ->
  dmPolicy cfg = DmPairing ->
  isSignalSenderAllowed E sender (effectiveDmAllow cfg store) = false ->
  fst (upsertProviderPairingRequest E "signal" (formatSignalSenderId E sender)
         (sourceName env) w) = Returns (code, created) ->
  let senderId := formatSignalSenderId E sender in
  let to := "signal:" ++ resolveSignalRecipient E sender in
  let text :=
    buildPairingReply E "signal" (formatSignalPairingIdLine E sender) code in
  let upserted :=
    snd (upsertProviderPairingRequest E "signal" senderId (sourceName env) w) in
  let sending := sendMessageSignal E to text None upserted in
  applyAccessPolicy E cfg env sender dm store w
  = (Returns tt,
     (if created then snd sending else upserted),
     CUpsertPairingRequest "signal" senderId (sourceName env)
     :: (if created
         then CLogVerbose ("signal pairing request sender=" ++ senderId)
              :: CSendMessage to text
              :: match fst sending with
                 | Returns _ => []
                 | Throws err =>
                     [CLogVerbose ("signal pairing reply failed for " ++ senderId
                                     ++ ": " ++ err)]
                 end
         else [])).
Proof.
  intros Hdirect Hpolicy Hdenied Hupsert. cbv zeta.
  unfold applyAccessPolicy, dmAllowed. rewrite Hdirect, Hpolicy, Hdenied. simpl.
  unfold bind, external, tryCatch, logVerbose, emit, ret.
  destruct (upsertProviderPairingRequest E "signal" (formatSignalSenderId E sender)
              (sourceName env) w) as [r w1].
  simpl in Hupsert. subst r. simpl. destruct created; simpl.
  - match goal with
    | |- context [sendMessageSignal E ?t ?m None w1] =>
        destruct (sendMessageSignal E t m None w1) as [[[] | err] w2]
    end; reflexivity.
  - reflexivity.
Qed.

Lemma handleEvent_pairingDenied (event : SseEvent)
  (payload : SignalReceivePayload) (env : SignalEnvelope)
  (sender : SignalSender) (dm : SignalDataMessage) (w : World E)
  (code : string) (created : bool) :
  pairingDenied E cfg event payload env sender dm w code created ->
  let senderId := formatSignalSenderId E sender in
  let to := "signal:" ++ resolveSignalRecipient E sender in
  let text :=
    buildPairingReply E "signal" (formatSignalPairingIdLine E sender) code in
  let sending := sendMessageSignal E to text None (afterUpsert E env sender w) in
  handleEvent E cfg event w
  = (Returns tt,
     (if created then snd sending else afterUpsert E env sender w),
     (exceptionLog payload
      ++ CReadAllowFromStore "signal"
      :: CUpsertPairingRequest "signal" senderId (sourceName env)
      :: (if created
          then CLogVerbose ("signal pairing request sender=" ++ senderId)
               :: CSendMessage to text
               :: match fst sending with
                  | Returns _ => []
                  | Throws err =>
                      [CLogVerbose ("signal pairing reply failed for "
                                      ++ senderId ++ ": " ++ err)]
                  end
          else []))%list).
Proof.
  intros (Hconv & Hdirect & Hpolicy & Hdenied & Hupsert). cbv zeta.
  rewrite (handleEvent_conversational _ _ _ _ _ _ Hconv).
  rewrite (applyAccessPolicy_pairing env sender dm _ _ code created
             Hdirect Hpolicy Hdenied Hupsert).
  unfold after, outcomeOf, worldOf, callsOf, afterUpsert. simpl.
  rewrite <- app_assoc. reflexivity.
Qed.

Lemma pairing_calls (p : Call -> bool) (payload : SignalReceivePayload)
  (first : Call) (rest : list Call) :
  (forall c, isLog c = true -> p c = false) ->
  p (CReadAllowFromStore "signal") = false ->
  filter p (exceptionLog payload ++ CReadAllowFromStore "signal" :: first :: rest)
  = filter p (first :: rest).
Proof.
  intros Hlog Hread. rewrite filter_app.
  rewrite (filter_logs p (exceptionLog payload) Hlog (exceptionLog_logs payload)).
  simpl. rewrite Hread. reflexivity.
Qed.

(** C3. For a direct message under [dmPolicy=pairing] from a sender the
    effective allow-list does not hold, the handler calls the pairing
    store's upsert once, for the sender's id and name, and sends the
    pairing reply exactly when the upsert answers [created=true]: then one
    message goes out, to [signal:<recipient>] with the text
    [buildPairingReply] makes of the sender's id line and the code the
    upsert answered, and otherwise none.  The handler does not throw, also
    when the send fails, the world is left as the upsert and that one send
    left it, and nothing is dispatched or delivered.  Hence of two such
    messages of one sender, the store answering [created=true] to the
    handler of the one and [created=false] to the handler of the other,
    exactly one pairing reply goes out, the one with the code of the
    request that was created; this does not depend on the worlds the two
    handlers run in, so it holds however their steps are scheduled. *)
Theorem C3_pairing_reply_iff_created :
  (forall (event : SseEvent) (payload : SignalReceivePayload)
          (env : SignalEnvelope) (sender : SignalSender)
          (dm : SignalDataMessage) (w : World E)
          (code : string) (created : bool),
      pairingDenied E cfg event payload env sender dm w code created ->
      let run := handleEvent E cfg event w in
      let to := "signal:" ++ resolveSignalRecipient E sender in
      let text :=
        buildPairingReply E "signal" (formatSignalPairingIdLine E sender) code in
      outcomeOf run = Returns tt
      /\ filter isUpsert (callsOf run)
         = [CUpsertPairingRequest "signal" (formatSignalSenderId E sender)
              (sourceName env)]
      /\ filter isOutbound (callsOf run)
         = (if created then [CSendMessage to text] else [])
      /\ calledTimes isSend (callsOf run) = (if created then 1 else 0)
      /\ (0 < calledTimes isSend (callsOf run) <-> created = true)
      /\ worldOf run
         = (if created
            then snd (sendMessageSignal E to text None (afterUpsert E env sender w))
            else afterUpsert E env sender w)
      /\ calledTimes isDispatch (callsOf run) = 0)
  /\ (forall (first second : SseEvent) (payload payload' : SignalReceivePayload)
             (env env' : SignalEnvelope) (dm dm' : SignalDataMessage)
             (sender : SignalSender) (w w' : World E) (code code' : string),
         pairingDenied E cfg first payload env sender dm w code true ->
         pairingDenied E cfg second payload' env' sender dm' w' code' false ->
         filter isOutbound
           (callsOf (handleEvent E cfg first w)
            ++ callsOf (handleEvent E cfg second w'))
         = [CSendMessage ("signal:" ++ resolveSignalRecipient E sender)
              (buildPairingReply E "signal" (formatSignalPairingIdLine E sender)
                 code)]).
Proof.
  assert (Hlogs : forall p, p = isUpsert \/ p = isOutbound \/ p = isSend
                            \/ p = isDispatch ->
            (forall c, isLog c = true -> p c = false)
            /\ p (CReadAllowFromStore "signal") = false).
  { intros p [-> | [-> | [-> | ->]]]; (split; [| reflexivity]);
      intros [] Hc; try discriminate Hc; reflexivity. }
  split.
  - intros event payload env sender dm w code created Hdenied. cbv zeta.
    rewrite (handleEvent_pairingDenied _ _ _ _ _ _ _ _ Hdenied).
    unfold outcomeOf, worldOf, callsOf, calledTimes. simpl.
    destruct (Hlogs isUpsert) as (Hl1 & Hr1); [auto |].
    destruct (Hlogs isOutbound) as (Hl2 & Hr2); [auto |].
    destruct (Hlogs isSend) as (Hl3 & Hr3); [auto |].
    destruct (Hlogs isDispatch) as (Hl4 & Hr4); [auto |].
    rewrite (pairing_calls isUpsert _ _ _ Hl1 Hr1).
    rewrite (pairing_calls isOutbound _ _ _ Hl2 Hr2).
    rewrite !(pairing_calls isSend _ _ _ Hl3 Hr3).
    rewrite (pairing_calls isDispatch _ _ _ Hl4 Hr4).
    destruct created; simpl.
    + match goal with
      | |- context [fst (sendMessageSignal E ?t ?m None ?w1)] =>
          destruct (fst (sendMessageSignal E t m None w1)) as [[] | err]
      end; simpl; (repeat split; try reflexivity; lia).
    + repeat split; try reflexivity; try lia; intros H; discriminate H.
  - intros first second payload payload' env env' dm dm' sender w w' code code'
      Hfirst Hsecond.
    rewrite (handleEvent_pairingDenied _ _ _ _ _ _ _ _ Hfirst).
    rewrite (handleEvent_pairingDenied _ _ _ _ _ _ _ _ Hsecond).
    unfold callsOf. simpl.
    destruct (Hlogs isOutbound) as (Hl2 & Hr2); [auto |].
    rewrite filter_app, !(pairing_calls isOutbound _ _ _ Hl2 Hr2). simpl.
    match goal with
    | |- context [fst (sendMessageSignal E ?t ?m None ?w1)] =>
        destruct (fst (sendMessageSignal E t m None w1)) as [[] | err]
    end; reflexivity.
Qed.

(** ** Messages that pass the access policy *)

Lemma resolveBodyText_text (dm : SignalDataMessage) (mediaType : option string) :
  Js.truthy (Js.trim (Js.nullish (message dm) "")) = true ->
  Js.truthy (resolveBodyText E dm mediaType) = true.
Proof.
  intros Htext. unfold resolveBodyText. rewrite Htext. exact Htext.
Qed.

Lemma callsOf_bind_returns {A B : Type} (m : M E A) (f : A -> M E B)
  (w : World E) (a : A) :
  outcomeOf (m w) = Returns a ->
  callsOf (bind m f w)
  = (callsOf (m w) ++ callsOf (f a (worldOf (m w))))%list.
Proof.
  unfold outcomeOf, worldOf, callsOf, bind.
  destruct (m w) as [[r w1] cs1]. simpl. intros ->.
  destruct (f a w1) as [[r w2] cs2]. reflexivity.
Qed.

Lemma dispatchReplies_counts (p : Call -> bool) (ctx : MsgContext)
  (agent : string) (w : World E) :
  (forall c, isLog c = true -> p c = false) ->
  (forall c, isDeliver c = true -> p c = false) ->
  calledTimes p (callsOf (dispatchReplies E cfg ctx agent w))
  = (if p (CDispatch ctx (option_map negb (blockStreaming cfg))) then 1 else 0).
Proof.
  intros Hlog Hdeliver. unfold dispatchReplies, callsOf.
  destruct (dispatchReplyFromConfig E ctx (option_map negb (blockStreaming cfg))
              (resolveResponsePrefix E agent) (deliver E cfg ctx) w)
    as [[r w1] steps].
  simpl snd. change (?c :: ?l) with ([c] ++ l)%list.
  rewrite calledTimes_app.
  rewrite (calledTimes_none p (map (dispatcherCall E) steps)).
  - unfold calledTimes. simpl.
    destruct (p (CDispatch ctx (option_map negb (blockStreaming cfg))));
      reflexivity.
  - apply dispatcherCalls_emit; assumption.
Qed.

Ltac dispatch_counts w :=
  match goal with
  | |- context [dispatchReplies E cfg ?c ?a w] =>
      pose proof (dispatchReplies_counts isUpdateLastRoute c a w
                    ltac:(intros [] Hc; try discriminate Hc; reflexivity)
                    ltac:(intros [] Hc; try discriminate Hc; reflexivity)) as Hr;
      pose proof (dispatchReplies_counts isDispatch c a w
                    ltac:(intros [] Hc; try discriminate Hc; reflexivity)
                    ltac:(intros [] Hc; try discriminate Hc; reflexivity)) as Hd;
      unfold callsOf in Hr, Hd;
      destruct (dispatchReplies E cfg c a w) as [[[q | err] w'] cs];
      simpl in Hr, Hd
  end.

Lemma dispatchInbound_text (env : SignalEnvelope) (sender : SignalSender)
  (dm : SignalDataMessage) (flag : bool) (w : World E) :
  Js.truthy (Js.trim (Js.nullish (message dm) "")) = true ->
  let run := dispatchInbound E cfg env sender dm flag w in
  calledTimes isUpdateLastRoute (callsOf run)
  = (if Js.truthyOpt (dataGroupId dm) then 0 else 1)
  /\ (Js.truthyOpt (dataGroupId dm) = true ->
      calledTimes isDispatch (callsOf run) = 1).
Proof.
  intros Htext. cbv zeta. unfold dispatchInbound.
  destruct (fetchFirstAttachment_returns sender dm w) as (media & Hmedia).
  rewrite (callsOf_bind_returns _ _ _ _ Hmedia).
  pose proof (fetchFirstAttachment_emits
                (fun c => isUpdateLastRoute c = false /\ isDispatch c = false)
                sender dm) as Hquiet.
  specialize (Hquiet
    ltac:(intros [] Hc; try discriminate Hc; split; reflexivity)
    ltac:(intros [] Hc; try discriminate Hc; split; reflexivity) w).
  assert (Hroute : calledTimes isUpdateLastRoute
                     (callsOf (fetchFirstAttachment E cfg sender dm w)) = 0).
  { apply calledTimes_none. eapply Forall_impl; [| exact Hquiet].
    intros c Hc; apply Hc. }
  assert (Hdisp : calledTimes isDispatch
                    (callsOf (fetchFirstAttachment E cfg sender dm w)) = 0).
  { apply calledTimes_none. eapply Forall_impl; [| exact Hquiet].
    intros c Hc; apply Hc. }
  rewrite !calledTimes_app, Hroute, Hdisp. simpl Nat.add.
  generalize (worldOf (fetchFirstAttachment E cfg sender dm w)). intros w1.
  clear Hquiet Hroute Hdisp Hmedia.
  rewrite (resolveBodyText_text dm (snd media) Htext). simpl negb. cbv iota.
  unfold bind, external, inspect, logVerbose, emit, ret, callsOf.
  destruct (Js.truthyOpt (dataGroupId dm)); simpl.
  - destruct (shouldLogVerbose E w1); simpl;
      dispatch_counts w1; simpl;
      repeat (rewrite calledTimes_cons || rewrite calledTimes_app);
      rewrite ?Hr, ?Hd; split; reflexivity.
  - match goal with
    | |- context [updateLastRoute E ?a ?b ?c ?d ?e w1] =>
        destruct (updateLastRoute E a b c d e w1) as [[u | err] w2]
    end; simpl.
    + destruct (shouldLogVerbose E w2); simpl;
        dispatch_counts w2; simpl;
        repeat (rewrite calledTimes_cons || rewrite calledTimes_app);
        rewrite ?Hr, ?Hd;
        (split; [reflexivity | intros Hgroup; discriminate Hgroup]).
    + split; [reflexivity | intros Hgroup; discriminate Hgroup].
Qed.

(** ** C6: a sender of the allow-list is not asked to pair *)

Lemma own_sends_apart (cs : list Call) :
  Forall (fun c => isSend c = false) cs ->
  filter isOutbound cs = filter isReplySend cs.
Proof.
  induction 1 as [| c cs Hc _ IH]; simpl.
  - reflexivity.
  - unfold isOutbound at 1. rewrite Hc. simpl.
    destruct (isReplySend c); rewrite IH; reflexivity.
Qed.

(** C6. The effective direct-message allow-list is the static [allowFrom]
    followed by the persisted list, so an entry is in it exactly when it is
    in one of the two.  For a direct message under [dmPolicy=pairing] whose
    sender that list allows, the handler never calls the pairing store's
    upsert, so no pairing code is issued, and the message is allowed: after
    the allow-list read the handler goes straight on to build the message
    and hand it to the reply pipeline, every dispatch of the run carries
    [CommandAuthorized = true], and a message with text reaches the
    last-route update.  Every [sendMessageSignal] call of the run is one
    that [deliverReplies] makes for a reply of the pipeline. *)
Theorem C6_allowed_sender_is_never_paired
  (event : SseEvent) (payload : SignalReceivePayload) (env : SignalEnvelope)
  (sender : SignalSender) (dm : SignalDataMessage) (w : World E) :
  conversational E cfg event payload env sender dm ->
  Js.truthyOpt (dataGroupId dm) = false ->
  dmPolicy cfg = DmPairing ->
  isSignalSenderAllowed E sender (allowFrom cfg ++ storeAllowFromIn E w)%list
  = true ->
  (forall store entry,
      In entry (effectiveDmAllow cfg store)
      <-> In entry (allowFrom cfg) \/ In entry store)
  /\ calledTimes isUpsert (callsOf (handleEvent E cfg event w)) = 0
  /\ handleEvent E cfg event w
     = after (exceptionLog payload ++ [CReadAllowFromStore "signal"])
         (dispatchInbound E cfg env sender dm true
            (snd (readProviderAllowFromStore E "signal" w)))
  /\ (forall ctx o, In (CDispatch ctx o) (callsOf (handleEvent E cfg event w)) ->
        CommandAuthorized ctx = true)
  /\ filter isOutbound (callsOf (handleEvent E cfg event w))
     = filter isReplySend (callsOf (handleEvent E cfg event w))
  /\ (Js.truthy (Js.trim (Js.nullish (message dm) "")) = true ->
      calledTimes isUpdateLastRoute (callsOf (handleEvent E cfg event w)) = 1).
Proof.
  intros Hconv Hdirect Hpolicy Hallowed.
  assert (Hrun : handleEvent E cfg event w
            = after (exceptionLog payload ++ [CReadAllowFromStore "signal"])
                (dispatchInbound E cfg env sender dm true
                   (snd (readProviderAllowFromStore E "signal" w)))).
  { rewrite (handleEvent_conversational _ _ _ _ _ _ Hconv). f_equal.
    unfold applyAccessPolicy, commandAuthorized, dmAllowed, effectiveDmAllow.
    rewrite Hdirect, Hpolicy, Hallowed. reflexivity. }
  assert (Hquiet : Forall (fun c => isUpsert c = false /\ isSend c = false
                                    /\ match c with
                                       | CDispatch ctx _ =>
                                           CommandAuthorized ctx = true
                                       | _ => True
                                       end)
            (callsOf (handleEvent E cfg event w))).
  { rewrite Hrun. apply emits_after.
    - apply Forall_app. split.
      + eapply Forall_impl; [| apply exceptionLog_logs].
        intros [] Hc; try discriminate Hc; repeat split.
      + repeat constructor.
    - apply dispatchInbound_emits.
      + intros [] Hc; try discriminate Hc; repeat split.
      + intros [] Hc; try discriminate Hc; repeat split.
      + intros [] Hc; try discriminate Hc; repeat split.
      + intros ctx o Hflag. repeat split. exact Hflag.
      + intros [] Hc; try discriminate Hc; repeat split. }
  split; [| split; [| split; [| split; [| split]]]].
  - intros store entry. unfold effectiveDmAllow. apply in_app_iff.
  - apply calledTimes_none. eapply Forall_impl; [| exact Hquiet].
    intros c Hc; apply Hc.
  - exact Hrun.
  - intros ctx o Hin. rewrite Forall_forall in Hquiet.
    exact (proj2 (proj2 (Hquiet _ Hin))).
  - apply own_sends_apart. eapply Forall_impl; [| exact Hquiet].
    intros c Hc; apply Hc.
  - intros Htext. rewrite Hrun, callsOf_after, !calledTimes_app.
    rewrite (calledTimes_logs isUpdateLastRoute (exceptionLog payload));
      [| intros [] Hc; try discriminate Hc; reflexivity
       | apply exceptionLog_logs ].
    simpl.
    destruct (dispatchInbound_text env sender dm true
                (snd (readProviderAllowFromStore E "signal" w)) Htext)
      as (Hroute & _).
    rewrite Hroute, Hdirect. reflexivity.
Qed.

(** ** C7: command authorisation in groups *)

(** C7. For a group message, write [allow] for the effective group
    allow-list.  When the message passes the group read policy (the policy
    is not disabled and, if it is allowlist, [allow] is non-empty and holds
    the sender), the handler goes on to build and dispatch it with
    [CommandAuthorized] equal to the sender's membership in [allow] when
    [allow] is non-empty and to true when it is empty: every dispatch of
    the run carries that flag, and a message with text is dispatched
    exactly once.  So an empty list gives [CommandAuthorized = true] under
    a policy other than allowlist, whereas under [groupPolicy=allowlist]
    an empty list means that nothing is dispatched at all. *)
Theorem C7_group_command_authorized
  (event : SseEvent) (payload : SignalReceivePayload) (env : SignalEnvelope)
  (sender : SignalSender) (dm : SignalDataMessage) (w : World E) :
  conversational E cfg event payload env sender dm ->
  Js.truthyOpt (dataGroupId dm) = true ->
  let allow := effectiveGroupAllow cfg (storeAllowFromIn E w) in
  let run := handleEvent E cfg event w in
  let flag :=
    if (0 <? length allow)%nat then isSignalSenderAllowed E sender allow
    else true in
  (groupPolicy cfg <> GroupDisabled ->
   (groupPolicy cfg = GroupAllowlist ->
    allow <> [] /\ isSignalSenderAllowed E sender allow = true) ->
   run = after (exceptionLog payload ++ [CReadAllowFromStore "signal"])
           (dispatchInbound E cfg env sender dm flag
              (snd (readProviderAllowFromStore E "signal" w)))
   /\ (forall ctx o, In (CDispatch ctx o) (callsOf run) ->
         CommandAuthorized ctx = flag)
   /\ (Js.truthy (Js.trim (Js.nullish (message dm) "")) = true ->
       calledTimes isDispatch (callsOf run) = 1)
   /\ (allow = [] -> flag = true))
  /\ (groupPolicy cfg = GroupAllowlist -> allow = [] ->
      calledTimes isDispatch (callsOf run) = 0).
Proof.
  intros Hconv Hgroup. cbv zeta.
  assert (Hlogs : forall p, (forall c, isLog c = true -> p c = false) ->
            calledTimes p (exceptionLog payload) = 0).
  { intros p Hp. apply calledTimes_logs; [exact Hp | apply exceptionLog_logs]. }
  rewrite (handleEvent_conversational _ _ _ _ _ _ Hconv).
  set (allow := effectiveGroupAllow cfg (storeAllowFromIn E w)).
  set (w1 := snd (readProviderAllowFromStore E "signal" w)).
  split.
  - intros Hon Hlisted.
    assert (Hpass : applyAccessPolicy E cfg env sender dm (storeAllowFromIn E w) w1
              = dispatchInbound E cfg env sender dm
                  (if (0 <? length allow)%nat
                   then isSignalSenderAllowed E sender allow else true) w1).
    { unfold applyAccessPolicy, commandAuthorized. rewrite Hgroup. simpl.
      fold allow.
      destruct (groupPolicy cfg) eqn:Hpolicy; simpl.
      - reflexivity.
      - contradiction.
      - destruct (Hlisted eq_refl) as (Hne & Hin). rewrite Hin.
        destruct allow as [| entry rest]; [contradiction |]. reflexivity. }
    rewrite Hpass. split; [reflexivity |]. split; [| split].
    + intros ctx o Hin. rewrite callsOf_after in Hin.
      apply in_app_or in Hin. destruct Hin as [Hin | Hin].
      * apply in_app_or in Hin. destruct Hin as [Hin | Hin].
        -- pose proof (exceptionLog_logs payload) as Hall.
           rewrite Forall_forall in Hall. specialize (Hall _ Hin).
           discriminate Hall.
        -- destruct Hin as [Hin | []]. discriminate Hin.
      * pose proof (dispatchInbound_emits
                      (fun c => match c with
                                | CDispatch ctx' _ =>
                                    CommandAuthorized ctx'
                                    = (if (0 <? length allow)%nat
                                       then isSignalSenderAllowed E sender allow
                                       else true)
                                | _ => True
                                end) env sender dm
                      (if (0 <? length allow)%nat
                       then isSignalSenderAllowed E sender allow else true))
          as Hall.
        specialize (Hall
          ltac:(intros [] Hc; try discriminate Hc; exact I)
          ltac:(intros [] Hc; try discriminate Hc; exact I)
          ltac:(intros [] Hc; try discriminate Hc; exact I)
          ltac:(intros ctx' o' Hflag; exact Hflag)
          ltac:(intros [] Hc; try discriminate Hc; exact I) w1).
        rewrite Forall_forall in Hall. exact (Hall _ Hin).
    + intros Htext. rewrite callsOf_after, !calledTimes_app.
      rewrite Hlogs by (intros [] Hc; try discriminate Hc; reflexivity).
      simpl.
      destruct (dispatchInbound_text env sender dm
                  (if (0 <? length allow)%nat
                   then isSignalSenderAllowed E sender allow else true)
                  w1 Htext) as (_ & Hdisp).
      exact (Hdisp Hgroup).
    + intros ->. reflexivity.
  - intros Hpolicy Hempty. rewrite callsOf_after, !calledTimes_app.
    rewrite Hlogs by (intros [] Hc; try discriminate Hc; reflexivity).
    simpl. unfold applyAccessPolicy. rewrite Hgroup, Hpolicy. simpl.
    fold allow. rewrite Hempty. reflexivity.
Qed.

(** ** C10: the persisted allow-list cannot be read *)

(** C10. When the read of the persisted allow-list rejects while a
    conversational message is handled, the handler takes the persisted list
    to be empty and carries on: the effective direct-message and group
    allow-lists are the static [allowFrom] and [groupAllowFrom] alone, and
    the run is the read followed by the access policy applied with the
    empty persisted list, in the world the read left; the error of the
    read is not the outcome of the handler.  In particular a direct message
    with text under [dmPolicy=open] still reaches the last-route update. *)
Theorem C10_store_read_failure_is_swallowed
  (event : SseEvent) (payload : SignalReceivePayload) (env : SignalEnvelope)
  (sender : SignalSender) (dm : SignalDataMessage) (err : string)
  (w : World E) :
  conversational E cfg event payload env sender dm ->
  fst (readProviderAllowFromStore E "signal" w) = Throws err ->
  storeAllowFromIn E w = []
  /\ effectiveDmAllow cfg (storeAllowFromIn E w) = allowFrom cfg
  /\ effectiveGroupAllow cfg (storeAllowFromIn E w) = groupAllowFrom cfg
  /\ handleEvent E cfg event w
     = after (exceptionLog payload ++ [CReadAllowFromStore "signal"])
         (applyAccessPolicy E cfg env sender dm []
            (snd (readProviderAllowFromStore E "signal" w)))
  /\ (Js.truthyOpt (dataGroupId dm) = false ->
      dmPolicy cfg = DmOpen ->
      Js.truthy (Js.trim (Js.nullish (message dm) "")) = true ->
      calledTimes isUpdateLastRoute (callsOf (handleEvent E cfg event w)) = 1).
Proof.
  intros Hconv Hread.
  assert (Hstore : storeAllowFromIn E w = []).
  { unfold storeAllowFromIn. rewrite Hread. reflexivity. }
  assert (Hrun : handleEvent E cfg event w
            = after (exceptionLog payload ++ [CReadAllowFromStore "signal"])
                (applyAccessPolicy E cfg env sender dm []
                   (snd (readProviderAllowFromStore E "signal" w)))).
  { rewrite (handleEvent_conversational _ _ _ _ _ _ Hconv), Hstore.
    reflexivity. }
  split; [exact Hstore |]. rewrite Hstore.
  unfold effectiveDmAllow, effectiveGroupAllow. rewrite !app_nil_r.
  split; [reflexivity |]. split; [reflexivity |]. split; [exact Hrun |].
  intros Hdirect Hopen Htext. rewrite Hrun, callsOf_after, !calledTimes_app.
  rewrite (calledTimes_logs isUpdateLastRoute (exceptionLog payload));
    [| intros [] Hc; try discriminate Hc; reflexivity
     | apply exceptionLog_logs ].
  simpl. unfold applyAccessPolicy, commandAuthorized, dmAllowed.
  rewrite Hdirect, Hopen. simpl.
  destruct (dispatchInbound_text env sender dm true
              (snd (readProviderAllowFromStore E "signal" w)) Htext)
    as (Hroute & _).
  rewrite Hroute, Hdirect. reflexivity.
Qed.

End Properties.

(** ** The properties on the frames of the test suite *)

Ltac by_computation :=
  repeat first [ reflexivity | discriminate | eexists | split ].

Lemma C1_own_mode_witness :
  shouldNotifyFor Mock.env Mock.ownSettings (SenderPhone "+15550001111")
    Mock.ownReaction = true
  /\ calledTimes isEnqueue
       (callsOf (handleEvent Mock.env Mock.ownSettings
                   (Mock.receive "own-reaction") Mock.emptyWorld)) = 1.
Proof.
  pose proof (C1_own_mode_checks_every_candidate Mock.env Mock.ownSettings
                (Mock.receive "own-reaction")
                (Mock.payloadOf Mock.ownReactionEnvelope)
                Mock.ownReactionEnvelope (SenderPhone "+15550001111")
                Mock.ownReaction "+15550002222" "+15550002222"
                "123e4567-e89b-12d3-a456-426614174000" Mock.emptyWorld) as H.
  destruct H as (_ & Hyes & Honce & _); [by_computation .. |].
  split; assumption.
Defined.


Lemma C2_reaction_beside_message_witness :
  calledTimes isEnqueue
    (callsOf (handleEvent Mock.env Mock.ownSettings
                (Mock.receive "reaction-and-message") Mock.emptyWorld)) = 0
  /\ calledTimes isDispatch
       (callsOf (handleEvent Mock.env Mock.ownSettings
                   (Mock.receive "reaction-and-message") Mock.emptyWorld)) = 1.
Proof.
  split; [| reflexivity].
  apply (C2_reaction_beside_data_message_is_dropped Mock.env Mock.ownSettings
           (Mock.receive "reaction-and-message")
           (Mock.payloadOf Mock.reactionAndMessageEnvelope)
           Mock.reactionAndMessageEnvelope Mock.ownReaction
           (Mock.textMessage "ping" None) Mock.emptyWorld).
  - by_computation.
  - reflexivity.
  - left. reflexivity.
Defined.

Lemma C3_pairing_reply_witness :
  pairingDenied Mock.env Mock.pairingSettings (Mock.receive "hello")
    (Mock.payloadOf Mock.helloEnvelope) Mock.helloEnvelope
    (SenderPhone "+15550001111") (Mock.textMessage "hello" None)
    Mock.emptyWorld "PAIRCODE" true
  /\ filter isOutbound
       (callsOf (handleEvent Mock.env Mock.pairingSettings
                   (Mock.receive "hello") Mock.emptyWorld))
     = [CSendMessage "signal:+15550001111"
          "Your Signal number: +15550001111 Pairing code: PAIRCODE"]
  /\ filter isOutbound
       (callsOf (handleEvent Mock.env Mock.pairingSettings
                   (Mock.receive "hello") Mock.emptyWorld)
        ++ callsOf (handleEvent Mock.env Mock.pairingSettings
                      (Mock.receive "hello-again")
                      (worldOf (handleEvent Mock.env Mock.pairingSettings
                                  (Mock.receive "hello") Mock.emptyWorld))))
     = [CSendMessage "signal:+15550001111"
          "Your Signal number: +15550001111 Pairing code: PAIRCODE"].
Proof.
  assert (Hfirst : pairingDenied Mock.env Mock.pairingSettings
                     (Mock.receive "hello")
                     (Mock.payloadOf Mock.helloEnvelope) Mock.helloEnvelope
                     (SenderPhone "+15550001111") (Mock.textMessage "hello" None)
                     Mock.emptyWorld "PAIRCODE" true).
  { by_computation. }
  assert (Hsecond : pairingDenied Mock.env Mock.pairingSettings
                      (Mock.receive "hello-again")
                      (Mock.payloadOf Mock.helloEnvelope) Mock.helloEnvelope
                      (SenderPhone "+15550001111")
                      (Mock.textMessage "hello" None)
                      (worldOf (handleEvent Mock.env Mock.pairingSettings
                                  (Mock.receive "hello") Mock.emptyWorld))
                      "PAIRCODE" false).
  { by_computation. }
  destruct (C3_pairing_reply_iff_created Mock.env Mock.pairingSettings)
    as (Hone & Htwo).
  split; [exact Hfirst |]. split.
  - pose proof (Hone _ _ _ _ _ _ _ _ Hfirst) as H. cbv zeta in H.
    destruct H as (_ & _ & Hsend & _). exact Hsend.
  - exact (Htwo _ _ _ _ _ _ _ _ _ _ _ _ _ Hfirst Hsecond).
Defined.

Lemma C4_removed_reaction_witness :
  calledTimes isEnqueue
    (callsOf (handleEvent Mock.env Mock.ownSettings
                (Mock.receive "removed-reaction") Mock.emptyWorld)) = 0.
Proof.
  apply (C4_removed_reaction_never_notifies Mock.env Mock.ownSettings
           (Mock.receive "removed-reaction")
           (Mock.payloadOf Mock.removedReactionEnvelope)
           Mock.removedReactionEnvelope Mock.removedReaction Mock.emptyWorld);
    by_computation.
Defined.

Lemma C5_own_account_witness :
  handleEvent Mock.env Mock.ownSettings (Mock.receive "self") Mock.emptyWorld
  = (Returns tt, Mock.emptyWorld, []).
Proof.
  apply (C5_own_account_messages_are_dropped Mock.env Mock.ownSettings
           (Mock.receive "self") (Mock.payloadOf Mock.selfEnvelope)
           Mock.selfEnvelope "+15550002222" "+15550002222" Mock.emptyWorld);
    by_computation.
Defined.

Lemma C6_allowed_sender_witness :
  calledTimes isUpsert
    (callsOf (handleEvent Mock.env Mock.pairingFriendSettings
                (Mock.receive "hello") Mock.emptyWorld)) = 0
  /\ filter isOutbound
       (callsOf (handleEvent Mock.env Mock.pairingFriendSettings
                   (Mock.receive "hello") Mock.emptyWorld))
     = [CDeliver (DSendMessage "signal:+15550001111" "PFX pong" None)]
  /\ calledTimes isUpdateLastRoute
       (callsOf (handleEvent Mock.env Mock.pairingFriendSettings
                   (Mock.receive "hello") Mock.emptyWorld)) = 1.
Proof.
  destruct (C6_allowed_sender_is_never_paired Mock.env Mock.pairingFriendSettings
              (Mock.receive "hello") (Mock.payloadOf Mock.helloEnvelope)
              Mock.helloEnvelope (SenderPhone "+15550001111")
              (Mock.textMessage "hello" None) Mock.emptyWorld)
    as (_ & Hupsert & _ & _ & Hout & Hroute); [by_computation .. |].
  split; [exact Hupsert |]. split; [rewrite Hout; reflexivity |].
  apply Hroute. reflexivity.
Defined.

Lemma C7_group_command_witness :
  (forall ctx o,
      In (CDispatch ctx o)
         (callsOf (handleEvent Mock.env (Mock.groupSettings GroupOpen)
                     (Mock.receive "group-hello") Mock.emptyWorld)) ->
      CommandAuthorized ctx = true)
  /\ calledTimes isDispatch
       (callsOf (handleEvent Mock.env (Mock.groupSettings GroupOpen)
                   (Mock.receive "group-hello") Mock.emptyWorld)) = 1
  /\ calledTimes isDispatch
       (callsOf (handleEvent Mock.env (Mock.groupSettings GroupAllowlist)
                   (Mock.receive "group-hello") Mock.emptyWorld)) = 0.
Proof.
  destruct (C7_group_command_authorized Mock.env (Mock.groupSettings GroupOpen)
              (Mock.receive "group-hello") (Mock.payloadOf Mock.groupEnvelope)
              Mock.groupEnvelope (SenderPhone "+15550001111")
              (Mock.textMessage "hello all" (Some Mock.friends)) Mock.emptyWorld)
    as (Hopen & _); [by_computation .. |].
  destruct Hopen as (_ & Hflag & Honce & _);
    [discriminate | intros Hpolicy; discriminate Hpolicy |].
  destruct (C7_group_command_authorized Mock.env
              (Mock.groupSettings GroupAllowlist)
              (Mock.receive "group-hello") (Mock.payloadOf Mock.groupEnvelope)
              Mock.groupEnvelope (SenderPhone "+15550001111")
              (Mock.textMessage "hello all" (Some Mock.friends)) Mock.emptyWorld)
    as (_ & Hlisted); [by_computation .. |].
  split; [exact Hflag |]. split.
  - apply Honce. reflexivity.
  - apply Hlisted; reflexivity.
Defined.

Lemma C8_parse_failure_witness :
  handleEvent Mock.env Mock.ownSettings (Mock.receive "{not json")
    Mock.emptyWorld
  = (Returns tt, Mock.emptyWorld,
     [CRuntimeError "failed to parse event: SyntaxError: Unexpected token"])
  /\ calledTimes isEnqueue
       (callsOf (onEvents Mock.env Mock.ownSettings
                   [Mock.receive "{not json"; Mock.receive "own-reaction"]
                   Mock.emptyWorld)) = 1.
Proof.
  destruct (C8_parse_failure_discards_frame Mock.env Mock.ownSettings
              (Mock.receive "{not json") "{not json"
              "SyntaxError: Unexpected token" Mock.emptyWorld)
    as (Hrun & _ & Hrest); [reflexivity .. |].
  split; [exact Hrun |].
  rewrite (Hrest [Mock.receive "own-reaction"]). reflexivity.
Defined.

Lemma C9_own_mode_fails_closed_witness :
  shouldEmitSignalReactionNotification Mock.env None (Some "   ")
    (Some (resolveSignalReactionTargets Mock.env Mock.ownReaction))
    (Some (SenderPhone "+15550001111")) None = false
  /\ calledTimes isEnqueue
       (callsOf (handleReaction Mock.env Mock.noAccountSettings
                   Mock.ownReactionEnvelope (SenderPhone "+15550001111")
                   Mock.ownReaction Mock.emptyWorld)) = 0.
Proof.
  destruct (C9_own_mode_fails_closed Mock.env Mock.noAccountSettings)
    as (Hdecide & Hquiet).
  split.
  - apply Hdecide; [reflexivity |].
    right. left. exists "   ". split; reflexivity.
  - apply Hquiet; [reflexivity |]. left. reflexivity.
Defined.

Lemma C10_store_read_failure_witness :
  storeAllowFromIn Mock.env Mock.brokenStoreWorld = []
  /\ outcomeOf (handleEvent Mock.env Mock.ownSettings (Mock.receive "hello")
                  Mock.brokenStoreWorld) = Returns tt
  /\ calledTimes isUpdateLastRoute
       (callsOf (handleEvent Mock.env Mock.ownSettings (Mock.receive "hello")
                   Mock.brokenStoreWorld)) = 1.
Proof.
  destruct (C10_store_read_failure_is_swallowed Mock.env Mock.ownSettings
              (Mock.receive "hello") (Mock.payloadOf Mock.helloEnvelope)
              Mock.helloEnvelope (SenderPhone "+15550001111")
              (Mock.textMessage "hello" None) "Error: ENOENT"
              Mock.brokenStoreWorld)
    as (Hstore & _ & _ & _ & Hroute); [by_computation .. |].
  split; [exact Hstore |]. split; [reflexivity |].
  apply Hroute; reflexivity.
Defined.

(** ** The runs of [monitor.tool-result.test.ts], replayed *)

(** "ignores reaction-only messages": no reply, no send, no last route. *)
Example reaction_only_frame_is_not_a_message :
  let run := handleEvent Mock.env Mock.defaultSettings
               (Mock.receive "own-reaction") Mock.emptyWorld in
  calledTimes isDispatch (callsOf run) = 0
  /\ calledTimes isOutbound (callsOf run) = 0
  /\ calledTimes isUpdateLastRoute (callsOf run) = 0.
Proof. repeat split. Qed.

(** "enqueues system events for reaction notifications" *)
Example reaction_notified_in_mode_all :
  Mock.systemEvents
    (worldOf (handleEvent Mock.env Mock.allSettings
                (Mock.receive "own-reaction") Mock.emptyWorld))
  = [ ("Signal reaction added: +1 by Ada msg 2 from "
         ++ "uuid:123e4567-e89b-12d3-a456-426614174000",
       "agent:main:signal:dm:+15550001111",
       "signal:reaction:added:2:+15550001111:+1") ].
Proof. reflexivity. Qed.

(** "processes messages when reaction metadata is present" *)
Example message_with_reaction_metadata_is_processed :
  let run := handleEvent Mock.env Mock.defaultSettings
               (Mock.receive "reaction-and-message") Mock.emptyWorld in
  calledTimes isDispatch (callsOf run) = 1
  /\ calledTimes isOutbound (callsOf run) = 1
  /\ calledTimes isUpdateLastRoute (callsOf run) = 1
  /\ Mock.systemEvents (worldOf run) = [].
Proof. repeat split. Qed.

(** "pairs uuid-only senders with a uuid allowlist entry" *)
Example uuid_sender_is_paired_by_uuid :
  callsOf (handleEvent Mock.env Mock.pairingSettings
             (Mock.receive "uuid-hello") Mock.emptyWorld)
  = [ CReadAllowFromStore "signal";
      CUpsertPairingRequest "signal"
        "uuid:123e4567-e89b-12d3-a456-426614174000" (Some "Ada");
      CLogVerbose ("signal pairing request sender="
                     ++ "uuid:123e4567-e89b-12d3-a456-426614174000");
      CSendMessage "signal:123e4567-e89b-12d3-a456-426614174000"
        ("Your Signal sender id: uuid:123e4567-e89b-12d3-a456-426614174000"
           ++ " Pairing code: PAIRCODE") ].
Proof. reflexivity. Qed.

(** A pairing reply that fails to send is logged, and the handler returns. *)
Example failed_pairing_reply_is_logged :
  let w := {| Mock.allowStore := Returns []; Mock.pending := [];
              Mock.sendRejects := true; Mock.sent := [];
              Mock.systemEvents := []; Mock.lastRoutes := [];
              Mock.dispatched := [] |} in
  let run := handleEvent Mock.env Mock.pairingSettings (Mock.receive "hello") w in
  outcomeOf run = Returns tt
  /\ calledTimes isOutbound (callsOf run) = 1
  /\ last (callsOf run) (CLogVerbose "")
     = CLogVerbose ("signal pairing reply failed for +15550001111: "
                      ++ "Error: send failed").
Proof. repeat split. Qed.

(** "sends tool summaries with responsePrefix" *)
Example tool_summaries_are_sent_with_the_prefix :
  filter isOutbound
    (callsOf (handleEvent Fixtures.withToolSummary Mock.defaultSettings
                (Mock.receive "hello") Mock.emptyWorld))
  = [ CDeliver (DSendMessage "signal:+15550001111" "PFX tool update" None);
      CDeliver (DSendMessage "signal:+15550001111" "PFX final reply" None) ].
Proof. reflexivity. Qed.

(** A direct message under the open policy, from the read of the persisted
    allow-list to the delivery of the reply. *)
Example open_direct_message_run :
  map (fun c => match c with CDispatch _ o => CDispatch Fixtures.noContext o
                           | _ => c end)
    (callsOf (handleEvent Mock.env Mock.defaultSettings
                (Mock.receive "hello") Mock.emptyWorld))
  = [ CReadAllowFromStore "signal";
      CUpdateLastRoute "/tmp/clawdbot-sessions.json" "agent:main:main" "signal"
        "+15550001111" "default";
      CDispatch Fixtures.noContext None;
      CDeliver (DSendMessage "signal:+15550001111" "PFX pong" None);
      CDeliver (DRuntimeLog "delivered reply to signal:+15550001111") ].
Proof. reflexivity. Qed.

(** A reply that cannot be sent is reported to [onError], which logs it;
    the handler returns. *)
Example failed_reply_is_logged :
  let run := handleEvent Mock.env Mock.defaultSettings (Mock.receive "hello")
               Fixtures.refusingWorld in
  outcomeOf run = Returns tt
  /\ calledTimes isOutbound (callsOf run) = 1
  /\ last (callsOf run) (CLogVerbose "")
     = CRuntimeError "signal final reply failed: Error: send failed".
Proof. repeat split. Qed.

(** * Further properties of the handler *)

Section MoreProperties.

Context (E : Collaborators) (cfg : Settings).

Lemma exceptionLog_count (payload : SignalReceivePayload) (p : Call -> bool) :
  (forall c, isLog c = true -> p c = false) ->
  calledTimes p (exceptionLog payload) = 0.
Proof.
  intros Hp. apply calledTimes_logs; [exact Hp | apply exceptionLog_logs].
Qed.

Ltac not_a_log := intros [] Hc; try discriminate Hc; reflexivity.

Ltac calls_step :=
  first
    [ apply emits_ret
    | apply emits_throw
    | apply emits_inspect
    | apply emits_bind; [| intros ?]
    | apply emits_tryCatch; [| intros ?]
    | apply emits_emit
    | apply emits_external
    | match goal with
      | |- emits _ (if ?b then _ else _) => destruct b
      | |- emits _ (match ?x with _ => _ end) => destruct x
      end ].

(** ** Frames that are dropped *)

(** X1. A frame is dropped without any effect on the world, and with no
    call besides [runtime.error] lines, when it is not a [receive] event,
    has no data or empty data, parses to [null] or to a payload without an
    envelope, carries a truthy [syncMessage] (whatever else it carries), or
    has a sender that does not resolve. *)
Theorem dropped_frames_have_no_effect
  (event : SseEvent) (w : World E) :
  (eventName event <> Some "receive"
   \/ Js.truthyOpt (eventData event) = false
   \/ (exists data, eventData event = Some data
                    /\ JSON_parse E data = Returns None)
   \/ (exists data payload, eventData event = Some data
         /\ JSON_parse E data = Returns (Some payload)
         /\ (envelope payload = None
             \/ exists env, envelope payload = Some env
                  /\ (Js.truthyUnknown (syncMessage env) = true
                      \/ resolveSignalSender E (sourceNumber env) (sourceUuid env)
                         = None)))) ->
  outcomeOf (handleEvent E cfg event w) = Returns tt
  /\ worldOf (handleEvent E cfg event w) = w
  /\ Forall (fun c => isLog c = true) (callsOf (handleEvent E cfg event w)).
Proof.
  intros Hdrop. unfold handleEvent.
  destruct (eventName event) as [name |] eqn:Hname;
    [| repeat split; constructor].
  destruct (eventData event) as [data |] eqn:Hdata;
    [| repeat split; constructor].
  destruct (negb (name =? "receive") || negb (Js.truthy data)) eqn:Hgate;
    [repeat split; constructor |].
  apply orb_false_elim in Hgate. destruct Hgate as (Hrecv & Htruthy).
  apply negb_false_iff in Hrecv, Htruthy. apply String.eqb_eq in Hrecv.
  subst name.
  destruct Hdrop as [Hne | [Hempty | [Hnull | Hpayload]]].
  - contradiction.
  - simpl in Hempty. congruence.
  - destruct Hnull as (data' & Heq & Hparse). inversion Heq; subst data'.
    rewrite Hparse. repeat split; constructor.
  - destruct Hpayload as (data' & payload & Heq & Hparse & Hrest).
    inversion Heq; subst data'. rewrite Hparse.
    assert (Henv : match envelope payload with
                   | Some env => handleEnvelope E cfg env w = (Returns tt, w, [])
                   | None => True
                   end).
    { destruct Hrest as [Hnone | (env & Hsome & Hwhy)].
      - rewrite Hnone. exact I.
      - rewrite Hsome. unfold handleEnvelope.
        destruct Hwhy as [Hsync | Hsender].
        + rewrite Hsync. reflexivity.
        + destruct (Js.truthyUnknown (syncMessage env)); [reflexivity |].
          rewrite Hsender. reflexivity. }
    unfold bind, runtimeError, emit, ret, outcomeOf, worldOf, callsOf.
    destruct (exception payload) as [ex |]; simpl;
      [destruct (Js.truthyOpt (exceptionMessage ex)); simpl |];
      destruct (envelope payload) as [env |]; try rewrite Henv; simpl;
      repeat split; repeat constructor.
Qed.

(** X2. The [exception] field of a frame is logged and otherwise changes
    nothing: the outcome and the world are those of handling the envelope,
    and the calls are the [runtime.error] line followed by the calls of
    handling the envelope. *)
Theorem exception_field_is_logged_and_processing_continues
  (event : SseEvent) (payload : SignalReceivePayload) (env : SignalEnvelope)
  (text : string) (w : World E) :
  decodesTo E event payload env ->
  exception payload = Some {| exceptionMessage := Some text |} ->
  Js.truthy text = true ->
  outcomeOf (handleEvent E cfg event w) = outcomeOf (handleEnvelope E cfg env w)
  /\ worldOf (handleEvent E cfg event w) = worldOf (handleEnvelope E cfg env w)
  /\ callsOf (handleEvent E cfg event w)
     = CRuntimeError ("receive exception: " ++ text)
       :: callsOf (handleEnvelope E cfg env w).
Proof.
  intros Hdec Hex Htext. rewrite (handleEvent_decoded E cfg _ _ _ _ Hdec).
  unfold exceptionLog. rewrite Hex. simpl. rewrite Htext.
  repeat split.
Qed.

(** ** The reaction path *)

Lemma prefix_refl_app (s t : string) : prefix s (s ++ t) = true.
Proof.
  induction s as [| c s IH]; simpl.
  - destruct t; reflexivity.
  - destruct (ascii_dec c c) as [_ | Hne]; [exact IH | contradiction].
Qed.

Lemma prefix_empty (s : string) : prefix "" s = true.
Proof. destruct s; reflexivity. Qed.

Lemma string_app_assoc (s t u : string) : (s ++ t) ++ u = s ++ (t ++ u).
Proof.
  induction s as [| c s IH]; simpl; [reflexivity |]. f_equal. exact IH.
Qed.

Lemma handleReaction_emits (P : Call -> Prop) (env : SignalEnvelope)
  (sender : SignalSender) (reaction : SignalReactionMessage) :
  (forall c, isLog c = true -> P c) ->
  (forall c, isEnqueue c = true -> P c) ->
  emits P (handleReaction E cfg env sender reaction).
Proof.
  intros Hlog Henq. unfold handleReaction, logVerbose. cbv zeta.
  repeat calls_step; first [apply Hlog; reflexivity | apply Henq; reflexivity].
Qed.

Lemma handleReaction_at_most_once (env : SignalEnvelope) (sender : SignalSender)
  (reaction : SignalReactionMessage) (w : World E) :
  calledTimes isEnqueue (callsOf (handleReaction E cfg env sender reaction w))
  = if negb (Js.nullish (isRemove reaction) false)
       && shouldNotifyFor E cfg sender reaction
    then 1 else 0.
Proof.
  destruct (Js.nullish (isRemove reaction) false) eqn:Hremove; simpl.
  - unfold handleReaction. rewrite Hremove. reflexivity.
  - destruct (shouldNotifyFor E cfg sender reaction) eqn:Hdecide.
    + apply handleReaction_notifies; assumption.
    + apply handleReaction_silent; assumption.
Qed.

(** The enqueue count of a reaction-only frame that is accepted. *)
Lemma reaction_frame_count (event : SseEvent) (payload : SignalReceivePayload)
  (env : SignalEnvelope) (sender : SignalSender)
  (reaction : SignalReactionMessage) (w : World E) :
  decodesTo E event payload env ->
  acceptedFrom E cfg env sender ->
  reactionMessage env = Some reaction ->
  resolveDataMessage env = None ->
  calledTimes isEnqueue (callsOf (handleEvent E cfg event w))
  = if negb (Js.nullish (isRemove reaction) false)
       && shouldNotifyFor E cfg sender reaction
    then 1 else 0.
Proof.
  intros Hdec Hacc Hreaction Hdata.
  rewrite (handleEvent_decoded E cfg _ _ _ _ Hdec).
  rewrite (handleEnvelope_accepted E cfg _ _ _ Hacc), Hreaction, Hdata.
  rewrite callsOf_after, calledTimes_app.
  rewrite exceptionLog_count by not_a_log. simpl.
  apply handleReaction_at_most_once.
Qed.

(** X3. In mode off no reaction is ever notified, and in mode all every
    accepted reaction-only frame that is not a removal is notified exactly
    once, whatever its targets and whether or not an account is
    configured. *)
Theorem reaction_modes_off_and_all
  (event : SseEvent) (payload : SignalReceivePayload) (env : SignalEnvelope)
  (sender : SignalSender) (reaction : SignalReactionMessage) (w : World E) :
  decodesTo E event payload env ->
  acceptedFrom E cfg env sender ->
  reactionMessage env = Some reaction ->
  resolveDataMessage env = None ->
  (reactionMode cfg = ModeOff ->
   calledTimes isEnqueue (callsOf (handleEvent E cfg event w)) = 0)
  /\ (reactionMode cfg = ModeAll ->
      Js.nullish (isRemove reaction) false = false ->
      calledTimes isEnqueue (callsOf (handleEvent E cfg event w)) = 1).
Proof.
  intros Hdec Hacc Hreaction Hdata.
  rewrite (reaction_frame_count _ _ _ _ _ w Hdec Hacc Hreaction Hdata).
  unfold shouldNotifyFor, shouldEmitSignalReactionNotification. split.
  - intros ->. simpl. rewrite andb_false_r. reflexivity.
  - intros -> ->. reflexivity.
Qed.

(** X4. In mode allowlist the notification depends on the sender of the
    reaction and not on its targets: an accepted reaction-only frame that
    is not a removal is notified once when the reaction allow-list is
    non-empty and allows the sender, and not at all otherwise. *)
Theorem reaction_mode_allowlist_checks_the_sender
  (event : SseEvent) (payload : SignalReceivePayload) (env : SignalEnvelope)
  (sender : SignalSender) (reaction : SignalReactionMessage) (w : World E) :
  decodesTo E event payload env ->
  acceptedFrom E cfg env sender ->
  reactionMessage env = Some reaction ->
  resolveDataMessage env = None ->
  Js.nullish (isRemove reaction) false = false ->
  reactionMode cfg = ModeAllowlist ->
  calledTimes isEnqueue (callsOf (handleEvent E cfg event w))
  = if negb (length (reactionAllowlist cfg) =? 0)%nat
       && isSignalSenderAllowed E sender (reactionAllowlist cfg)
    then 1 else 0.
Proof.
  intros Hdec Hacc Hreaction Hdata Hkeep Hmode.
  rewrite (reaction_frame_count _ _ _ _ _ w Hdec Hacc Hreaction Hdata), Hkeep.
  unfold shouldNotifyFor, shouldEmitSignalReactionNotification.
  rewrite Hmode. simpl.
  destruct (length (reactionAllowlist cfg) =? 0)%nat; reflexivity.
Qed.

(** X5. In mode own, a reaction that names its target by UUID only is
    notified exactly when the trimmed configured account is that UUID or
    the UUID after [uuid:]; so a phone-number account never matches a
    UUID-only target. *)
Theorem own_mode_with_uuid_only_target
  (event : SseEvent) (payload : SignalReceivePayload) (env : SignalEnvelope)
  (sender : SignalSender) (reaction : SignalReactionMessage)
  (acct uuid : string) (w : World E) :
  decodesTo E event payload env ->
  acceptedFrom E cfg env sender ->
  reactionMessage env = Some reaction ->
  resolveDataMessage env = None ->
  Js.nullish (isRemove reaction) false = false ->
  reactionMode cfg = ModeOwn ->
  account cfg = Some acct ->
  Js.truthy (Js.trim acct) = true ->
  targetAuthorUuid reaction = Some uuid ->
  Js.truthy (Js.trim uuid) = true ->
  Js.truthyOpt (option_map Js.trim (targetAuthor reaction)) = false ->
  calledTimes isEnqueue (callsOf (handleEvent E cfg event w))
  = if (Js.trim acct =? Js.trim uuid)
       || (Js.trim acct =? "uuid:" ++ Js.trim uuid)
    then 1 else 0.
Proof.
  intros Hdec Hacc Hreaction Hdata Hkeep Hmode Hacct Htruthy Huuid Huuid'
         Hauthor.
  rewrite (reaction_frame_count _ _ _ _ _ w Hdec Hacc Hreaction Hdata), Hkeep.
  assert (Htargets : resolveSignalReactionTargets E reaction
            = [ {| kind := KindUuid; id := Js.trim uuid;
                   display := "uuid:" ++ Js.trim uuid |} ]).
  { unfold resolveSignalReactionTargets. rewrite Huuid. simpl. rewrite Huuid'.
    destruct (targetAuthor reaction) as [author |]; simpl in *;
      [rewrite Hauthor |]; reflexivity. }
  unfold shouldNotifyFor. rewrite Hmode, Hacct, Htargets.
  rewrite own_mode_decision by (assumption || discriminate).
  simpl. unfold targetMatchesAccount. simpl. rewrite orb_false_r.
  reflexivity.
Qed.

(** X6. A reaction yields at most two target candidates, none exactly when
    both target fields are absent or blank.  A UUID candidate carries the
    trimmed [targetAuthorUuid] and displays as [uuid:] followed by it; a
    phone candidate carries the normalised trimmed [targetAuthor] and
    displays as itself; and a phone candidate is always the last one. *)
Theorem reaction_targets_shape (reaction : SignalReactionMessage) :
  length (resolveSignalReactionTargets E reaction) <= 2
  /\ (resolveSignalReactionTargets E reaction = [] <->
      Js.truthyOpt (option_map Js.trim (targetAuthorUuid reaction)) = false
      /\ Js.truthyOpt (option_map Js.trim (targetAuthor reaction)) = false)
  /\ (forall target, In target (resolveSignalReactionTargets E reaction) ->
        match kind target with
        | KindUuid =>
            option_map Js.trim (targetAuthorUuid reaction) = Some (id target)
            /\ Js.truthy (id target) = true
            /\ display target = "uuid:" ++ id target
        | KindPhone =>
            option_map (fun a => normalizeE164 E (Js.trim a))
              (targetAuthor reaction) = Some (id target)
            /\ display target = id target
        end)
  /\ (forall target rest,
        resolveSignalReactionTargets E reaction = target :: rest ->
        kind target = KindPhone -> rest = []).
Proof.
  unfold resolveSignalReactionTargets.
  destruct (targetAuthorUuid reaction) as [uuid |]; simpl;
    [destruct (Js.truthy (Js.trim uuid)) eqn:Huuid |];
    (destruct (targetAuthor reaction) as [author |]; simpl;
     [destruct (Js.truthy (Js.trim author)) eqn:Hauthor |]); simpl;
    (split; [lia |]);
    (split; [split; [intros H; try discriminate H; split; reflexivity
                    | intros (H1 & H2); try discriminate H1;
                      try discriminate H2; reflexivity] |]);
    (split;
     [ intros target Hin; simpl in Hin;
       repeat (destruct Hin as [<- | Hin]; simpl; [repeat split; assumption |]);
       contradiction
     | intros target rest Heq Hkind; inversion Heq; subst; simpl in Hkind;
       try discriminate Hkind; reflexivity ]).
Qed.

Lemma handleEvent_cases (event : SseEvent) (w : World E) :
  (exists payload env, decodesTo E event payload env)
  \/ (outcomeOf (handleEvent E cfg event w) = Returns tt
      /\ worldOf (handleEvent E cfg event w) = w
      /\ Forall (fun c => isLog c = true) (callsOf (handleEvent E cfg event w))).
Proof.
  unfold handleEvent, decodesTo.
  destruct (eventName event) as [name |] eqn:Hname;
    [| right; repeat split; constructor].
  destruct (eventData event) as [data |] eqn:Hdata;
    [| right; repeat split; constructor].
  destruct (negb (name =? "receive") || negb (Js.truthy data)) eqn:Hgate;
    [right; repeat split; constructor |].
  apply orb_false_elim in Hgate. destruct Hgate as (Hrecv & Htruthy).
  apply negb_false_iff in Hrecv, Htruthy. apply String.eqb_eq in Hrecv.
  subst name.
  destruct (JSON_parse E data) as [[payload |] | err] eqn:Hparse.
  - destruct (envelope payload) as [env |] eqn:Henv.
    + left. exists payload, env. split; [reflexivity |]. split; [| exact Henv].
      exists data. repeat split; assumption.
    + right. unfold bind, runtimeError, emit, ret, outcomeOf, worldOf, callsOf.
      destruct (exception payload) as [ex |]; simpl;
        [destruct (Js.truthyOpt (exceptionMessage ex)); simpl |];
        repeat split; repeat constructor.
  - right. repeat split; constructor.
  - right. repeat split; repeat constructor.
Qed.

Lemma handleEnvelope_emits (P : Call -> Prop) (env : SignalEnvelope) :
  (forall c, isLog c = true -> P c) ->
  (resolveDataMessage env = None -> forall c, isEnqueue c = true -> P c) ->
  (resolveDataMessage env <> None -> forall c, isEnqueue c = false -> P c) ->
  emits P (handleEnvelope E cfg env).
Proof.
  intros Hlog Henq Hother. unfold handleEnvelope.
  destruct (Js.truthyUnknown (syncMessage env)); [apply emits_ret |].
  destruct (resolveSignalSender E (sourceNumber env) (sourceUuid env))
    as [sender |]; [| apply emits_ret].
  destruct (isOwnMessage E cfg sender); [apply emits_ret |].
  destruct (resolveDataMessage env) as [dm |] eqn:Hdm.
  - assert (Hdata : emits P (handleDataMessage E cfg env sender dm)).
    { apply handleDataMessage_emits. apply Hother. discriminate. }
    destruct (reactionMessage env); exact Hdata.
  - destruct (reactionMessage env) as [reaction |]; [| apply emits_ret].
    apply handleReaction_emits; [exact Hlog | apply Henq; reflexivity].
Qed.

(** X7. One frame enqueues at most one notification, whatever the frame,
    the settings and the world. *)
Theorem at_most_one_notification_per_frame (event : SseEvent) (w : World E) :
  calledTimes isEnqueue (callsOf (handleEvent E cfg event w)) <= 1.
Proof.
  destruct (handleEvent_cases event w) as [(payload & env & Hdec) | (_ & _ & Hlogs)].
  - rewrite (handleEvent_decoded E cfg _ _ _ _ Hdec), callsOf_after,
      calledTimes_app.
    rewrite exceptionLog_count by not_a_log. simpl.
    unfold handleEnvelope.
    destruct (Js.truthyUnknown (syncMessage env)); [cbv; lia |].
    destruct (resolveSignalSender E (sourceNumber env) (sourceUuid env))
      as [sender |]; [| cbv; lia].
    destruct (isOwnMessage E cfg sender); [cbv; lia |].
    destruct (resolveDataMessage env) as [dm |] eqn:Hdm.
    + assert (Hnone : calledTimes isEnqueue
                        (callsOf (handleDataMessage E cfg env sender dm w)) = 0).
      { apply calledTimes_none.
        apply (handleDataMessage_emits E cfg (fun c => isEnqueue c = false)).
        intros c Hc; exact Hc. }
      destruct (reactionMessage env); rewrite Hnone; lia.
    + destruct (reactionMessage env) as [reaction |]; [| cbv; lia].
      rewrite handleReaction_at_most_once.
      destruct (negb (Js.nullish (isRemove reaction) false)
                && shouldNotifyFor E cfg sender reaction); lia.
  - rewrite (calledTimes_logs isEnqueue); [lia | not_a_log | exact Hlogs].
Qed.

(** X8. A frame without a data message (its own or through an edit) never
    runs the conversational path: whatever else it carries, the handler
    reads no allow-list, asks for no pairing, sends nothing, fetches no
    attachment, updates no last route and dispatches nothing; its only
    calls are log lines and the notification. *)
Theorem frame_without_data_message_is_not_a_message
  (event : SseEvent) (payload : SignalReceivePayload) (env : SignalEnvelope)
  (w : World E) :
  decodesTo E event payload env ->
  resolveDataMessage env = None ->
  Forall (fun c => isLog c = true \/ isEnqueue c = true)
    (callsOf (handleEvent E cfg event w))
  /\ calledTimes isStoreRead (callsOf (handleEvent E cfg event w)) = 0
  /\ calledTimes isUpsert (callsOf (handleEvent E cfg event w)) = 0
  /\ calledTimes isSend (callsOf (handleEvent E cfg event w)) = 0
  /\ calledTimes isMedia (callsOf (handleEvent E cfg event w)) = 0
  /\ calledTimes isUpdateLastRoute (callsOf (handleEvent E cfg event w)) = 0
  /\ calledTimes isDispatch (callsOf (handleEvent E cfg event w)) = 0.
Proof.
  intros Hdec Hdata.
  assert (Hall : Forall (fun c => isLog c = true \/ isEnqueue c = true)
                   (callsOf (handleEvent E cfg event w))).
  { rewrite (handleEvent_decoded E cfg _ _ _ _ Hdec). apply emits_after.
    - eapply Forall_impl; [| apply exceptionLog_logs]. intros c Hc; left; exact Hc.
    - apply handleEnvelope_emits.
      + intros c Hc; left; exact Hc.
      + intros _ c Hc; right; exact Hc.
      + intros Hsome. contradiction. }
  split; [exact Hall |].
  repeat split; apply calledTimes_none; (eapply Forall_impl; [| exact Hall]);
    intros [] [Hc | Hc]; try discriminate Hc; reflexivity.
Qed.

Lemma handleReaction_shape (env : SignalEnvelope) (sender : SignalSender)
  (reaction : SignalReactionMessage) :
  emits (fun c => match c with
                  | CEnqueueSystemEvent text _ key =>
                      prefix "Signal reaction added: " text = true
                      /\ prefix "signal:reaction:added:" key = true
                  | _ => True
                  end)
        (handleReaction E cfg env sender reaction).
Proof.
  unfold handleReaction, logVerbose. cbv zeta.
  repeat calls_step; try exact I.
  split.
  - unfold buildSignalReactionSystemEventText.
    match goal with
    | |- context [option_map display ?t] => destruct (option_map display t) as [l |]
    end;
      [destruct (Js.truthy l) |];
      match goal with
      | |- context [if Js.truthyOpt ?g then Some ?x else None] =>
          destruct (Js.truthyOpt g)
      end;
      try match goal with
          | |- context [Js.truthy ?x] => destruct (Js.truthy x)
          end;
      rewrite ?string_app_assoc; apply prefix_refl_app.
  - unfold Js.joinTruthy.
    assert (Hemoji : Js.truthy
              (Js.orStr (option_map Js.trim (emoji reaction)) "emoji") = true).
    { unfold Js.orStr. destruct (option_map Js.trim (emoji reaction)) as [s |];
        [| reflexivity].
      destruct (Js.truthy s) eqn:Hs; [exact Hs | reflexivity]. }
    simpl filter. rewrite Hemoji.
    repeat match goal with
           | |- context [if Js.truthy ?x then _ else _] => destruct (Js.truthy x)
           end; simpl; apply prefix_empty.
Qed.

(** X9. Every notification the handler enqueues, for any frame, has a text
    that starts with [Signal reaction added: ] and a context key that
    starts with [signal:reaction:added:]. *)
Theorem notifications_are_reaction_events (event : SseEvent) (w : World E) :
  forall text session key,
    In (CEnqueueSystemEvent text session key)
       (callsOf (handleEvent E cfg event w)) ->
    prefix "Signal reaction added: " text = true
    /\ prefix "signal:reaction:added:" key = true.
Proof.
  intros text session key Hin.
  destruct (handleEvent_cases event w) as [(payload & env & Hdec) | (_ & _ & Hlogs)].
  - rewrite (handleEvent_decoded E cfg _ _ _ _ Hdec), callsOf_after in Hin.
    apply in_app_or in Hin. destruct Hin as [Hin | Hin].
    + pose proof (exceptionLog_logs payload) as Hall.
      rewrite Forall_forall in Hall. specialize (Hall _ Hin). discriminate Hall.
    + revert Hin. unfold handleEnvelope.
      destruct (Js.truthyUnknown (syncMessage env)); [intros [] |].
      destruct (resolveSignalSender E (sourceNumber env) (sourceUuid env))
        as [sender |]; [| intros []].
      destruct (isOwnMessage E cfg sender); [intros [] |].
      destruct (resolveDataMessage env) as [dm |] eqn:Hdm.
      * intros Hin.
        assert (Hnone : Forall (fun c => isEnqueue c = false)
                          (callsOf (handleDataMessage E cfg env sender dm w))).
        { apply (handleDataMessage_emits E cfg (fun c => isEnqueue c = false)).
          intros c Hc; exact Hc. }
        rewrite Forall_forall in Hnone.
        assert (Hin' : In (CEnqueueSystemEvent text session key)
                         (callsOf (handleDataMessage E cfg env sender dm w))).
        { destruct (reactionMessage env); exact Hin. }
        specialize (Hnone _ Hin'). discriminate Hnone.
      * destruct (reactionMessage env) as [reaction |]; [| intros []].
        intros Hin. pose proof (handleReaction_shape env sender reaction w) as Hall.
        rewrite Forall_forall in Hall. exact (Hall _ Hin).
  - rewrite Forall_forall in Hlogs. specialize (Hlogs _ Hin). discriminate Hlogs.
Qed.

(** ** The access policy *)

(** X10. A direct message is denied silently under [dmPolicy=disabled],
    whoever sends it, and under [dmPolicy=allowlist] when the effective
    allow-list does not hold the sender: after the allow-list read the
    handler returns, having made no further call (disabled) or only logged
    the verbose "Blocked signal sender" line (allowlist); no pairing is
    asked for and nothing is sent. *)
Theorem direct_message_denied_silently
  (event : SseEvent) (payload : SignalReceivePayload) (env : SignalEnvelope)
  (sender : SignalSender) (dm : SignalDataMessage) (w : World E) :
  conversational E cfg event payload env sender dm ->
  Js.truthyOpt (dataGroupId dm) = false ->
  (dmPolicy cfg = DmDisabled ->
   handleEvent E cfg event w
   = (Returns tt, snd (readProviderAllowFromStore E "signal" w),
      (exceptionLog payload ++ [CReadAllowFromStore "signal"])%list))
  /\ (dmPolicy cfg = DmAllowlist ->
      isSignalSenderAllowed E sender (effectiveDmAllow cfg (storeAllowFromIn E w))
      = false ->
      handleEvent E cfg event w
      = (Returns tt, snd (readProviderAllowFromStore E "signal" w),
         (exceptionLog payload
          ++ [CReadAllowFromStore "signal";
              CLogVerbose ("Blocked signal sender "
                             ++ formatSignalSenderDisplay E sender
                             ++ " (dmPolicy=allowlist)")])%list)).
Proof.
  intros Hconv Hdirect.
  rewrite (handleEvent_conversational E cfg _ _ _ _ _ _ Hconv).
  unfold applyAccessPolicy, dmAllowed. rewrite Hdirect. split.
  - intros ->. simpl. unfold after, ret, outcomeOf, worldOf, callsOf. simpl.
    rewrite app_nil_r. reflexivity.
  - intros -> ->. simpl. unfold after, logVerbose, emit, outcomeOf, worldOf,
      callsOf. simpl. rewrite <- app_assoc. reflexivity.
Qed.

(** X11. Under [dmPolicy=open] every direct message passes, whatever the
    allow-lists hold: after the allow-list read the handler goes on to
    build the message and hand it to the reply pipeline with
    [CommandAuthorized] set.  It asks for no pairing, and every
    [sendMessageSignal] call of the run is one that [deliverReplies] makes
    for a reply of the pipeline. *)
Theorem open_policy_admits_every_direct_message
  (event : SseEvent) (payload : SignalReceivePayload) (env : SignalEnvelope)
  (sender : SignalSender) (dm : SignalDataMessage) (w : World E) :
  conversational E cfg event payload env sender dm ->
  Js.truthyOpt (dataGroupId dm) = false ->
  dmPolicy cfg = DmOpen ->
  handleEvent E cfg event w
  = after (exceptionLog payload ++ [CReadAllowFromStore "signal"])
      (dispatchInbound E cfg env sender dm true
         (snd (readProviderAllowFromStore E "signal" w)))
  /\ calledTimes isUpsert (callsOf (handleEvent E cfg event w)) = 0
  /\ filter isOutbound (callsOf (handleEvent E cfg event w))
     = filter isReplySend (callsOf (handleEvent E cfg event w)).
Proof.
  intros Hconv Hdirect Hopen.
  assert (Hrun : handleEvent E cfg event w
            = after (exceptionLog payload ++ [CReadAllowFromStore "signal"])
                (dispatchInbound E cfg env sender dm true
                   (snd (readProviderAllowFromStore E "signal" w)))).
  { rewrite (handleEvent_conversational E cfg _ _ _ _ _ _ Hconv). f_equal.
    unfold applyAccessPolicy, commandAuthorized, dmAllowed.
    rewrite Hdirect, Hopen. reflexivity. }
  assert (Hquiet : Forall (fun c => isUpsert c = false /\ isSend c = false)
            (callsOf (handleEvent E cfg event w))).
  { rewrite Hrun. apply emits_after.
    - apply Forall_app. split; [| repeat constructor].
      eapply Forall_impl; [| apply exceptionLog_logs].
      intros [] Hc; try discriminate Hc; split; reflexivity.
    - apply dispatchInbound_emits;
        first [ intros ctx o _; split; reflexivity
              | intros [] Hc; try discriminate Hc; split; reflexivity ]. }
  split; [exact Hrun |]. split.
  - apply calledTimes_none. eapply Forall_impl; [| exact Hquiet].
    intros c Hc; apply Hc.
  - apply own_sends_apart. eapply Forall_impl; [| exact Hquiet].
    intros c Hc; apply Hc.
Qed.

Lemma dispatchInbound_group_emits (P : Call -> Prop) (env : SignalEnvelope)
  (sender : SignalSender) (dm : SignalDataMessage) (flag : bool) :
  Js.truthyOpt (dataGroupId dm) = true ->
  (forall c, isMedia c = true -> P c) ->
  (forall c, isLog c = true -> P c) ->
  (forall c, isDispatch c = true -> P c) ->
  (forall c, isDeliver c = true -> P c) ->
  emits P (dispatchInbound E cfg env sender dm flag).
Proof.
  intros Hgroup Hmedia Hlog Hdispatch Hdeliver.
  unfold dispatchInbound, logVerbose.
  cbv zeta. rewrite Hgroup. simpl negb. cbv iota.
  repeat first
    [ apply fetchFirstAttachment_emits; [exact Hmedia | exact Hlog]
    | apply dispatchReplies_emits;
      [ exact Hlog | exact Hdeliver | intros o; apply Hdispatch; reflexivity ]
    | calls_step ];
    apply Hlog; reflexivity.
Qed.

Lemma applyAccessPolicy_group_emits (P : Call -> Prop) (env : SignalEnvelope)
  (sender : SignalSender) (dm : SignalDataMessage) (store : list string) :
  Js.truthyOpt (dataGroupId dm) = true ->
  (forall c, isMedia c = true -> P c) ->
  (forall c, isLog c = true -> P c) ->
  (forall c, isDispatch c = true -> P c) ->
  (forall c, isDeliver c = true -> P c) ->
  emits P (applyAccessPolicy E cfg env sender dm store).
Proof.
  intros Hgroup Hmedia Hlog Hdispatch Hdeliver.
  unfold applyAccessPolicy, logVerbose.
  cbv zeta. rewrite Hgroup. simpl negb. simpl andb.
  repeat first
    [ apply dispatchInbound_group_emits; assumption
    | calls_step ];
    apply Hlog; reflexivity.
Qed.

(** X12. A group message never starts a pairing and never touches the last
    route, whatever the direct-message policy and the allow-lists: the
    handler makes no pairing upsert and does not update the last route, and
    every [sendMessageSignal] call of the run is one that [deliverReplies]
    makes for a reply of the pipeline. *)
Theorem group_messages_never_pair
  (event : SseEvent) (payload : SignalReceivePayload) (env : SignalEnvelope)
  (sender : SignalSender) (dm : SignalDataMessage) (w : World E) :
  conversational E cfg event payload env sender dm ->
  Js.truthyOpt (dataGroupId dm) = true ->
  calledTimes isUpsert (callsOf (handleEvent E cfg event w)) = 0
  /\ calledTimes isUpdateLastRoute (callsOf (handleEvent E cfg event w)) = 0
  /\ filter isOutbound (callsOf (handleEvent E cfg event w))
     = filter isReplySend (callsOf (handleEvent E cfg event w)).
Proof.
  intros Hconv Hgroup.
  assert (Hquiet : Forall (fun c => isUpsert c = false /\ isSend c = false
                                    /\ isUpdateLastRoute c = false)
            (callsOf (handleEvent E cfg event w))).
  { rewrite (handleEvent_conversational E cfg _ _ _ _ _ _ Hconv).
    apply emits_after.
    - apply Forall_app. split; [| repeat constructor].
      eapply Forall_impl; [| apply exceptionLog_logs].
      intros [] Hc; try discriminate Hc; repeat split.
    - apply applyAccessPolicy_group_emits; [exact Hgroup | | | |];
        intros [] Hc; try discriminate Hc; repeat split. }
  split; [| split].
  - apply calledTimes_none. eapply Forall_impl; [| exact Hquiet].
    intros c Hc; apply Hc.
  - apply calledTimes_none. eapply Forall_impl; [| exact Hquiet].
    intros c Hc; apply Hc.
  - apply own_sends_apart. eapply Forall_impl; [| exact Hquiet].
    intros c Hc; apply Hc.
Qed.

(** X13. A group message is blocked with one verbose log line and nothing
    else when [groupPolicy=disabled], and when [groupPolicy=allowlist] with
    a non-empty effective group allow-list that does not hold the sender:
    nothing is fetched and nothing is dispatched. *)
Theorem group_message_blocked
  (event : SseEvent) (payload : SignalReceivePayload) (env : SignalEnvelope)
  (sender : SignalSender) (dm : SignalDataMessage) (w : World E) :
  conversational E cfg event payload env sender dm ->
  Js.truthyOpt (dataGroupId dm) = true ->
  (groupPolicy cfg = GroupDisabled ->
   handleEvent E cfg event w
   = (Returns tt, snd (readProviderAllowFromStore E "signal" w),
      (exceptionLog payload
       ++ [CReadAllowFromStore "signal";
           CLogVerbose "Blocked signal group message (groupPolicy: disabled)"])%list))
  /\ (groupPolicy cfg = GroupAllowlist ->
      effectiveGroupAllow cfg (storeAllowFromIn E w) <> [] ->
      isSignalSenderAllowed E sender
        (effectiveGroupAllow cfg (storeAllowFromIn E w)) = false ->
      handleEvent E cfg event w
      = (Returns tt, snd (readProviderAllowFromStore E "signal" w),
         (exceptionLog payload
          ++ [CReadAllowFromStore "signal";
              CLogVerbose ("Blocked signal group sender "
                             ++ formatSignalSenderDisplay E sender
                             ++ " (not in groupAllowFrom)")])%list)).
Proof.
  intros Hconv Hgroup.
  rewrite (handleEvent_conversational E cfg _ _ _ _ _ _ Hconv).
  unfold applyAccessPolicy. rewrite Hgroup. split.
  - intros ->. simpl. unfold after, logVerbose, emit, outcomeOf, worldOf,
      callsOf. simpl. rewrite <- app_assoc. reflexivity.
  - intros -> Hne ->. simpl.
    destruct (effectiveGroupAllow cfg (storeAllowFromIn E w)) as [| entry rest];
      [contradiction |].
    simpl. unfold after, logVerbose, emit, outcomeOf, worldOf, callsOf. simpl.
    rewrite <- app_assoc. reflexivity.
Qed.

(** ** What reaches the reply pipeline *)

Lemma emits_impl {A : Type} (P Q : Call -> Prop) (m : M E A) :
  (forall c, P c -> Q c) -> emits P m -> emits Q m.
Proof.
  intros Himpl Hm w. eapply Forall_impl; [exact Himpl | apply Hm].
Qed.

Lemma emits_bind_known {A B : Type} (P : Call -> Prop) (m : M E A)
  (f : A -> M E B) (a : A) (cs : list Call) :
  (forall w, m w = (Returns a, w, cs)) ->
  Forall P cs -> emits P (f a) -> emits P (bind m f).
Proof.
  intros Hm Hcs Hf w. unfold bind, callsOf. rewrite Hm.
  specialize (Hf w). unfold callsOf in Hf.
  destruct (f a w) as [[r w2] cs2]. simpl in *.
  apply Forall_app. split; assumption.
Qed.

Lemma dispatchInbound_lifts (P : Call -> Prop) (env : SignalEnvelope)
  (sender : SignalSender) (dm : SignalDataMessage) (flag : bool) :
  emits P (fetchFirstAttachment E cfg sender dm) ->
  (forall c, isLog c = true -> P c) ->
  (forall c, isUpdateLastRoute c = true -> P c) ->
  (forall c, isDispatch c = true -> P c) ->
  (forall c, isDeliver c = true -> P c) ->
  emits P (dispatchInbound E cfg env sender dm flag).
Proof.
  intros Hfetch Hlog Hroute Hdispatch Hdeliver.
  unfold dispatchInbound, logVerbose.
  cbv zeta.
  repeat first
    [ exact Hfetch
    | apply dispatchReplies_emits;
      [ exact Hlog | exact Hdeliver | intros o; apply Hdispatch; reflexivity ]
    | calls_step ];
    first [ apply Hroute; reflexivity
          | apply Hlog; reflexivity ].
Qed.

Lemma applyAccessPolicy_lifts (P : Call -> Prop) (env : SignalEnvelope)
  (sender : SignalSender) (dm : SignalDataMessage) (store : list string) :
  (forall flag, emits P (dispatchInbound E cfg env sender dm flag)) ->
  (forall c, isLog c = true -> P c) ->
  (forall c, isUpsert c = true -> P c) ->
  (forall c, isSend c = true -> P c) ->
  emits P (applyAccessPolicy E cfg env sender dm store).
Proof.
  intros Hdispatch Hlog Hupsert Hsend. unfold applyAccessPolicy, logVerbose.
  cbv zeta.
  repeat first [ apply Hdispatch | calls_step ];
    first [ apply Hlog; reflexivity
          | apply Hupsert; reflexivity
          | apply Hsend; reflexivity ].
Qed.

Lemma handleEvent_lifts (P : Call -> Prop) :
  (forall c, isLog c = true -> P c) ->
  (forall c, isEnqueue c = true -> P c) ->
  (forall c, isStoreRead c = true -> P c) ->
  (forall env sender dm store,
      emits P (applyAccessPolicy E cfg env sender dm store)) ->
  forall event w, Forall P (callsOf (handleEvent E cfg event w)).
Proof.
  intros Hlog Henq Hread Hpolicy event w.
  destruct (handleEvent_cases event w) as [(payload & env & Hdec) | (_ & _ & Hlogs)].
  - rewrite (handleEvent_decoded E cfg _ _ _ _ Hdec). apply emits_after.
    + eapply Forall_impl; [exact Hlog | apply exceptionLog_logs].
    + unfold handleEnvelope.
      destruct (Js.truthyUnknown (syncMessage env)); [constructor |].
      destruct (resolveSignalSender E (sourceNumber env) (sourceUuid env))
        as [sender |]; [| constructor].
      destruct (isOwnMessage E cfg sender); [constructor |].
      assert (Hdata : forall dm, emits P (handleDataMessage E cfg env sender dm)).
      { intros dm. unfold handleDataMessage.
        destruct (negb (Js.truthy (resolveSignalRecipient E sender)));
          [apply emits_ret |].
        apply emits_bind; [| intros store; apply Hpolicy].
        apply emits_tryCatch; [apply emits_external; apply Hread; reflexivity |].
        intros err. apply emits_ret. }
      destruct (reactionMessage env) as [reaction |],
               (resolveDataMessage env) as [dm |];
        try apply Hdata; try constructor.
      apply handleReaction_emits; assumption.
  - eapply Forall_impl; [exact Hlog | exact Hlogs].
Qed.

Lemma dispatchInbound_context (env : SignalEnvelope) (sender : SignalSender)
  (dm : SignalDataMessage) (flag : bool) :
  emits (fun c => match c with
                  | CDispatch ctx _ =>
                      CommandAuthorized ctx = flag
                      /\ OriginatingTo ctx = To ctx
                      /\ MediaUrl ctx = MediaPath ctx
                      /\ SenderId ctx = formatSignalSenderDisplay E sender
                      /\ (if Js.truthyOpt (dataGroupId dm)
                          then ChatType ctx = "group"
                               /\ GroupSubject ctx = dataGroupName dm
                          else ChatType ctx = "direct"
                               /\ GroupSubject ctx = None
                               /\ From ctx = To ctx
                               /\ To ctx = "signal:" ++ resolveSignalRecipient E sender)
                  | _ => True
                  end)
        (dispatchInbound E cfg env sender dm flag).
Proof.
  unfold dispatchInbound, logVerbose. cbv zeta.
  apply emits_bind.
  - apply fetchFirstAttachment_emits; intros [] Hc; try discriminate Hc; exact I.
  - intros media.
    destruct (negb (Js.truthy (resolveBodyText E dm (snd media))));
      [apply emits_ret |].
    destruct (Js.truthyOpt (dataGroupId dm)); simpl;
      repeat first
        [ apply dispatchReplies_emits;
          [ intros [] Hc; try discriminate Hc; exact I
          | intros [] Hc; try discriminate Hc; exact I
          | intros o ]
        | calls_step ];
      try exact I; simpl; repeat split; reflexivity.
Qed.

(** X14. Whatever the frame, the settings and the world, every context the
    handler hands to the reply pipeline has [OriginatingTo] equal to [To]
    and [MediaUrl] equal to [MediaPath], and is either a group context or a
    direct one; a direct context is always command-authorised, has no group
    subject and has [From] equal to [To]. *)
Theorem dispatched_contexts_are_well_formed (event : SseEvent) (w : World E) :
  forall ctx o,
    In (CDispatch ctx o) (callsOf (handleEvent E cfg event w)) ->
    OriginatingTo ctx = To ctx
    /\ MediaUrl ctx = MediaPath ctx
    /\ (ChatType ctx = "group"
        \/ (ChatType ctx = "direct" /\ CommandAuthorized ctx = true
            /\ GroupSubject ctx = None /\ From ctx = To ctx)).
Proof.
  intros ctx o Hin.
  pose proof (handleEvent_lifts
    (fun c => match c with
              | CDispatch ctx _ =>
                  OriginatingTo ctx = To ctx
                  /\ MediaUrl ctx = MediaPath ctx
                  /\ (ChatType ctx = "group"
                      \/ (ChatType ctx = "direct" /\ CommandAuthorized ctx = true
                          /\ GroupSubject ctx = None /\ From ctx = To ctx))
              | _ => True
              end)) as Hall.
  specialize (Hall ltac:(intros [] Hc; try discriminate Hc; exact I)
                   ltac:(intros [] Hc; try discriminate Hc; exact I)
                   ltac:(intros [] Hc; try discriminate Hc; exact I)).
  assert (Hpolicy : forall env sender dm store,
    emits (fun c => match c with
              | CDispatch ctx _ =>
                  OriginatingTo ctx = To ctx
                  /\ MediaUrl ctx = MediaPath ctx
                  /\ (ChatType ctx = "group"
                      \/ (ChatType ctx = "direct" /\ CommandAuthorized ctx = true
                          /\ GroupSubject ctx = None /\ From ctx = To ctx))
              | _ => True
              end) (applyAccessPolicy E cfg env sender dm store)).
  { intros env sender dm store. unfold applyAccessPolicy, logVerbose. cbv zeta.
    destruct (Js.truthyOpt (dataGroupId dm)) eqn:Hgroup; simpl negb; simpl andb.
    - repeat first
        [ eapply emits_impl; [| apply dispatchInbound_context];
          intros [] Hc; try exact I; rewrite Hgroup in Hc;
          destruct Hc as (_ & H1 & H2 & _ & H3 & _);
          repeat split; try assumption; left; exact H3
        | calls_step ]; exact I.
    - destruct (match dmPolicy cfg with DmDisabled => true | _ => false end);
        [apply emits_ret |].
      destruct (dmAllowed E cfg sender store) eqn:Hallowed; simpl negb; cbv iota.
      + eapply emits_impl; [| apply dispatchInbound_context].
        intros [] Hc; try exact I. rewrite Hgroup in Hc.
        unfold commandAuthorized in Hc. rewrite Hallowed in Hc.
        destruct Hc as (H0 & H1 & H2 & _ & H3 & H4 & H5 & _).
        repeat split; try assumption. right. repeat split; assumption.
      + repeat calls_step; exact I. }
  specialize (Hall Hpolicy event w). rewrite Forall_forall in Hall.
  exact (Hall _ Hin).
Qed.

(** ** Failures inside the handler *)

(** X15. When the pairing store's upsert rejects, the handler throws that
    error without sending a pairing reply; the [onEvent] callback catches
    it, logs [event handler failed] through [runtime.error] and returns. *)
Theorem upsert_failure_is_logged_by_the_callback
  (event : SseEvent) (payload : SignalReceivePayload) (env : SignalEnvelope)
  (sender : SignalSender) (dm : SignalDataMessage) (err : string)
  (w : World E) :
  conversational E cfg event payload env sender dm ->
  Js.truthyOpt (dataGroupId dm) = false ->
  dmPolicy cfg = DmPairing ->
  isSignalSenderAllowed E sender (effectiveDmAllow cfg (storeAllowFromIn E w))
  = false ->
  fst (upsertProviderPairingRequest E "signal" (formatSignalSenderId E sender)
         (sourceName env) (snd (readProviderAllowFromStore E "signal" w)))
  = Throws err ->
  outcomeOf (handleEvent E cfg event w) = Throws err
  /\ calledTimes isSend (callsOf (handleEvent E cfg event w)) = 0
  /\ outcomeOf (onEvent E cfg event w) = Returns tt
  /\ callsOf (onEvent E cfg event w)
     = (callsOf (handleEvent E cfg event w)
        ++ [CRuntimeError ("event handler failed: " ++ err)])%list.
Proof.
  intros Hconv Hdirect Hpolicy Hdenied Hupsert.
  assert (Hrun : handleEvent E cfg event w
            = (Throws err,
               snd (upsertProviderPairingRequest E "signal"
                      (formatSignalSenderId E sender) (sourceName env)
                      (snd (readProviderAllowFromStore E "signal" w))),
               (exceptionLog payload
                ++ [CReadAllowFromStore "signal";
                    CUpsertPairingRequest "signal"
                      (formatSignalSenderId E sender) (sourceName env)])%list)).
  { rewrite (handleEvent_conversational E cfg _ _ _ _ _ _ Hconv).
    unfold applyAccessPolicy, dmAllowed. rewrite Hdirect, Hpolicy, Hdenied.
    simpl. unfold bind, external, after, outcomeOf, worldOf, callsOf.
    destruct (upsertProviderPairingRequest E "signal"
                (formatSignalSenderId E sender) (sourceName env)
                (snd (readProviderAllowFromStore E "signal" w))) as [r w1].
    simpl in Hupsert. subst r. simpl. rewrite <- app_assoc. reflexivity. }
  unfold onEvent, tryCatch. rewrite Hrun. unfold outcomeOf, callsOf. simpl.
  repeat split.
  rewrite calledTimes_app, exceptionLog_count by not_a_log. reflexivity.
Qed.

(** ** What the handler sends itself *)

Lemma applyAccessPolicy_own_send (env : SignalEnvelope) (sender : SignalSender)
  (dm : SignalDataMessage) (store : list string) (w : World E) :
  calledTimes isSend (callsOf (applyAccessPolicy E cfg env sender dm store w))
  <= calledTimes isUpsert
       (callsOf (applyAccessPolicy E cfg env sender dm store w))
  /\ calledTimes isUpsert
       (callsOf (applyAccessPolicy E cfg env sender dm store w)) <= 1.
Proof.
  assert (Hnone : forall cs,
            Forall (fun c => isSend c = false /\ isUpsert c = false) cs ->
            calledTimes isSend cs <= calledTimes isUpsert cs
            /\ calledTimes isUpsert cs <= 1).
  { intros cs Hall.
    rewrite (calledTimes_none isSend cs), (calledTimes_none isUpsert cs).
    - lia.
    - eapply Forall_impl; [| exact Hall]. intros c Hc; apply Hc.
    - eapply Forall_impl; [| exact Hall]. intros c Hc; apply Hc. }
  assert (Hdispatch : forall flag,
            emits (fun c => isSend c = false /\ isUpsert c = false)
              (dispatchInbound E cfg env sender dm flag)).
  { intros flag. apply dispatchInbound_emits;
      first [ intros ctx o _; split; reflexivity
            | intros [] Hc; try discriminate Hc; split; reflexivity ]. }
  unfold applyAccessPolicy, logVerbose. cbv zeta.
  destruct (negb (Js.truthyOpt (dataGroupId dm))
            && match dmPolicy cfg with DmDisabled => true | _ => false end);
    [apply Hnone; constructor |].
  destruct (negb (Js.truthyOpt (dataGroupId dm))
            && negb (dmAllowed E cfg sender store)).
  - destruct (dmPolicy cfg);
      try solve [apply Hnone; repeat constructor].
    unfold bind, external, tryCatch, emit, ret, callsOf.
    destruct (upsertProviderPairingRequest E "signal"
                (formatSignalSenderId E sender) (sourceName env) w)
      as [[[code created] | err] w1]; simpl; [| unfold calledTimes; simpl; lia].
    destruct created; simpl; [| unfold calledTimes; simpl; lia].
    match goal with
    | |- context [sendMessageSignal E ?t ?m None w1] =>
        destruct (sendMessageSignal E t m None w1) as [[[] | err] w2]
    end; unfold calledTimes; simpl; lia.
  - repeat match goal with
           | |- context [if ?b then _ else _] => destruct b
           end;
      apply Hnone; first [ apply Hdispatch | repeat constructor ].
Qed.

Lemma handleEvent_splits (event : SseEvent) (w : World E) :
  Forall (fun c => isSend c = false /\ isUpsert c = false)
    (callsOf (handleEvent E cfg event w))
  \/ exists before env sender dm store w',
       callsOf (handleEvent E cfg event w)
       = (before ++ callsOf (applyAccessPolicy E cfg env sender dm store w'))%list
       /\ Forall (fun c => isSend c = false /\ isUpsert c = false) before.
Proof.
  destruct (handleEvent_cases event w) as [(payload & env & Hdec) | (_ & _ & Hlogs)].
  - rewrite (handleEvent_decoded E cfg _ _ _ _ Hdec), callsOf_after.
    assert (Hexc : Forall (fun c => isSend c = false /\ isUpsert c = false)
                     (exceptionLog payload)).
    { eapply Forall_impl; [| apply exceptionLog_logs].
      intros [] Hc; try discriminate Hc; split; reflexivity. }
    assert (Hquiet : Forall (fun c => isSend c = false /\ isUpsert c = false)
                       (callsOf (handleEnvelope E cfg env w))
                     -> Forall (fun c => isSend c = false /\ isUpsert c = false)
                          (exceptionLog payload
                           ++ callsOf (handleEnvelope E cfg env w))).
    { intros H. apply Forall_app. split; assumption. }
    unfold handleEnvelope in *.
    destruct (Js.truthyUnknown (syncMessage env)); [left; apply Hquiet; constructor |].
    destruct (resolveSignalSender E (sourceNumber env) (sourceUuid env))
      as [sender |]; [| left; apply Hquiet; constructor].
    destruct (isOwnMessage E cfg sender); [left; apply Hquiet; constructor |].
    assert (Hdata : forall dm,
              Forall (fun c => isSend c = false /\ isUpsert c = false)
                (exceptionLog payload
                 ++ callsOf (handleDataMessage E cfg env sender dm w))
              \/ exists before env' sender' dm' store w',
                   (exceptionLog payload
                    ++ callsOf (handleDataMessage E cfg env sender dm w))%list
                   = (before
                      ++ callsOf (applyAccessPolicy E cfg env' sender' dm'
                                    store w'))%list
                   /\ Forall (fun c => isSend c = false /\ isUpsert c = false)
                        before).
    { intros dm.
      destruct (Js.truthy (resolveSignalRecipient E sender)) eqn:Hrecipient.
      - right. rewrite (handleDataMessage_reads E cfg _ _ _ _ Hrecipient).
        rewrite callsOf_after, app_assoc.
        eexists _, env, sender, dm, _, _. split; [reflexivity |].
        apply Forall_app. split; [exact Hexc | repeat constructor].
      - left. unfold handleDataMessage. rewrite Hrecipient.
        rewrite app_nil_r. exact Hexc. }
    destruct (reactionMessage env) as [reaction |],
             (resolveDataMessage env) as [dm |];
      try apply Hdata; left; apply Hquiet; try constructor.
    apply handleReaction_emits;
      intros [] Hc; try discriminate Hc; split; reflexivity.
  - left. eapply Forall_impl; [| exact Hlogs].
    intros [] Hc; try discriminate Hc; split; reflexivity.
Qed.

(** X16. The only message the handler sends itself is the pairing reply.
    Whatever the frame, the settings and the world, a run makes at most
    one pairing upsert and no more calls of [sendMessageSignal] of its own
    than upserts; when it makes one, [dmPolicy] is pairing and the message
    goes to [signal:<recipient>] of a sender, with the text
    [buildPairingReply] makes of that sender's id line and a code. *)
Theorem own_send_is_the_pairing_reply (event : SseEvent) (w : World E) :
  calledTimes isSend (callsOf (handleEvent E cfg event w))
  <= calledTimes isUpsert (callsOf (handleEvent E cfg event w))
  /\ calledTimes isUpsert (callsOf (handleEvent E cfg event w)) <= 1
  /\ (forall to text,
        In (CSendMessage to text) (callsOf (handleEvent E cfg event w)) ->
        dmPolicy cfg = DmPairing
        /\ exists sender code,
             to = "signal:" ++ resolveSignalRecipient E sender
             /\ text = buildPairingReply E "signal"
                         (formatSignalPairingIdLine E sender) code).
Proof.
  assert (Hcount : calledTimes isSend (callsOf (handleEvent E cfg event w))
                   <= calledTimes isUpsert (callsOf (handleEvent E cfg event w))
                   /\ calledTimes isUpsert (callsOf (handleEvent E cfg event w))
                      <= 1).
  { destruct (handleEvent_splits event w)
      as [Hall | (before & env & sender & dm & store & w' & -> & Hall)].
    - rewrite (calledTimes_none isSend), (calledTimes_none isUpsert).
      + lia.
      + eapply Forall_impl; [| exact Hall]. intros c Hc; apply Hc.
      + eapply Forall_impl; [| exact Hall]. intros c Hc; apply Hc.
    - rewrite !calledTimes_app.
      rewrite (calledTimes_none isSend before), (calledTimes_none isUpsert before).
      + apply applyAccessPolicy_own_send.
      + eapply Forall_impl; [| exact Hall]. intros c Hc; apply Hc.
      + eapply Forall_impl; [| exact Hall]. intros c Hc; apply Hc. }
  split; [apply Hcount |]. split; [apply Hcount |].
  intros to text Hin.
  pose proof (handleEvent_lifts
                (fun c => match c with
                          | CSendMessage to' text' =>
                              dmPolicy cfg = DmPairing
                              /\ exists sender code,
                                   to' = "signal:" ++ resolveSignalRecipient E sender
                                   /\ text' = buildPairingReply E "signal"
                                                (formatSignalPairingIdLine E sender)
                                                code
                          | _ => True
                          end)) as Hall.
  assert (Hpolicy : forall env sender dm store,
            emits (fun c => match c with
                            | CSendMessage to' text' =>
                                dmPolicy cfg = DmPairing
                                /\ exists sender code,
                                     to' = "signal:"
                                           ++ resolveSignalRecipient E sender
                                     /\ text' = buildPairingReply E "signal"
                                                  (formatSignalPairingIdLine E
                                                     sender) code
                            | _ => True
                            end)
              (applyAccessPolicy E cfg env sender dm store)).
  { intros env sender dm store. unfold applyAccessPolicy, logVerbose. cbv zeta.
    destruct (dmPolicy cfg) eqn:Hdm;
      repeat first
        [ apply dispatchInbound_emits;
          [ intros [] Hc; try discriminate Hc; exact I
          | intros [] Hc; try discriminate Hc; exact I
          | intros [] Hc; try discriminate Hc; exact I
          | intros ctx o _; exact I
          | intros [] Hc; try discriminate Hc; exact I ]
        | calls_step ];
      try exact I.
    split; [reflexivity |]. eexists _, _. split; reflexivity. }
  specialize (Hall
    ltac:(intros [] Hc; try discriminate Hc; exact I)
    ltac:(intros [] Hc; try discriminate Hc; exact I)
    ltac:(intros [] Hc; try discriminate Hc; exact I)
    Hpolicy event w).
  rewrite Forall_forall in Hall. exact (Hall _ Hin).
Qed.

(** ** Bodies and attachments *)

Lemma quiet_counts (cs : list Call) :
  Forall (fun c => isMedia c = false /\ isUpdateLastRoute c = false
                   /\ isDispatch c = false) cs ->
  calledTimes isMedia cs = 0 /\ calledTimes isUpdateLastRoute cs = 0
  /\ calledTimes isDispatch cs = 0.
Proof.
  intros Hall. repeat split; apply calledTimes_none;
    (eapply Forall_impl; [| exact Hall]); intros c Hc; apply Hc.
Qed.

(** X17. A conversational message with nothing to say is dropped before it
    reaches the reply pipeline: when the text is absent or blank, there is
    no attachment, the quoted text is absent or blank, and the media kind
    of no MIME type is none, the handler fetches nothing, updates no last
    route and dispatches nothing, whatever the access policy decides. *)
Theorem empty_message_is_not_dispatched
  (event : SseEvent) (payload : SignalReceivePayload) (env : SignalEnvelope)
  (sender : SignalSender) (dm : SignalDataMessage) (w : World E) :
  conversational E cfg event payload env sender dm ->
  Js.truthy (Js.trim (Js.nullish (message dm) "")) = false ->
  (attachments dm = None \/ attachments dm = Some []) ->
  Js.truthyOpt (match quote dm with
                | Some q => option_map Js.trim (quoteText q)
                | None => None
                end) = false ->
  Js.truthyOpt (mediaKindFromMime E None) = false ->
  calledTimes isMedia (callsOf (handleEvent E cfg event w)) = 0
  /\ calledTimes isUpdateLastRoute (callsOf (handleEvent E cfg event w)) = 0
  /\ calledTimes isDispatch (callsOf (handleEvent E cfg event w)) = 0.
Proof.
  intros Hconv Htext Hnone Hquote Hkind.
  rewrite (handleEvent_conversational E cfg _ _ _ _ _ _ Hconv), callsOf_after.
  rewrite !calledTimes_app, !exceptionLog_count by not_a_log. simpl.
  apply quiet_counts. apply applyAccessPolicy_lifts;
    [| intros [] Hc; try discriminate Hc; repeat split ..].
  intros flag. unfold dispatchInbound. cbv zeta.
  apply (emits_bind_known _ _ _ (None, None) []).
  - intros w'. unfold fetchFirstAttachment.
    destruct Hnone as [-> | ->]; reflexivity.
  - constructor.
  - simpl snd. unfold resolveBodyText. rewrite Htext, Hkind.
    assert (Hplace : match attachments dm with
                     | Some (_ :: _) => "<media:attachment>"
                     | _ => ""
                     end = "").
    { destruct Hnone as [-> | ->]; reflexivity. }
    rewrite Hplace. simpl.
    unfold Js.orStr.
    destruct (match quote dm with
              | Some q => option_map Js.trim (quoteText q)
              | None => None
              end) as [q |]; simpl in *; [rewrite Hquote |]; apply emits_ret.
Qed.

Lemma fetchFirstAttachment_oversize (sender : SignalSender)
  (dm : SignalDataMessage) (att : SignalAttachment)
  (rest : list SignalAttachment) (attId : string) (sz : Z) (w : World E) :
  attachments dm = Some (att :: rest) ->
  attachmentId att = Some attId ->
  Js.truthy attId = true ->
  size att = Some sz ->
  (sz <> 0)%Z ->
  (mediaMaxBytes cfg < sz)%Z ->
  fetchFirstAttachment E cfg sender dm w
  = (Returns (None, None), w,
     if ignoreAttachments cfg then []
     else [CRuntimeError
             (danger E ("attachment fetch failed: Error: Signal attachment "
                          ++ attId ++ " exceeds "
                          ++ Js.toFixed0Mb (mediaMaxBytes cfg) ++ "MB limit"))]).
Proof.
  intros Hatt Hid Htruthy Hsize Hnz Hbig. unfold fetchFirstAttachment.
  rewrite Hatt, Hid. simpl. rewrite Htruthy. simpl.
  destruct (ignoreAttachments cfg); [reflexivity |]. simpl.
  unfold tryCatch, bind, fetchAttachment. rewrite Hid, Htruthy, Hsize. simpl.
  assert (Hne : (sz =? 0)%Z = false) by (apply Z.eqb_neq; exact Hnz).
  assert (Hlt : (mediaMaxBytes cfg <? sz)%Z = true) by (apply Z.ltb_lt; exact Hbig).
  rewrite Hne, Hlt. reflexivity.
Qed.

(** X18. An attachment that is too large does not cost the message: when
    the first attachment declares a size above the limit, the handler makes
    no attachment request, every context it dispatches carries no media,
    and a group message with text that passes an open group policy is still
    dispatched exactly once, the failure having been logged through
    [runtime.error] unless attachments are ignored. *)
Theorem oversize_attachment_does_not_drop_the_message
  (event : SseEvent) (payload : SignalReceivePayload) (env : SignalEnvelope)
  (sender : SignalSender) (dm : SignalDataMessage) (att : SignalAttachment)
  (rest : list SignalAttachment) (attId : string) (sz : Z) (w : World E) :
  conversational E cfg event payload env sender dm ->
  attachments dm = Some (att :: rest) ->
  attachmentId att = Some attId ->
  Js.truthy attId = true ->
  size att = Some sz ->
  (sz <> 0)%Z ->
  (mediaMaxBytes cfg < sz)%Z ->
  calledTimes isMedia (callsOf (handleEvent E cfg event w)) = 0
  /\ (forall ctx o, In (CDispatch ctx o) (callsOf (handleEvent E cfg event w)) ->
        MediaPath ctx = None /\ MediaType ctx = None)
  /\ (Js.truthyOpt (dataGroupId dm) = true ->
      groupPolicy cfg = GroupOpen ->
      Js.truthy (Js.trim (Js.nullish (message dm) "")) = true ->
      calledTimes isDispatch (callsOf (handleEvent E cfg event w)) = 1
      /\ (ignoreAttachments cfg = false ->
          In (CRuntimeError
                (danger E ("attachment fetch failed: Error: Signal attachment "
                             ++ attId ++ " exceeds "
                             ++ Js.toFixed0Mb (mediaMaxBytes cfg) ++ "MB limit")))
             (callsOf (handleEvent E cfg event w)))).
Proof.
  intros Hconv Hatt Hid Htruthy Hsize Hnz Hbig.
  pose proof (fun w' => fetchFirstAttachment_oversize sender dm att rest attId sz
                          w' Hatt Hid Htruthy Hsize Hnz Hbig) as Hfetch.
  rewrite (handleEvent_conversational E cfg _ _ _ _ _ _ Hconv), callsOf_after.
  set (w1 := snd (readProviderAllowFromStore E "signal" w)).
  assert (Hshape : forall flag,
    emits (fun c => isMedia c = false
                    /\ match c with
                       | CDispatch ctx _ => MediaPath ctx = None /\ MediaType ctx = None
                       | _ => True
                       end)
          (dispatchInbound E cfg env sender dm flag)).
  { intros flag. unfold dispatchInbound, logVerbose. cbv zeta.
    eapply emits_bind_known; [exact Hfetch | |].
    - destruct (ignoreAttachments cfg); repeat constructor.
    - simpl fst. simpl snd.
      repeat first
        [ apply dispatchReplies_emits;
          [ intros [] Hc; try discriminate Hc; (split; [reflexivity | exact I])
          | intros [] Hc; try discriminate Hc; (split; [reflexivity | exact I])
          | intros o ]
        | calls_step ];
        split; try reflexivity; try exact I; split; reflexivity. }
  assert (Hall : Forall (fun c => isMedia c = false
                    /\ match c with
                       | CDispatch ctx _ => MediaPath ctx = None /\ MediaType ctx = None
                       | _ => True
                       end)
            (callsOf (applyAccessPolicy E cfg env sender dm
                        (storeAllowFromIn E w) w1))).
  { apply applyAccessPolicy_lifts; [exact Hshape | | |];
      intros [] Hc; try discriminate Hc; split; try reflexivity; exact I. }
  split; [| split].
  - rewrite !calledTimes_app, exceptionLog_count by not_a_log. simpl.
    apply calledTimes_none. eapply Forall_impl; [| exact Hall].
    intros c Hc; apply Hc.
  - intros ctx o Hin. apply in_app_or in Hin. destruct Hin as [Hin | Hin].
    + apply in_app_or in Hin. destruct Hin as [Hin | [Hin | []]];
        [| discriminate Hin].
      pose proof (exceptionLog_logs payload) as Hlogs.
      rewrite Forall_forall in Hlogs. specialize (Hlogs _ Hin). discriminate Hlogs.
    + rewrite Forall_forall in Hall. apply (Hall _ Hin).
  - intros Hgroup Hopen Htext.
    assert (Hpass : applyAccessPolicy E cfg env sender dm (storeAllowFromIn E w) w1
              = dispatchInbound E cfg env sender dm
                  (commandAuthorized E cfg true sender (storeAllowFromIn E w)) w1).
    { unfold applyAccessPolicy. rewrite Hgroup, Hopen. reflexivity. }
    rewrite Hpass. split.
    + rewrite !calledTimes_app, exceptionLog_count by not_a_log. simpl.
      apply (dispatchInbound_text E cfg); assumption.
    + intros Hkeep. apply in_or_app. right. unfold dispatchInbound.
      rewrite (callsOf_bind_returns E _ _ _ (None, None))
        by (rewrite Hfetch; reflexivity).
      apply in_or_app. left. rewrite Hfetch, Hkeep. left. reflexivity.
Qed.

(** X19. With [ignoreAttachments] set, the handler never asks for an
    attachment and never stores media, whatever the frame. *)
Theorem ignored_attachments_are_never_fetched (event : SseEvent) (w : World E) :
  ignoreAttachments cfg = true ->
  calledTimes isMedia (callsOf (handleEvent E cfg event w)) = 0.
Proof.
  intros Hignore. apply calledTimes_none.
  apply handleEvent_lifts;
    [intros [] Hc; try discriminate Hc; reflexivity .. |].
  intros env sender dm store.
  apply applyAccessPolicy_lifts;
    [| intros [] Hc; try discriminate Hc; reflexivity ..].
  intros flag.
  apply dispatchInbound_lifts;
    [| intros [] Hc; try discriminate Hc; reflexivity ..].
  unfold fetchFirstAttachment. rewrite Hignore.
  destruct (attachments dm) as [[| att rest] |]; try apply emits_ret.
  rewrite andb_false_r. apply emits_ret.
Qed.

(** X20. [fetchAttachment] does nothing at all, and answers [null], for an
    attachment without an id, and for one within the size limit when
    neither a group id nor a sender is given; and it throws, again without
    any call, for an attachment whose declared non-zero size is above the
    limit. *)
Theorem fetchAttachment_makes_no_call_without_cause
  (acct : option string) (att : SignalAttachment) (from group : option string)
  (maxBytes : Z) (w : World E) :
  (Js.truthyOpt (attachmentId att) = false ->
   fetchAttachment E acct att from group maxBytes w = (Returns None, w, []))
  /\ (Js.truthyOpt (attachmentId att) = true ->
      (forall sz, size att = Some sz -> (sz = 0 \/ sz <= maxBytes)%Z) ->
      Js.truthyOpt group = false ->
      Js.truthyOpt from = false ->
      fetchAttachment E acct att from group maxBytes w = (Returns None, w, []))
  /\ (forall attId sz,
        attachmentId att = Some attId ->
        Js.truthy attId = true ->
        size att = Some sz ->
        (sz <> 0)%Z -> (maxBytes < sz)%Z ->
        fetchAttachment E acct att from group maxBytes w
        = (Throws ("Error: Signal attachment " ++ attId ++ " exceeds "
                     ++ Js.toFixed0Mb maxBytes ++ "MB limit"), w, [])).
Proof.
  unfold fetchAttachment. repeat split.
  - destruct (attachmentId att) as [attId |]; simpl; [| reflexivity].
    intros ->. reflexivity.
  - destruct (attachmentId att) as [attId |]; simpl; [| discriminate].
    intros -> Hsize Hgroup Hfrom. simpl.
    assert (Hok : match size att with
                  | Some sz => negb (sz =? 0)%Z && (maxBytes <? sz)%Z
                  | None => false
                  end = false).
    { destruct (size att) as [sz |]; [| reflexivity].
      destruct (Hsize sz eq_refl) as [-> | Hle]; [reflexivity |].
      apply andb_false_iff. right. apply Z.ltb_ge. exact Hle. }
    rewrite Hok, Hgroup, Hfrom. reflexivity.
  - intros attId sz Hid Htruthy Hsize Hnz Hbig.
    rewrite Hid, Htruthy, Hsize. simpl.
    assert (Hne : (sz =? 0)%Z = false) by (apply Z.eqb_neq; exact Hnz).
    assert (Hlt : (maxBytes <? sz)%Z = true) by (apply Z.ltb_lt; exact Hbig).
    rewrite Hne, Hlt. reflexivity.
Qed.

(** X21. An attachment of a group is asked for by group id and never by
    recipient, the sender being used only when there is no group id; the
    account goes along only when it is non-empty.  The request is the first
    call and the only one, unless it answers data, in which case that data
    is stored, with the content type of the attachment and the size limit,
    and the stored path and content type are the answer. *)
Theorem fetchAttachment_request_and_store
  (acct : option string) (att : SignalAttachment) (from group : option string)
  (maxBytes : Z) (attId : string) (w : World E) :
  attachmentId att = Some attId ->
  Js.truthy attId = true ->
  (forall sz, size att = Some sz -> (sz = 0 \/ sz <= maxBytes)%Z) ->
  (Js.truthyOpt group = true \/ Js.truthyOpt from = true) ->
  let rpcAccount := if Js.truthyOpt acct then acct else None in
  let rpcGroup := if Js.truthyOpt group then group else None in
  let rpcRecipient := if Js.truthyOpt group then None else from in
  let request := CRpcGetAttachment attId rpcAccount rpcGroup rpcRecipient in
  let answer := signalRpcGetAttachment E attId rpcAccount rpcGroup rpcRecipient w in
  match fst answer with
  | Throws err =>
      fetchAttachment E acct att from group maxBytes w
      = (Throws err, snd answer, [request])
  | Returns data =>
      if Js.truthyOpt data
      then
        let stored :=
          saveMediaBuffer E (Js.nullish data "") (contentType att) maxBytes
            (snd answer) in
        fetchAttachment E acct att from group maxBytes w
        = (match fst stored with
           | Returns saved =>
               Returns (Some {| savedPath := savedPath saved;
                                savedContentType := savedContentType saved |})
           | Throws err => Throws err
           end, snd stored,
           [request;
            CSaveMediaBuffer (Js.nullish data "") (contentType att) maxBytes])
      else
        fetchAttachment E acct att from group maxBytes w
        = (Returns None, snd answer, [request])
  end.
Proof.
  intros Hid Htruthy Hsize Hpeer. cbv zeta. unfold fetchAttachment.
  rewrite Hid, Htruthy. simpl.
  assert (Hok : match size att with
                | Some sz => negb (sz =? 0)%Z && (maxBytes <? sz)%Z
                | None => false
                end = false).
  { destruct (size att) as [sz |]; [| reflexivity].
    destruct (Hsize sz eq_refl) as [-> | Hle]; [reflexivity |].
    apply andb_false_iff. right. apply Z.ltb_ge. exact Hle. }
  rewrite Hok.
  assert (Hfrom : Js.truthyOpt group = false -> Js.truthyOpt from = true).
  { intros Hg. destruct Hpeer as [Hp | Hp]; [congruence | exact Hp]. }
  destruct (Js.truthyOpt group) eqn:Hgroup; [| rewrite (Hfrom eq_refl)];
    unfold bind, external, ret;
    match goal with
    | |- context [signalRpcGetAttachment E ?a ?b ?c ?d w] =>
        destruct (signalRpcGetAttachment E a b c d w) as [[data | err] w1]
    end; simpl; try reflexivity;
    (destruct (Js.truthyOpt data); simpl; [| reflexivity]);
    match goal with
    | |- context [saveMediaBuffer E ?a ?b ?c ?w'] =>
        destruct (saveMediaBuffer E a b c w') as [[saved | err] w2]
    end; reflexivity.
Qed.

End MoreProperties.

(** * Delivering replies *)

Section DeliveryProperties.

Context {W : Type}.
Variable chunkText : string -> Z -> list string.
Variable sendMessageSignal :
  string -> string -> option string -> W -> Except unit * W.

(** X22. A reply with no text (absent or empty) and no media is skipped
    without a send and without a log line, and so is a reply whose
    [mediaUrls] is an empty array even though it has a [mediaUrl]: the
    delivery is that of the remaining replies. *)
Theorem empty_replies_are_skipped
  (payload : ReplyPayload) (rest : list ReplyPayload) (target : string)
  (textLimit : Z) (w : W) :
  Js.truthyOpt (replyText payload) = false ->
  (mediaUrls payload = Some []
   \/ (mediaUrls payload = None /\ Js.truthyOpt (mediaUrl payload) = false)) ->
  deliverReplies chunkText sendMessageSignal (payload :: rest) target textLimit w
  = deliverReplies chunkText sendMessageSignal rest target textLimit w.
Proof.
  intros Htext Hmedia. simpl. unfold deliverReply, mediaListOf, andThen, done.
  assert (Hblank : Js.truthy (Js.nullish (replyText payload) "") = false).
  { destruct (replyText payload) as [t |]; [exact Htext | reflexivity]. }
  rewrite Hblank.
  destruct Hmedia as [-> | (-> & ->)]; simpl;
    destruct (deliverReplies chunkText sendMessageSignal rest target textLimit w)
      as [[r w1] cs]; reflexivity.
Qed.

Lemma sendChunks_plan (target : string) (chunks : list string) (w : W) :
  exists remaining,
    map (fun chunk => DSendMessage target chunk None) chunks
    = (snd (sendChunks sendMessageSignal target chunks w) ++ remaining)%list
    /\ (fst (fst (sendChunks sendMessageSignal target chunks w)) = Returns tt ->
        remaining = []).
Proof.
  revert w. induction chunks as [| chunk rest IH]; intros w; simpl.
  - exists []. split; reflexivity.
  - unfold andThen, sendTo.
    destruct (sendMessageSignal target chunk None w) as [[[] | err] w1]; simpl.
    + destruct (IH w1) as (remaining & Hplan & Hdone).
      destruct (sendChunks sendMessageSignal target rest w1) as [[r w2] cs].
      simpl in *. exists remaining. split; [rewrite Hplan; reflexivity | exact Hdone].
    + eexists. split; [reflexivity |]. intros H. discriminate H.
Qed.

Lemma sendMedia_plan (target text : string) (first : bool)
  (urls : list string) (w : W) :
  exists remaining,
    match urls with
    | [] => []
    | url :: rest =>
        DSendMessage target (if first then text else "") (Some url)
        :: map (fun u => DSendMessage target "" (Some u)) rest
    end
    = (snd (sendMedia sendMessageSignal target text first urls w)
       ++ remaining)%list
    /\ (fst (fst (sendMedia sendMessageSignal target text first urls w))
        = Returns tt -> remaining = []).
Proof.
  revert first w. induction urls as [| url rest IH]; intros first w; simpl.
  - exists []. split; reflexivity.
  - unfold andThen, sendTo.
    destruct (sendMessageSignal target (if first then text else "") (Some url) w)
      as [[[] | err] w1]; simpl.
    + destruct (IH false w1) as (remaining & Hplan & Hdone).
      destruct (sendMedia sendMessageSignal target text false rest w1)
        as [[r w2] cs].
      simpl in *. exists remaining. split; [| exact Hdone].
      f_equal. rewrite <- Hplan. destruct rest; reflexivity.
    + eexists. split; [reflexivity |]. intros H. discriminate H.
Qed.

Lemma deliverReply_plan (target : string) (textLimit : Z)
  (payload : ReplyPayload) (w : W) :
  exists remaining,
    deliveryPlan chunkText target textLimit payload
    = (snd (deliverReply chunkText sendMessageSignal target textLimit
                    payload w) ++ remaining)%list
    /\ (fst (fst (deliverReply chunkText sendMessageSignal target textLimit
                   payload w)) = Returns tt -> remaining = []).
Proof.
  unfold deliverReply, deliveryPlan. cbv zeta.
  destruct (mediaListOf payload) as [| url rest] eqn:Hmedia.
  - change ((length (@nil string) =? 0)%nat) with true. rewrite andb_true_r.
    destruct (Js.truthy (Js.nullish (replyText payload) "")).
    + change (negb true) with false. unfold andThen. cbv beta iota.
      destruct (sendChunks_plan target
                  (chunkText (Js.nullish (replyText payload) "") textLimit) w)
        as (remaining & Hplan & Hdone).
      destruct (sendChunks sendMessageSignal target
                  (chunkText (Js.nullish (replyText payload) "") textLimit) w)
        as [[[[] | err] w1] cs]; simpl in Hplan, Hdone; simpl fst; simpl snd.
      * exists []. rewrite (Hdone eq_refl) in Hplan. rewrite Hplan.
        rewrite !app_nil_r. split; reflexivity.
      * eexists. split; [rewrite Hplan, <- app_assoc; reflexivity |].
        intros H. discriminate H.
    + exists []. split; reflexivity.
  - change ((length (url :: rest) =? 0)%nat) with false. rewrite andb_false_r.
    unfold andThen. cbv beta iota.
    destruct (sendMedia_plan target (Js.nullish (replyText payload) "") true
                (url :: rest) w) as (remaining & Hplan & Hdone).
    destruct (sendMedia sendMessageSignal target
                (Js.nullish (replyText payload) "") true (url :: rest) w)
      as [[[[] | err] w1] cs]; simpl in Hplan, Hdone; simpl fst; simpl snd.
    + exists []. rewrite (Hdone eq_refl) in Hplan. rewrite app_nil_r in Hplan.
      rewrite app_nil_r. rewrite <- Hplan. split; reflexivity.
    + eexists. split; [| intros H; discriminate H].
      rewrite app_comm_cons, Hplan, <- app_assoc. reflexivity.
Qed.

(** X23. [deliverReplies] sends what the replies ask for, in order, and
    nothing else: its calls are always an initial part of the plan of the
    replies (for a reply without media the chunks of its text; for a reply
    with media one message per URL, the text being the caption of the
    first and the others having an empty caption; then the log line), the
    whole plan when it returns normally; and it returns normally whenever
    no send throws. *)
Theorem deliverReplies_follows_the_plan
  (replies : list ReplyPayload) (target : string) (textLimit : Z) (w : W) :
  (exists remaining,
      flat_map (deliveryPlan chunkText target textLimit) replies
      = (snd (deliverReplies chunkText sendMessageSignal replies target
                      textLimit w) ++ remaining)%list
      /\ (fst (fst (deliverReplies chunkText sendMessageSignal replies target
                     textLimit w)) = Returns tt -> remaining = []))
  /\ ((forall t x m w', fst (sendMessageSignal t x m w') = Returns tt) ->
      fst (fst (deliverReplies chunkText sendMessageSignal replies target
                 textLimit w)) = Returns tt).
Proof.
  split.
  - revert w. induction replies as [| payload rest IH]; intros w; simpl.
    + exists []. split; reflexivity.
    + unfold andThen.
      destruct (deliverReply_plan target textLimit payload w)
        as (rem1 & Hplan1 & Hdone1).
      destruct (deliverReply chunkText sendMessageSignal target textLimit payload w)
        as [[[[] | err] w1] cs1]; simpl in *.
      * destruct (IH w1) as (rem2 & Hplan2 & Hdone2).
        destruct (deliverReplies chunkText sendMessageSignal rest target
                    textLimit w1) as [[r w2] cs2]. simpl in *.
        exists rem2. rewrite (Hdone1 eq_refl), app_nil_r in Hplan1.
        rewrite Hplan1, Hplan2, app_assoc. split; [reflexivity | exact Hdone2].
      * eexists. split; [rewrite Hplan1, <- app_assoc; reflexivity |].
        intros H. discriminate H.
  - intros Hok.
    assert (Hsend : forall t x m w', fst (fst (sendTo sendMessageSignal t x m w'))
                                     = Returns tt).
    { intros t x m w'. unfold sendTo. specialize (Hok t x m w').
      destruct (sendMessageSignal t x m w'). exact Hok. }
    assert (Hchunks : forall chunks w',
              fst (fst (sendChunks sendMessageSignal target chunks w')) = Returns tt).
    { induction chunks as [| chunk more IH]; intros w'; [reflexivity |].
      simpl. unfold andThen. specialize (Hsend target chunk None w').
      destruct (sendTo sendMessageSignal target chunk None w')
        as [[[[] | err] w1] cs]; simpl in Hsend; [| discriminate].
      specialize (IH w1).
      destruct (sendChunks sendMessageSignal target more w1) as [[r w2] cs2].
      exact IH. }
    assert (Hmedia : forall text urls first w',
              fst (fst (sendMedia sendMessageSignal target text first urls w'))
              = Returns tt).
    { intros text. induction urls as [| url more IH]; intros first w';
        [reflexivity |].
      simpl. unfold andThen.
      specialize (Hsend target (if first then text else "") (Some url) w').
      destruct (sendTo sendMessageSignal target (if first then text else "")
                  (Some url) w') as [[[[] | err] w1] cs]; simpl in Hsend;
        [| discriminate].
      specialize (IH false w1).
      destruct (sendMedia sendMessageSignal target text false more w1)
        as [[r w2] cs2].
      exact IH. }
    assert (Hreply : forall payload w',
              fst (fst (deliverReply chunkText sendMessageSignal target textLimit
                         payload w')) = Returns tt).
    { intros payload w'. unfold deliverReply.
      destruct (negb (Js.truthy (Js.nullish (replyText payload) ""))
                && (length (mediaListOf payload) =? 0)%nat); [reflexivity |].
      unfold andThen.
      destruct (length (mediaListOf payload) =? 0)%nat.
      - specialize (Hchunks (chunkText (Js.nullish (replyText payload) "")
                               textLimit) w').
        destruct (sendChunks sendMessageSignal target
                    (chunkText (Js.nullish (replyText payload) "") textLimit) w')
          as [[[[] | err] w1] cs]; simpl in *; [reflexivity | discriminate].
      - specialize (Hmedia (Js.nullish (replyText payload) "")
                      (mediaListOf payload) true w').
        destruct (sendMedia sendMessageSignal target
                    (Js.nullish (replyText payload) "") true
                    (mediaListOf payload) w')
          as [[[[] | err] w1] cs]; simpl in *; [reflexivity | discriminate]. }
    revert w. induction replies as [| payload rest IH]; intros w; [reflexivity |].
    simpl. unfold andThen. specialize (Hreply payload w).
    destruct (deliverReply chunkText sendMessageSignal target textLimit payload w)
      as [[[[] | err] w1] cs]; simpl in Hreply; [| discriminate].
    specialize (IH w1).
    destruct (deliverReplies chunkText sendMessageSignal rest target textLimit w1)
      as [[r w2] cs2].
    exact IH.
Qed.

End DeliveryProperties.

(** * The callback given to the dispatcher *)

Section DispatcherProperties.

Context (E : Collaborators) (cfg : Settings).

Lemma plan_targets (chunks : string -> Z -> list string) (target : string)
  (textLimit : Z) (payload : ReplyPayload) :
  Forall (fun c => match c with
                   | DSendMessage to _ _ => to = target
                   | DRuntimeLog msg => msg = "delivered reply to " ++ target
                   end)
    (deliveryPlan chunks target textLimit payload).
Proof.
  unfold deliveryPlan. cbv zeta.
  destruct (mediaListOf payload) as [| url rest].
  - destruct (Js.truthy (Js.nullish (replyText payload) "")); [| constructor].
    apply Forall_app. split; [| repeat constructor].
    apply Forall_forall. intros c Hin. apply in_map_iff in Hin.
    destruct Hin as (chunk & <- & _). reflexivity.
  - constructor; [reflexivity |]. apply Forall_app. split; [| repeat constructor].
    apply Forall_forall. intros c Hin. apply in_map_iff in Hin.
    destruct Hin as (u & <- & _). reflexivity.
Qed.

(** X30. The [deliver] callback the handler gives to the dispatcher sends a
    reply back to the conversation the message came from: what it does is
    always an initial part of the plan of that one reply for the target
    [To] of the dispatched context and the text limit resolved for the
    account, the whole plan when it returns normally; so every message it
    sends goes to [To], and its log line names [To]. *)
Theorem replies_go_back_to_the_conversation
  (ctx : MsgContext) (payload : ReplyPayload) (w : World E) :
  (exists remaining,
      deliveryPlan (chunkText E) (To ctx)
        (resolveTextChunkLimit E "signal" (accountId cfg)) payload
      = (snd (deliver E cfg ctx payload w) ++ remaining)%list
      /\ (fst (fst (deliver E cfg ctx payload w)) = Returns tt ->
          remaining = []))
  /\ Forall (fun c => match c with
                      | DSendMessage to _ _ => to = To ctx
                      | DRuntimeLog msg => msg = "delivered reply to " ++ To ctx
                      end)
       (snd (deliver E cfg ctx payload w)).
Proof.
  assert (Hplan : exists remaining,
            deliveryPlan (chunkText E) (To ctx)
              (resolveTextChunkLimit E "signal" (accountId cfg)) payload
            = (snd (deliver E cfg ctx payload w) ++ remaining)%list
            /\ (fst (fst (deliver E cfg ctx payload w)) = Returns tt ->
                remaining = [])).
  { unfold deliver. simpl. unfold andThen, done.
    destruct (deliverReply_plan (chunkText E) (sendMessageSignal E) (To ctx)
                (resolveTextChunkLimit E "signal" (accountId cfg)) payload w)
      as (remaining & Heq & Hdone).
    destruct (deliverReply (chunkText E) (sendMessageSignal E) (To ctx)
                (resolveTextChunkLimit E "signal" (accountId cfg)) payload w)
      as [[[[] | err] w1] cs]; simpl in *.
    - exists remaining. rewrite app_nil_r. split; assumption.
    - exists remaining. split; [exact Heq |]. intros H. discriminate H. }
  split; [exact Hplan |].
  destruct Hplan as (remaining & Heq & _).
  pose proof (plan_targets (chunkText E) (To ctx)
                (resolveTextChunkLimit E "signal" (accountId cfg)) payload)
    as Hall.
  rewrite Heq in Hall. apply Forall_app in Hall. apply Hall.
Qed.

End DispatcherProperties.

(** * Waiting for the daemon *)

Section ReadinessProperties.

Context {W : Type}.
Variable now : W -> Z.
Variable aborted : W -> bool.
Variable signalCheck : string -> Z -> W -> Except SignalCheckResult * W.
Variable sleep : Z -> W -> W.
Variable dangerText : string -> string.

(** X24. The wait ends at once in three cases.  With a timeout that is not
    positive it throws [signal daemon not ready (unknown error)], having
    logged the same reason, without a single probe.  With a positive
    timeout it returns without a probe when the abort signal is already
    raised, and after exactly one probe, without sleeping, when that probe
    answers ok. *)
Theorem wait_ends_at_once (baseUrl : string) (timeoutMs : Z) (fuel : nat)
  (w : W) :
  ((timeoutMs <= 0)%Z ->
   waitForSignalDaemonReady now aborted signalCheck sleep dangerText
     baseUrl timeoutMs fuel w
   = (Some (Throws "Error: signal daemon not ready (unknown error)"), w,
      [WRuntimeError
         (dangerText ("daemon not ready after " ++ Js.numberToString timeoutMs
                        ++ "ms (unknown error)"))]))
  /\ ((0 < timeoutMs)%Z -> aborted w = true ->
      waitForSignalDaemonReady now aborted signalCheck sleep dangerText
        baseUrl timeoutMs (S fuel) w
      = (Some (Returns tt), w, []))
  /\ (forall res w1,
        (0 < timeoutMs)%Z -> aborted w = false ->
        signalCheck baseUrl 1000 w = (Returns res, w1) ->
        ok res = true ->
        waitForSignalDaemonReady now aborted signalCheck sleep dangerText
          baseUrl timeoutMs (S fuel) w
        = (Some (Returns tt), w1, [WSignalCheck baseUrl 1000])).
Proof.
  unfold waitForSignalDaemonReady. repeat split.
  - intros Hle. destruct fuel; simpl; rewrite Z.sub_diag;
      destruct (Z.ltb_spec 0 timeoutMs); try lia; reflexivity.
  - intros Hpos Habort. simpl. rewrite Z.sub_diag.
    destruct (Z.ltb_spec 0 timeoutMs); [| lia]. rewrite Habort. reflexivity.
  - intros res w1 Hpos Hgo Hcheck Hok. simpl. rewrite Z.sub_diag.
    destruct (Z.ltb_spec 0 timeoutMs); [| lia].
    rewrite Hgo, Hcheck, Hok. reflexivity.
Qed.

Lemma waitLoop_bounded (baseUrl : string) (timeoutMs : Z) :
  (forall u t w', (now w' <= now (snd (signalCheck u t w')))%Z) ->
  (forall ms w', (now w' + ms <= now (sleep ms w'))%Z) ->
  forall fuel started lastError w,
    (timeoutMs - (now w - started) <= 150 * Z.of_nat fuel)%Z ->
    let r := waitLoop now aborted signalCheck sleep dangerText baseUrl timeoutMs
               fuel started lastError w in
    fst (fst r) <> None
    /\ length (filter isCheck (snd r)) <= fuel
    /\ length (filter isSleep (snd r)) <= length (filter isCheck (snd r)).
Proof.
  intros Hcheck Hsleep. induction fuel as [| fuel IH];
    intros started lastError w Hleft; cbv zeta.
  - simpl. destruct (Z.ltb_spec (now w - started) timeoutMs); [lia |].
    simpl. repeat split; try lia. discriminate.
  - rewrite Nat2Z.inj_succ in Hleft.
    simpl. destruct (Z.ltb_spec (now w - started) timeoutMs);
      [| simpl; repeat split; try lia; discriminate].
    destruct (aborted w); [simpl; repeat split; try lia; discriminate |].
    pose proof (Hcheck baseUrl 1000%Z w) as Hmono.
    destruct (signalCheck baseUrl 1000 w) as [[res | err] w1]; simpl in Hmono;
      [| simpl; repeat split; try lia; discriminate].
    destruct (ok res); [simpl; repeat split; try lia; discriminate |].
    pose proof (Hsleep 150%Z w1) as Hslept.
    specialize (IH started (Some (checkFailure res)) (sleep 150 w1)).
    cbv zeta in IH. destruct IH as (Hsome & Hchecks & Hsleeps); [lia |].
    clear Hleft.
    destruct (waitLoop now aborted signalCheck sleep dangerText baseUrl
                timeoutMs fuel started (Some (checkFailure res))
                (sleep 150 w1)) as [[r w2] cs].
    simpl in *. repeat split; try lia. exact Hsome.
Qed.

(** X25. The wait is bounded.  If the clock never goes back over a probe
    and every sleep lets at least its duration pass, then a wait with a
    timeout of at most 150 ms times [fuel] ends within [fuel] turns: it
    returns or throws, it probes the daemon at most [fuel] times, and it
    never sleeps more often than it probes. *)
Theorem wait_is_bounded (baseUrl : string) (timeoutMs : Z) (fuel : nat) (w : W) :
  (forall u t w', (now w' <= now (snd (signalCheck u t w')))%Z) ->
  (forall ms w', (now w' + ms <= now (sleep ms w'))%Z) ->
  (timeoutMs <= 150 * Z.of_nat fuel)%Z ->
  let r := waitForSignalDaemonReady now aborted signalCheck sleep dangerText
             baseUrl timeoutMs fuel w in
  fst (fst r) <> None
  /\ length (filter isCheck (snd r)) <= fuel
  /\ length (filter isSleep (snd r)) <= length (filter isCheck (snd r)).
Proof.
  intros Hcheck Hsleep Hfuel. unfold waitForSignalDaemonReady.
  apply waitLoop_bounded; try assumption. lia.
Qed.

Lemma waitLoop_outcome (baseUrl : string) (timeoutMs : Z) :
  forall fuel started lastError w,
    let r := waitLoop now aborted signalCheck sleep dangerText baseUrl timeoutMs
               fuel started lastError w in
    match fst (fst r) with
    | None => True
    | Some (Returns _) => Forall (fun c => isWaitError c = false) (snd r)
    | Some (Throws err) =>
        (exists reason,
            err = "Error: signal daemon not ready (" ++ reason ++ ")"
            /\ last (snd r) (WSleep 0)
               = WRuntimeError
                   (dangerText ("daemon not ready after "
                                  ++ Js.numberToString timeoutMs ++ "ms ("
                                  ++ reason ++ ")"))
            /\ length (filter isWaitError (snd r)) = 1)
        \/ ((exists w0 w1, signalCheck baseUrl 1000 w0 = (Throws err, w1))
            /\ Forall (fun c => isWaitError c = false) (snd r))
    end.
Proof.
  induction fuel as [| fuel IH]; intros started lastError w; cbv zeta.
  - simpl. destruct (now w - started <? timeoutMs)%Z; simpl; [exact I |].
    left. eexists. repeat split.
  - simpl. destruct (now w - started <? timeoutMs)%Z; simpl;
      [| left; eexists; repeat split].
    destruct (aborted w); [simpl; constructor |].
    destruct (signalCheck baseUrl 1000 w) as [[res | err] w1] eqn:Hcheck; simpl.
    + destruct (ok res); [simpl; repeat constructor |].
      specialize (IH started (Some (checkFailure res)) (sleep 150 w1)).
      cbv zeta in IH.
      destruct (waitLoop now aborted signalCheck sleep dangerText baseUrl
                  timeoutMs fuel started (Some (checkFailure res))
                  (sleep 150 w1)) as [[[[[] | err] |] w2] cs]; simpl in *.
      * repeat constructor. exact IH.
      * destruct IH as [(reason & Herr & Hlast & Hone) | (Hthrown & Hquiet)].
        -- left. exists reason. repeat split; try assumption.
           destruct cs as [| c cs']; [discriminate Hone | exact Hlast].
        -- right. split; [exact Hthrown |]. repeat constructor. exact Hquiet.
      * exact I.
    + right. split; [exists w, w1; exact Hcheck | repeat constructor].
Qed.

(** X26. When the wait returns normally it has logged no error.  When it
    throws, either a probe itself threw that error, and nothing was logged,
    or the error is [signal daemon not ready] with a reason, and then the
    last thing the wait did was to log, through [runtime.error] and once
    only, that the daemon was not ready after the timeout, with the same
    reason. *)
Theorem wait_logs_what_it_throws (baseUrl : string) (timeoutMs : Z)
  (fuel : nat) (w : W) :
  let r := waitForSignalDaemonReady now aborted signalCheck sleep dangerText
             baseUrl timeoutMs fuel w in
  (forall u, fst (fst r) = Some (Returns u) ->
             length (filter isWaitError (snd r)) = 0)
  /\ (forall err, fst (fst r) = Some (Throws err) ->
        (exists reason,
            err = "Error: signal daemon not ready (" ++ reason ++ ")"
            /\ last (snd r) (WSleep 0)
               = WRuntimeError
                   (dangerText ("daemon not ready after "
                                  ++ Js.numberToString timeoutMs ++ "ms ("
                                  ++ reason ++ ")"))
            /\ length (filter isWaitError (snd r)) = 1)
        \/ ((exists w0 w1, signalCheck baseUrl 1000 w0 = (Throws err, w1))
            /\ length (filter isWaitError (snd r)) = 0)).
Proof.
  cbv zeta. unfold waitForSignalDaemonReady.
  pose proof (waitLoop_outcome baseUrl timeoutMs fuel (now w) None w) as H.
  cbv zeta in H.
  assert (Hnone : forall cs, Forall (fun c => isWaitError c = false) cs ->
                             length (filter isWaitError cs) = 0).
  { induction 1 as [| c cs Hc _ IH]; simpl; [reflexivity |].
    rewrite Hc. exact IH. }
  destruct (waitLoop now aborted signalCheck sleep dangerText baseUrl timeoutMs
              fuel (now w) None w) as [[r w1] cs]. simpl in *.
  split.
  - intros u Hr. subst r. apply Hnone. exact H.
  - intros err Hr. subst r. destruct H as [H | (Hthrown & Hquiet)].
    + left. exact H.
    + right. split; [exact Hthrown | apply Hnone; exact Hquiet].
Qed.

End ReadinessProperties.

(** * Settings *)

Lemma string_app_nil_r (s : string) : s ++ "" = s.
Proof. induction s as [| c s IH]; simpl; [reflexivity |]. f_equal. exact IH. Qed.


Lemma rev_app (s t : string) : Js.rev (s ++ t) = Js.rev t ++ Js.rev s.
Proof.
  induction s as [| c s IH]; simpl.
  - rewrite string_app_nil_r. reflexivity.
  - rewrite IH, string_app_assoc. reflexivity.
Qed.

Lemma rev_involutive (s : string) : Js.rev (Js.rev s) = s.
Proof.
  induction s as [| c s IH]; simpl; [reflexivity |].
  rewrite rev_app, IH. reflexivity.
Qed.

Lemma trimStart_head (s : string) :
  Js.trimStart s = ""
  \/ exists c r, Js.trimStart s = String c r /\ Js.isSpace c = false.
Proof.
  induction s as [| c s IH]; simpl; [left; reflexivity |].
  destruct (Js.isSpace c) eqn:Hc; [exact IH |].
  right. exists c, s. split; [reflexivity | exact Hc].
Qed.

Lemma trimStart_idempotent (s : string) :
  Js.trimStart (Js.trimStart s) = Js.trimStart s.
Proof.
  destruct (trimStart_head s) as [-> | (c & r & -> & Hc)]; simpl;
    [reflexivity |].
  rewrite Hc. reflexivity.
Qed.

Lemma trimStart_snoc (x : string) (c : ascii) :
  Js.isSpace c = false ->
  exists y, Js.trimStart (x ++ String c "") = y ++ String c "".
Proof.
  intros Hc. induction x as [| d x IH]; simpl.
  - rewrite Hc. exists "". reflexivity.
  - destruct (Js.isSpace d); [exact IH |]. exists (String d x). reflexivity.
Qed.

Lemma trimEnd_head (c : ascii) (r : string) :
  Js.isSpace c = false -> exists r', Js.trimEnd (String c r) = String c r'.
Proof.
  intros Hc. unfold Js.trimEnd. simpl.
  destruct (trimStart_snoc (Js.rev r) c Hc) as (y & ->).
  rewrite rev_app. simpl. exists (Js.rev y). reflexivity.
Qed.

Lemma trimEnd_idempotent (s : string) : Js.trimEnd (Js.trimEnd s) = Js.trimEnd s.
Proof.
  unfold Js.trimEnd. rewrite rev_involutive, trimStart_idempotent. reflexivity.
Qed.

Lemma trim_idempotent (s : string) : Js.trim (Js.trim s) = Js.trim s.
Proof.
  unfold Js.trim.
  destruct (trimStart_head s) as [-> | (c & r & -> & Hc)].
  - reflexivity.
  - destruct (trimEnd_head c r Hc) as (r' & Hend). rewrite Hend.
    simpl Js.trimStart. rewrite Hc, <- Hend. apply trimEnd_idempotent.
Qed.

Lemma normalized_entries (raw : option (list AllowEntry)) :
  Forall (fun entry => Js.truthy entry = true /\ Js.trim entry = entry)
    (normalizeAllowList raw).
Proof.
  unfold normalizeAllowList. apply Forall_forall. intros entry Hin.
  apply filter_In in Hin. destruct Hin as (Hin & Htruthy).
  apply in_map_iff in Hin. destruct Hin as (e & <- & _).
  split; [exact Htruthy | apply trim_idempotent].
Qed.

(** X27. The allow-lists the monitor works with hold no empty entry and no
    entry with white space around it, numbers being written in decimal;
    nothing configured gives the empty list; and normalising a normalised
    list changes nothing. *)
Theorem normalizeAllowList_is_clean (raw : option (list AllowEntry)) :
  Forall (fun entry => entry <> "" /\ Js.trim entry = entry)
    (normalizeAllowList raw)
  /\ normalizeAllowList None = []
  /\ normalizeAllowList (Some (map EntryString (normalizeAllowList raw)))
     = normalizeAllowList raw.
Proof.
  split; [| split; [reflexivity |]].
  - eapply Forall_impl; [| apply normalized_entries].
    intros entry (Htruthy & Htrim). split; [| exact Htrim].
    intros ->. discriminate Htruthy.
  - pose proof (normalized_entries raw) as Hclean.
    induction Hclean as [| entry rest (Htruthy & Htrim) _ IH];
      [reflexivity |].
    unfold normalizeAllowList in *. simpl in *.
    rewrite Htrim, Htruthy. f_equal. exact IH.
Qed.

(** X28. The account the monitor works with: a non-blank [account] option
    wins, trimmed; a blank or absent one falls back to the trimmed
    configured account; and whatever comes out has no white space around
    it. *)
Theorem resolved_account (opts : MonitorSignalOpts) (info : AccountInfo) :
  (forall a, optAccount opts = Some a -> Js.trim a <> "" ->
             account (resolveSettings opts info) = Some (Js.trim a))
  /\ ((optAccount opts = None
       \/ exists a, optAccount opts = Some a /\ Js.trim a = "") ->
      account (resolveSettings opts info)
      = option_map Js.trim (cfgAccount (infoConfig info)))
  /\ (forall a, account (resolveSettings opts info) = Some a -> Js.trim a = a).
Proof.
  unfold resolveSettings. simpl. unfold Js.orOpt. repeat split.
  - intros a -> Hne. simpl. unfold Js.truthy.
    destruct (String.eqb_spec (Js.trim a) ""); [contradiction | reflexivity].
  - intros [-> | (a & -> & Hblank)]; simpl; [reflexivity |].
    rewrite Hblank. reflexivity.
  - intros a.
    destruct (optAccount opts) as [o |]; simpl;
      [destruct (Js.truthy (Js.trim o)) |];
      try (intros H; inversion H; apply trim_idempotent);
      destruct (cfgAccount (infoConfig info)) as [c |]; simpl;
      intros H; inversion H; apply trim_idempotent.
Qed.

(** X29. The group allow-list is taken from the [groupAllowFrom] option,
    else from the configured [groupAllowFrom], else from the configured
    [allowFrom]; the [allowFrom] option plays no part in it, and a group
    list that is given but empty is kept empty, without falling back. *)
Theorem resolved_group_allow_list (opts : MonitorSignalOpts) (info : AccountInfo) :
  groupAllowFrom (resolveSettings opts info)
  = normalizeAllowList
      (Js.nullishOpt (optGroupAllowFrom opts)
         (Js.nullishOpt (cfgGroupAllowFrom (infoConfig info))
            (cfgAllowFrom (infoConfig info))))
  /\ ((optGroupAllowFrom opts = Some []
       \/ (optGroupAllowFrom opts = None
           /\ cfgGroupAllowFrom (infoConfig info) = Some [])) ->
      groupAllowFrom (resolveSettings opts info) = []).
Proof.
  unfold resolveSettings. simpl. split.
  - destruct (optGroupAllowFrom opts) as [og |]; simpl; [reflexivity |].
    destruct (cfgGroupAllowFrom (infoConfig info)) as [cg |]; simpl;
      [reflexivity |].
    destruct (cfgAllowFrom (infoConfig info)) as [[| e l] |]; reflexivity.
  - intros [-> | (-> & ->)]; reflexivity.
Qed.

(** * The further properties on concrete frames *)

Lemma dropped_frames_witness :
  worldOf (handleEvent Fixtures.env Fixtures.openSettings (Mock.receive "sync")
             Mock.emptyWorld) = Mock.emptyWorld
  /\ Forall (fun c => isLog c = true)
       (callsOf (handleEvent Fixtures.env Fixtures.openSettings
                   (Mock.receive "sync") Mock.emptyWorld)).
Proof.
  destruct (dropped_frames_have_no_effect Fixtures.env Fixtures.openSettings
              (Mock.receive "sync") Mock.emptyWorld) as (_ & Hworld & Hlogs).
  - right. right. right.
    exists "sync", (Mock.payloadOf Fixtures.syncEnvelope).
    split; [reflexivity |]. split; [reflexivity |].
    right. exists Fixtures.syncEnvelope. split; [reflexivity |].
    left. reflexivity.
  - split; assumption.
Defined.

Lemma exception_field_witness :
  callsOf (handleEvent Fixtures.env Fixtures.openSettings
             (Mock.receive "with-exception") Mock.emptyWorld)
  = CRuntimeError "receive exception: boom"
    :: callsOf (handleEnvelope Fixtures.env Fixtures.openSettings
                  Mock.helloEnvelope Mock.emptyWorld).
Proof.
  apply (exception_field_is_logged_and_processing_continues Fixtures.env
           Fixtures.openSettings (Mock.receive "with-exception")
           Fixtures.exceptionPayload Mock.helloEnvelope "boom" Mock.emptyWorld);
    by_computation.
Defined.

Lemma reaction_modes_witness :
  calledTimes isEnqueue
    (callsOf (handleEvent Fixtures.env (Fixtures.modeSettings ModeOff [])
                (Mock.receive "own-reaction") Mock.emptyWorld)) = 0
  /\ calledTimes isEnqueue
       (callsOf (handleEvent Fixtures.env (Fixtures.modeSettings ModeAll [])
                   (Mock.receive "uuid-only-reaction") Mock.emptyWorld)) = 1.
Proof.
  split.
  - apply (reaction_modes_off_and_all Fixtures.env
             (Fixtures.modeSettings ModeOff []) (Mock.receive "own-reaction")
             (Mock.payloadOf Mock.ownReactionEnvelope) Mock.ownReactionEnvelope
             (SenderPhone "+15550001111") Mock.ownReaction Mock.emptyWorld);
      by_computation.
  - apply (reaction_modes_off_and_all Fixtures.env
             (Fixtures.modeSettings ModeAll [])
             (Mock.receive "uuid-only-reaction")
             (Mock.payloadOf Fixtures.uuidOnlyReactionEnvelope)
             Fixtures.uuidOnlyReactionEnvelope
             (SenderPhone "+15550001111") Fixtures.uuidOnlyReaction
             Mock.emptyWorld);
      by_computation.
Defined.

Lemma reaction_allowlist_witness :
  calledTimes isEnqueue
    (callsOf (handleEvent Fixtures.env
                (Fixtures.modeSettings ModeAllowlist ["+15550001111"])
                (Mock.receive "uuid-only-reaction") Mock.emptyWorld)) = 1
  /\ calledTimes isEnqueue
       (callsOf (handleEvent Fixtures.env
                   (Fixtures.modeSettings ModeAllowlist ["+15550003333"])
                   (Mock.receive "uuid-only-reaction") Mock.emptyWorld)) = 0.
Proof.
  split.
  - apply (reaction_mode_allowlist_checks_the_sender Fixtures.env
             (Fixtures.modeSettings ModeAllowlist ["+15550001111"])
             (Mock.receive "uuid-only-reaction")
             (Mock.payloadOf Fixtures.uuidOnlyReactionEnvelope)
             Fixtures.uuidOnlyReactionEnvelope
             (SenderPhone "+15550001111") Fixtures.uuidOnlyReaction
             Mock.emptyWorld);
      by_computation.
  - apply (reaction_mode_allowlist_checks_the_sender Fixtures.env
             (Fixtures.modeSettings ModeAllowlist ["+15550003333"])
             (Mock.receive "uuid-only-reaction")
             (Mock.payloadOf Fixtures.uuidOnlyReactionEnvelope)
             Fixtures.uuidOnlyReactionEnvelope
             (SenderPhone "+15550001111") Fixtures.uuidOnlyReaction
             Mock.emptyWorld);
      by_computation.
Defined.

Lemma own_mode_uuid_only_witness :
  calledTimes isEnqueue
    (callsOf (handleEvent Fixtures.env Mock.ownSettings
                (Mock.receive "uuid-only-reaction") Mock.emptyWorld)) = 0
  /\ calledTimes isEnqueue
       (callsOf (handleEvent Fixtures.env Fixtures.uuidAccountSettings
                   (Mock.receive "uuid-only-reaction") Mock.emptyWorld)) = 1.
Proof.
  split.
  - apply (own_mode_with_uuid_only_target Fixtures.env Mock.ownSettings
             (Mock.receive "uuid-only-reaction")
             (Mock.payloadOf Fixtures.uuidOnlyReactionEnvelope)
             Fixtures.uuidOnlyReactionEnvelope
             (SenderPhone "+15550001111") Fixtures.uuidOnlyReaction
             "+15550002222" "123e4567-e89b-12d3-a456-426614174000"
             Mock.emptyWorld);
      by_computation.
  - apply (own_mode_with_uuid_only_target Fixtures.env
             Fixtures.uuidAccountSettings
             (Mock.receive "uuid-only-reaction")
             (Mock.payloadOf Fixtures.uuidOnlyReactionEnvelope)
             Fixtures.uuidOnlyReactionEnvelope
             (SenderPhone "+15550001111") Fixtures.uuidOnlyReaction
             "uuid:123e4567-e89b-12d3-a456-426614174000"
             "123e4567-e89b-12d3-a456-426614174000" Mock.emptyWorld);
      by_computation.
Defined.

Lemma reaction_targets_witness :
  resolveSignalReactionTargets Fixtures.env (Mock.reactionTo (Some "  ") None None)
  = []
  /\ display {| kind := KindUuid;
                id := "123e4567-e89b-12d3-a456-426614174000";
                display := "uuid:123e4567-e89b-12d3-a456-426614174000" |}
     = "uuid:" ++ "123e4567-e89b-12d3-a456-426614174000".
Proof.
  split.
  - destruct (reaction_targets_shape Fixtures.env
                (Mock.reactionTo (Some "  ") None None)) as (_ & Hnone & _).
    apply Hnone. split; reflexivity.
  - destruct (reaction_targets_shape Fixtures.env Mock.ownReaction)
      as (_ & _ & Hshape & _).
    apply (Hshape {| kind := KindUuid;
                     id := "123e4567-e89b-12d3-a456-426614174000";
                     display := "uuid:123e4567-e89b-12d3-a456-426614174000" |}).
    left. reflexivity.
Defined.

Lemma frame_without_data_message_witness :
  calledTimes isStoreRead
    (callsOf (handleEvent Fixtures.env (Fixtures.modeSettings ModeAll [])
                (Mock.receive "own-reaction") Mock.emptyWorld)) = 0
  /\ calledTimes isDispatch
       (callsOf (handleEvent Fixtures.env (Fixtures.modeSettings ModeAll [])
                   (Mock.receive "own-reaction") Mock.emptyWorld)) = 0.
Proof.
  destruct (frame_without_data_message_is_not_a_message Fixtures.env
              (Fixtures.modeSettings ModeAll []) (Mock.receive "own-reaction")
              (Mock.payloadOf Mock.ownReactionEnvelope) Mock.ownReactionEnvelope
              Mock.emptyWorld)
    as (_ & Hread & _ & _ & _ & _ & Hdispatch); [by_computation .. |].
  split; assumption.
Defined.

Lemma notifications_witness :
  prefix "Signal reaction added: "
    ("Signal reaction added: +1 by Ada msg 2 from "
       ++ "uuid:123e4567-e89b-12d3-a456-426614174000") = true
  /\ prefix "signal:reaction:added:" "signal:reaction:added:2:+15550001111:+1"
     = true.
Proof.
  apply (notifications_are_reaction_events Fixtures.env
           (Fixtures.modeSettings ModeAll []) (Mock.receive "own-reaction")
           Mock.emptyWorld _ "agent:main:signal:dm:+15550001111" _).
  right. left. reflexivity.
Defined.

Lemma direct_message_denied_witness :
  callsOf (handleEvent Fixtures.env (Fixtures.dmSettings DmDisabled ["*"])
             (Mock.receive "hello") Mock.emptyWorld)
  = [CReadAllowFromStore "signal"]
  /\ callsOf (handleEvent Fixtures.env
                (Fixtures.dmSettings DmAllowlist ["+15550003333"])
                (Mock.receive "hello") Mock.emptyWorld)
     = [CReadAllowFromStore "signal";
        CLogVerbose "Blocked signal sender +15550001111 (dmPolicy=allowlist)"].
Proof.
  split.
  - destruct (direct_message_denied_silently Fixtures.env
                (Fixtures.dmSettings DmDisabled ["*"]) (Mock.receive "hello")
                (Mock.payloadOf Mock.helloEnvelope) Mock.helloEnvelope
                (SenderPhone "+15550001111") (Mock.textMessage "hello" None)
                Mock.emptyWorld) as (Hdisabled & _); [by_computation .. |].
    rewrite (Hdisabled eq_refl). reflexivity.
  - destruct (direct_message_denied_silently Fixtures.env
                (Fixtures.dmSettings DmAllowlist ["+15550003333"])
                (Mock.receive "hello")
                (Mock.payloadOf Mock.helloEnvelope) Mock.helloEnvelope
                (SenderPhone "+15550001111") (Mock.textMessage "hello" None)
                Mock.emptyWorld) as (_ & Hlisted); [by_computation .. |].
    rewrite (Hlisted eq_refl eq_refl). reflexivity.
Defined.

Lemma open_policy_witness :
  calledTimes isUpsert
    (callsOf (handleEvent Fixtures.env (Fixtures.dmSettings DmOpen [])
                (Mock.receive "hello") Mock.emptyWorld)) = 0
  /\ filter isOutbound
       (callsOf (handleEvent Fixtures.env (Fixtures.dmSettings DmOpen [])
                   (Mock.receive "hello") Mock.emptyWorld))
     = [CDeliver (DSendMessage "signal:+15550001111" "PFX pong" None)].
Proof.
  destruct (open_policy_admits_every_direct_message Fixtures.env
              (Fixtures.dmSettings DmOpen []) (Mock.receive "hello")
              (Mock.payloadOf Mock.helloEnvelope) Mock.helloEnvelope
              (SenderPhone "+15550001111") (Mock.textMessage "hello" None)
              Mock.emptyWorld) as (_ & Hupsert & Hout); [by_computation .. |].
  split; [exact Hupsert | rewrite Hout; reflexivity].
Defined.

Lemma group_messages_never_pair_witness :
  calledTimes isUpsert
    (callsOf (handleEvent Fixtures.env (Fixtures.groupPolicySettings GroupOpen [])
                (Mock.receive "group-hello") Mock.emptyWorld)) = 0
  /\ calledTimes isUpdateLastRoute
       (callsOf (handleEvent Fixtures.env
                   (Fixtures.groupPolicySettings GroupOpen [])
                   (Mock.receive "group-hello") Mock.emptyWorld)) = 0
  /\ filter isOutbound
       (callsOf (handleEvent Fixtures.env
                   (Fixtures.groupPolicySettings GroupOpen [])
                   (Mock.receive "group-hello") Mock.emptyWorld))
     = [CDeliver (DSendMessage "group:g1" "PFX pong" None)].
Proof.
  destruct (group_messages_never_pair Fixtures.env
              (Fixtures.groupPolicySettings GroupOpen [])
              (Mock.receive "group-hello") (Mock.payloadOf Mock.groupEnvelope)
              Mock.groupEnvelope (SenderPhone "+15550001111")
              (Mock.textMessage "hello all" (Some Mock.friends)) Mock.emptyWorld)
    as (Hupsert & Hroute & Hout); [by_computation .. |].
  split; [exact Hupsert |]. split; [exact Hroute | rewrite Hout; reflexivity].
Defined.

Lemma group_message_blocked_witness :
  callsOf (handleEvent Fixtures.env (Fixtures.groupPolicySettings GroupDisabled [])
             (Mock.receive "group-hello") Mock.emptyWorld)
  = [CReadAllowFromStore "signal";
     CLogVerbose "Blocked signal group message (groupPolicy: disabled)"]
  /\ callsOf (handleEvent Fixtures.env
                (Fixtures.groupPolicySettings GroupAllowlist ["+15550003333"])
                (Mock.receive "group-hello") Mock.emptyWorld)
     = [CReadAllowFromStore "signal";
        CLogVerbose
          "Blocked signal group sender +15550001111 (not in groupAllowFrom)"].
Proof.
  split.
  - destruct (group_message_blocked Fixtures.env
                (Fixtures.groupPolicySettings GroupDisabled [])
                (Mock.receive "group-hello") (Mock.payloadOf Mock.groupEnvelope)
                Mock.groupEnvelope (SenderPhone "+15550001111")
                (Mock.textMessage "hello all" (Some Mock.friends))
                Mock.emptyWorld) as (Hdisabled & _); [by_computation .. |].
    rewrite (Hdisabled eq_refl). reflexivity.
  - destruct (group_message_blocked Fixtures.env
                (Fixtures.groupPolicySettings GroupAllowlist ["+15550003333"])
                (Mock.receive "group-hello") (Mock.payloadOf Mock.groupEnvelope)
                Mock.groupEnvelope (SenderPhone "+15550001111")
                (Mock.textMessage "hello all" (Some Mock.friends))
                Mock.emptyWorld) as (_ & Hlisted); [by_computation .. |].
    rewrite (Hlisted eq_refl ltac:(discriminate) eq_refl). reflexivity.
Defined.

Lemma dispatched_contexts_witness :
  exists ctx,
    In (CDispatch ctx None)
       (callsOf (handleEvent Fixtures.env (Fixtures.dmSettings DmOpen [])
                   (Mock.receive "hello") Mock.emptyWorld))
    /\ OriginatingTo ctx = To ctx
    /\ MediaUrl ctx = MediaPath ctx
    /\ (ChatType ctx = "group"
        \/ (ChatType ctx = "direct" /\ CommandAuthorized ctx = true
            /\ GroupSubject ctx = None /\ From ctx = To ctx)).
Proof.
  eexists. split.
  - right. right. left. reflexivity.
  - apply (dispatched_contexts_are_well_formed Fixtures.env
             (Fixtures.dmSettings DmOpen []) (Mock.receive "hello")
             Mock.emptyWorld _ None).
    right. right. left. reflexivity.
Defined.

Lemma upsert_failure_witness :
  outcomeOf (handleEvent Fixtures.brokenPairing Mock.pairingSettings
               (Mock.receive "hello") Mock.emptyWorld) = Throws "Error: EACCES"
  /\ outcomeOf (onEvent Fixtures.brokenPairing Mock.pairingSettings
                  (Mock.receive "hello") Mock.emptyWorld) = Returns tt
  /\ callsOf (onEvent Fixtures.brokenPairing Mock.pairingSettings
                (Mock.receive "hello") Mock.emptyWorld)
     = (callsOf (handleEvent Fixtures.brokenPairing Mock.pairingSettings
                   (Mock.receive "hello") Mock.emptyWorld)
        ++ [CRuntimeError "event handler failed: Error: EACCES"])%list.
Proof.
  destruct (upsert_failure_is_logged_by_the_callback Fixtures.brokenPairing
              Mock.pairingSettings (Mock.receive "hello")
              (Mock.payloadOf Mock.helloEnvelope) Mock.helloEnvelope
              (SenderPhone "+15550001111") (Mock.textMessage "hello" None)
              "Error: EACCES" Mock.emptyWorld)
    as (Hthrows & _ & Hreturns & Hcalls); [by_computation .. |].
  split; [exact Hthrows |]. split; [exact Hreturns | exact Hcalls].
Defined.

Lemma own_send_witness :
  In (CSendMessage "signal:+15550001111"
        "Your Signal number: +15550001111 Pairing code: PAIRCODE")
     (callsOf (handleEvent Mock.env Mock.pairingSettings
                 (Mock.receive "hello") Mock.emptyWorld))
  /\ dmPolicy Mock.pairingSettings = DmPairing
  /\ calledTimes isSend
       (callsOf (handleEvent Mock.env Mock.pairingSettings
                   (Mock.receive "hello") Mock.emptyWorld))
     <= calledTimes isUpsert
          (callsOf (handleEvent Mock.env Mock.pairingSettings
                      (Mock.receive "hello") Mock.emptyWorld)).
Proof.
  assert (Hin : In (CSendMessage "signal:+15550001111"
                      "Your Signal number: +15550001111 Pairing code: PAIRCODE")
                   (callsOf (handleEvent Mock.env Mock.pairingSettings
                               (Mock.receive "hello") Mock.emptyWorld))).
  { right. right. right. left. reflexivity. }
  destruct (own_send_is_the_pairing_reply Mock.env Mock.pairingSettings
              (Mock.receive "hello") Mock.emptyWorld) as (Hle & _ & Hown).
  split; [exact Hin |]. split; [exact (proj1 (Hown _ _ Hin)) | exact Hle].
Defined.

Lemma empty_message_witness :
  calledTimes isUpdateLastRoute
    (callsOf (handleEvent Fixtures.env Fixtures.openSettings
                (Mock.receive "empty") Mock.emptyWorld)) = 0
  /\ calledTimes isDispatch
       (callsOf (handleEvent Fixtures.env Fixtures.openSettings
                   (Mock.receive "empty") Mock.emptyWorld)) = 0.
Proof.
  destruct (empty_message_is_not_dispatched Fixtures.env Fixtures.openSettings
              (Mock.receive "empty") (Mock.payloadOf Fixtures.emptyEnvelope)
              Fixtures.emptyEnvelope (SenderPhone "+15550001111")
              Fixtures.emptyMessage Mock.emptyWorld)
    as (_ & Hroute & Hdispatch);
    [by_computation | reflexivity | left; reflexivity | reflexivity
     | reflexivity |].
  split; assumption.
Defined.

Lemma oversize_attachment_witness :
  calledTimes isMedia
    (callsOf (handleEvent Fixtures.env (Fixtures.groupPolicySettings GroupOpen [])
                (Mock.receive "attachment") Mock.emptyWorld)) = 0
  /\ calledTimes isDispatch
       (callsOf (handleEvent Fixtures.env
                   (Fixtures.groupPolicySettings GroupOpen [])
                   (Mock.receive "attachment") Mock.emptyWorld)) = 1
  /\ In (CRuntimeError
           ("attachment fetch failed: Error: Signal attachment att1 exceeds "
              ++ "8MB limit"))
        (callsOf (handleEvent Fixtures.env
                    (Fixtures.groupPolicySettings GroupOpen [])
                    (Mock.receive "attachment") Mock.emptyWorld)).
Proof.
  destruct (oversize_attachment_does_not_drop_the_message Fixtures.env
              (Fixtures.groupPolicySettings GroupOpen [])
              (Mock.receive "attachment")
              (Mock.payloadOf Fixtures.attachmentEnvelope)
              Fixtures.attachmentEnvelope (SenderPhone "+15550001111")
              Fixtures.attachmentMessage Fixtures.bigAttachment []
              "att1" 99999999%Z Mock.emptyWorld)
    as (Hmedia & _ & Hgroup);
    [by_computation | reflexivity | reflexivity | reflexivity | reflexivity
     | discriminate | reflexivity |].
  destruct (Hgroup eq_refl eq_refl eq_refl) as (Honce & Hlogged).
  split; [exact Hmedia |]. split; [exact Honce |]. exact (Hlogged eq_refl).
Defined.

Lemma ignored_attachments_witness :
  calledTimes isMedia
    (callsOf (handleEvent Fixtures.brokenPairing Fixtures.ignoringSettings
                (Mock.receive "attachment") Mock.emptyWorld)) = 0.
Proof.
  apply (ignored_attachments_are_never_fetched Fixtures.brokenPairing
           Fixtures.ignoringSettings (Mock.receive "attachment")
           Mock.emptyWorld).
  reflexivity.
Defined.

Lemma fetchAttachment_no_call_witness :
  fetchAttachment Fixtures.env None Fixtures.smallAttachment None None
    8388608%Z Mock.emptyWorld = (Returns None, Mock.emptyWorld, [])
  /\ fetchAttachment Fixtures.env None Fixtures.bigAttachment
       (Some "+15550001111") None 8388608%Z Mock.emptyWorld
     = (Throws "Error: Signal attachment att1 exceeds 8MB limit",
        Mock.emptyWorld, []).
Proof.
  split.
  - destruct (fetchAttachment_makes_no_call_without_cause Fixtures.env None
                Fixtures.smallAttachment None None 8388608%Z Mock.emptyWorld)
      as (_ & Hpeer & _).
    apply Hpeer; try reflexivity.
    intros sz Hsize. inversion Hsize. right. lia.
  - destruct (fetchAttachment_makes_no_call_without_cause Fixtures.env None
                Fixtures.bigAttachment (Some "+15550001111") None 8388608%Z
                Mock.emptyWorld) as (_ & _ & Hbig).
    apply (Hbig "att1" 99999999%Z); try reflexivity. discriminate.
Defined.

Lemma fetchAttachment_request_witness :
  fetchAttachment Fixtures.brokenPairing (Some "") Fixtures.smallAttachment
    (Some "+15550001111") (Some "g1") 8388608%Z Mock.emptyWorld
  = (Returns (Some {| savedPath := "/tmp/media";
                      savedContentType := Some "image/png" |}),
     Mock.emptyWorld,
     [CRpcGetAttachment "att2" None (Some "g1") None;
      CSaveMediaBuffer "aGVsbG8=" (Some "image/png") 8388608%Z]).
Proof.
  refine (fetchAttachment_request_and_store Fixtures.brokenPairing (Some "")
            Fixtures.smallAttachment (Some "+15550001111") (Some "g1")
            8388608%Z "att2" Mock.emptyWorld eq_refl eq_refl _ _).
  - intros sz Hsize. inversion Hsize. right. lia.
  - left. reflexivity.
Defined.

Lemma empty_replies_witness :
  deliverReplies Fixtures.chunker Fixtures.transport
    [Fixtures.replyOf (Some "") (Some "https://example.org/a.png") (Some []);
     Fixtures.replyOf (Some "hi") None None] "signal:+15550001111" 100%Z []
  = deliverReplies Fixtures.chunker Fixtures.transport
      [Fixtures.replyOf (Some "hi") None None] "signal:+15550001111" 100%Z [].
Proof.
  apply (empty_replies_are_skipped Fixtures.chunker Fixtures.transport).
  - reflexivity.
  - left. reflexivity.
Defined.

Lemma deliverReplies_plan_witness :
  snd (deliverReplies Fixtures.chunker Fixtures.transport
         [Fixtures.replyOf (Some "hello world") None None;
          Fixtures.replyOf (Some "see") (Some "ignored") (Some ["a"; "b"])]
         "group:g1" 6%Z [])
  = [DSendMessage "group:g1" "hello " None;
     DSendMessage "group:g1" "world" None;
     DRuntimeLog "delivered reply to group:g1";
     DSendMessage "group:g1" "see" (Some "a");
     DSendMessage "group:g1" "" (Some "b");
     DRuntimeLog "delivered reply to group:g1"]
  /\ fst (fst (deliverReplies Fixtures.chunker
                 (fun _ _ _ (w : unit) => (Returns tt, w))
                 [Fixtures.replyOf (Some "hello world") None None]
                 "group:g1" 6%Z tt)) = Returns tt.
Proof.
  split.
  - destruct (deliverReplies_follows_the_plan Fixtures.chunker Fixtures.transport
                [Fixtures.replyOf (Some "hello world") None None;
                 Fixtures.replyOf (Some "see") (Some "ignored") (Some ["a"; "b"])]
                "group:g1" 6%Z []) as ((remaining & Hplan & Hdone) & _).
    rewrite (Hdone eq_refl), app_nil_r in Hplan. rewrite <- Hplan. reflexivity.
  - apply (deliverReplies_follows_the_plan Fixtures.chunker
             (fun _ _ _ (w : unit) => (Returns tt, w))).
    intros t x m w'. reflexivity.
Defined.

Lemma replies_go_back_witness :
  snd (deliver Mock.env Mock.defaultSettings
         {| Body := "hi"; From := "signal:+15550001111";
            To := "signal:+15550001111"; SessionKey := "s"; AccountId := "default";
            ChatType := "direct"; GroupSubject := None; SenderName := "Ada";
            SenderId := "+15550001111"; MessageSid := None; Timestamp := None;
            MediaPath := None; MediaType := None; MediaUrl := None;
            CommandAuthorized := true; OriginatingTo := "signal:+15550001111" |}
         (Fixtures.replyOf (Some "see") None (Some ["a.png"; "b.png"]))
         Mock.emptyWorld)
  = [ DSendMessage "signal:+15550001111" "see" (Some "a.png");
      DSendMessage "signal:+15550001111" "" (Some "b.png");
      DRuntimeLog "delivered reply to signal:+15550001111" ].
Proof.
  destruct (replies_go_back_to_the_conversation Mock.env Mock.defaultSettings
              {| Body := "hi"; From := "signal:+15550001111";
                 To := "signal:+15550001111"; SessionKey := "s";
                 AccountId := "default"; ChatType := "direct";
                 GroupSubject := None; SenderName := "Ada";
                 SenderId := "+15550001111"; MessageSid := None;
                 Timestamp := None; MediaPath := None; MediaType := None;
                 MediaUrl := None; CommandAuthorized := true;
                 OriginatingTo := "signal:+15550001111" |}
              (Fixtures.replyOf (Some "see") None (Some ["a.png"; "b.png"]))
              Mock.emptyWorld) as ((remaining & Heq & Hdone) & _).
  rewrite (Hdone eq_refl), app_nil_r in Heq. symmetry. exact Heq.
Defined.

Lemma wait_ends_at_once_witness :
  waitForSignalDaemonReady (fun w => w) Fixtures.neverAborted
    (Fixtures.probe 0) Fixtures.pass (fun s => s) "http://127.0.0.1:8080" 0%Z
    3 1000%Z
  = (Some (Throws "Error: signal daemon not ready (unknown error)"), 1000%Z,
     [WRuntimeError "daemon not ready after 0ms (unknown error)"])
  /\ waitForSignalDaemonReady (fun w => w) Fixtures.neverAborted
       (Fixtures.probe 0) Fixtures.pass (fun s => s) "http://127.0.0.1:8080"
       10000%Z 1 1000%Z
     = (Some (Returns tt), 1005%Z, [WSignalCheck "http://127.0.0.1:8080" 1000]).
Proof.
  destruct (wait_ends_at_once (fun w => w) Fixtures.neverAborted
              (Fixtures.probe 0) Fixtures.pass (fun s => s)
              "http://127.0.0.1:8080" 0%Z 3 1000%Z) as (Hnow & _).
  destruct (wait_ends_at_once (fun w => w) Fixtures.neverAborted
              (Fixtures.probe 0) Fixtures.pass (fun s => s)
              "http://127.0.0.1:8080" 10000%Z 0 1000%Z) as (_ & _ & Hready).
  split.
  - apply Hnow. lia.
  - apply (Hready {| ok := true; status := Some 503%Z; checkError := None |});
      reflexivity.
Defined.

Lemma wait_is_bounded_witness :
  fst (fst (waitForSignalDaemonReady (fun w => w) Fixtures.neverAborted
              (Fixtures.probe 100000000) Fixtures.pass (fun s => s)
              "http://127.0.0.1:8080" 10000%Z 67 0%Z)) <> None
  /\ length (filter isCheck
               (snd (waitForSignalDaemonReady (fun w => w) Fixtures.neverAborted
                       (Fixtures.probe 100000000) Fixtures.pass (fun s => s)
                       "http://127.0.0.1:8080" 10000%Z 67 0%Z))) <= 67.
Proof.
  destruct (wait_is_bounded (fun w => w) Fixtures.neverAborted
              (Fixtures.probe 100000000) Fixtures.pass (fun s => s)
              "http://127.0.0.1:8080" 10000%Z 67 0%Z)
    as (Hends & Hprobes & _).
  - intros u t w'. unfold Fixtures.probe. simpl. lia.
  - intros ms w'. unfold Fixtures.pass. lia.
  - lia.
  - split; assumption.
Defined.

Lemma wait_logs_witness :
  length (filter isWaitError
            (snd (waitForSignalDaemonReady (fun w => w) Fixtures.neverAborted
                    (Fixtures.probe 300) Fixtures.pass (fun s => s)
                    "http://127.0.0.1:8080" 10000%Z 67 0%Z))) = 0.
Proof.
  apply (wait_logs_what_it_throws (fun w => w) Fixtures.neverAborted
           (Fixtures.probe 300) Fixtures.pass (fun s => s)
           "http://127.0.0.1:8080" 10000%Z 67 0%Z) with (u := tt).
  reflexivity.
Defined.

Lemma resolved_account_witness :
  account (resolveSettings
             {| optAccount := Some "   "; optAccountId := None;
                optBaseUrl := None; optIgnoreAttachments := None;
                optAllowFrom := None; optGroupAllowFrom := None;
                optMediaMaxMb := None |}
             (Mock.testAccount (Some " +15550002222 ") None [] None))
  = Some "+15550002222".
Proof.
  destruct (resolved_account
              {| optAccount := Some "   "; optAccountId := None;
                 optBaseUrl := None; optIgnoreAttachments := None;
                 optAllowFrom := None; optGroupAllowFrom := None;
                 optMediaMaxMb := None |}
              (Mock.testAccount (Some " +15550002222 ") None [] None))
    as (_ & Hfallback & _).
  rewrite Hfallback; [reflexivity |].
  right. exists "   ". split; reflexivity.
Defined.

Lemma resolved_group_allow_list_witness :
  groupAllowFrom (resolveSettings
                    {| optAccount := None; optAccountId := None;
                       optBaseUrl := None; optIgnoreAttachments := None;
                       optAllowFrom := Some [EntryString "+15550001111"];
                       optGroupAllowFrom := Some []; optMediaMaxMb := None |}
                    (Mock.testAccount None None ["+15550003333"] None))
  = [].
Proof.
  apply (resolved_group_allow_list
           {| optAccount := None; optAccountId := None;
              optBaseUrl := None; optIgnoreAttachments := None;
              optAllowFrom := Some [EntryString "+15550001111"];
              optGroupAllowFrom := Some []; optMediaMaxMb := None |}
           (Mock.testAccount None None ["+15550003333"] None)).
  left. reflexivity.
Defined.
